(** * DRM Video Endpoint driver (drivers/gpu/drm/xlnx/drm_video_endpoint.c)

    A shallow embedding of the driver's register programming, property
    plumbing, pipeline sequencing and SDI timing derivation, followed by the
    properties established about them.

    Conventions.
    - C integers are carried as [Z]; every operation writes its wrap-around
      out ([u32], [s32], ...).  The kernel is built with
      -fno-strict-overflow, so signed arithmetic wraps as well.
    - Pointers are [Z] addresses, [NULL] is [0].
    - Register traffic and calls into the timing controller (the xlnx_stc
      functions) and the VPSS bridge (the xlnx_bridge functions), whose
      bodies live in other files, are recorded as events of a device
      monad. *)

From Stdlib Require Import ZArith List Lia Bool String.
Import ListNotations.
Local Open Scope Z_scope.

(** ** Machine arithmetic *)

Module C.

(** Value of an [unsigned int] / [u32] expression. *)
Definition u32 (z : Z) : Z := z mod 2 ^ 32.

(** Value of an [int] expression (two's complement wrap-around). *)
Definition s32 (z : Z) : Z := (z + 2 ^ 31) mod 2 ^ 32 - 2 ^ 31.

(** Value of an [unsigned long] / [uint64_t] expression (arm64). *)
Definition u64 (z : Z) : Z := z mod 2 ^ 64.

(** [bool] conversion: any non-zero scalar becomes 1. *)
Definition to_bool (z : Z) : Z := if z =? 0 then 0 else 1.

Definition int_sub (a b : Z) : Z := s32 (a - b).
Definition int_add (a b : Z) : Z := s32 (a + b).
Definition int_mul (a b : Z) : Z := s32 (a * b).
(** C division truncates towards zero. *)
Definition int_div (a b : Z) : Z := s32 (Z.quot a b).

Definition u32_add (a b : Z) : Z := u32 (a + b).
Definition u32_mul (a b : Z) : Z := u32 (a * b).

Definition BIT (n : Z) : Z := Z.shiftl 1 n.

Definition in_int (z : Z) : Prop := - 2 ^ 31 <= z < 2 ^ 31.

End C.
Import C.

(** ** Register map and constants *)

Definition RREG_VERSION : Z := 0x00.
Definition RREG_IRQ_STATUS : Z := 0x04.
Definition RREG_AXI_S_VID_LOCKED : Z := 0x08.
Definition RREG_AXI_S_VID_OVERFLOW : Z := 0x0C.
Definition RREG_AXI_S_VID_UNDERFLOW : Z := 0x10.
Definition RREG_AXI_S_VID_STATUS : Z := 0x14.
Definition RREG_AXI_S_VID_FIFO_READ_LEVEL : Z := 0x18.
Definition RREG_SDI_BRIDGE_STATUS : Z := 0x1c.

Definition WREG_CORE_ENABLE : Z := 0x00.
Definition WREG_AXI_S_VID_ENABLE : Z := 0x04.
Definition WREG_IRQ_ENABLE : Z := 0x08.
Definition WREG_IRQ_CLEAR : Z := 0x0C.
Definition WREG_IRQ_MASK : Z := 0x10.
Definition WREG_SDI_BRIDGE_ENABLE : Z := 0x14.
Definition WREG_SDI_MODE : Z := 0x18.
Definition WREG_SDI_IS_FRAC : Z := 0x1C.
Definition WREG_SDI_FORMAT : Z := 0x20.

Definition AXI_S_VID_LOCKED_INTR : Z := BIT 0.
Definition AXI_S_VID_OVERFLOW_INTR : Z := BIT 1.
Definition AXI_S_VID_UNDERFLOW_INTR : Z := BIT 2.
Definition IRQ_EN_MASK : Z :=
  Z.lor AXI_S_VID_OVERFLOW_INTR AXI_S_VID_UNDERFLOW_INTR.

Definition PIXELS_PER_CLK : Z := 2.

Definition SDI_MODE_HD : Z := 0.
Definition SDI_MODE_SD : Z := 1.
Definition SDI_MODE_3GA : Z := 2.
Definition SDI_MODE_3GB : Z := 3.
Definition SDI_MODE_6G : Z := 4.
Definition SDI_MODE_12G : Z := 5.

Definition SDI_TIMING_PARAMS_SIZE : Z := 48.

(** Kernel constants the driver uses but does not define itself:
    errno-base.h, irqreturn.h, uapi/drm/drm_mode.h, video/display_timing.h. *)
Definition EINVAL : Z := 22.
Definition IRQ_HANDLED : Z := 1.
Definition NULL : Z := 0.

Definition DRM_MODE_FLAG_PHSYNC : Z := BIT 0.
Definition DRM_MODE_FLAG_PVSYNC : Z := BIT 2.
Definition DRM_MODE_FLAG_INTERLACE : Z := BIT 4.

Definition DISPLAY_FLAGS_HSYNC_LOW : Z := BIT 0.
Definition DISPLAY_FLAGS_VSYNC_LOW : Z := BIT 2.
Definition DISPLAY_FLAGS_INTERLACED : Z := BIT 8.

(** ** Data *)

(** [struct drm_display_mode], restricted to the members the driver touches:
    the twelve consecutive 4-byte members from [clock] to [flags] (the
    [SDI_TIMING_PARAMS_SIZE] = 48 bytes that the mode-set copies as one block)
    and [vrefresh], which lies outside that block.  The declaration itself is
    in include/drm/drm_modes.h. *)
Record drm_display_mode : Type := mk_mode {
  clock : Z;          (* int, kHz *)
  hdisplay : Z;       (* int *)
  hsync_start : Z;    (* int *)
  hsync_end : Z;      (* int *)
  htotal : Z;         (* int *)
  hskew : Z;          (* int *)
  vdisplay : Z;       (* int *)
  vsync_start : Z;    (* int *)
  vsync_end : Z;      (* int *)
  vtotal : Z;         (* int *)
  vscan : Z;          (* int *)
  flags : Z;          (* unsigned int *)
  vrefresh : Z        (* int *)
}.

(** [struct videomode] (include/video/videomode.h). *)
Record videomode : Type := mk_vm {
  pixelclock : Z;     (* unsigned long, Hz *)
  hactive : Z;        (* u32 *)
  hfront_porch : Z;   (* u32 *)
  hback_porch : Z;    (* u32 *)
  hsync_len : Z;      (* u32 *)
  vactive : Z;        (* u32 *)
  vfront_porch : Z;   (* u32 *)
  vback_porch : Z;    (* u32 *)
  vsync_len : Z;      (* u32 *)
  vm_flags : Z        (* enum display_flags *)
}.

(** [struct drm_vid_ep].  The [struct drm_property *] members are handles
    compared by address; [bridge] is [NULL] when no VPSS bridge is bound. *)
Record drm_vid_ep : Type := mk_ep {
  base : Z;
  mode_flags : Z;
  sdi_mode : Z;
  sdi_mod_prop_val : Z;        (* u32 *)
  sdi_data_strm : Z;
  sdi_data_strm_prop_val : Z;  (* u32 *)
  sdi_420_in : Z;
  sdi_420_in_val : Z;          (* bool *)
  sdi_420_out : Z;
  sdi_420_out_val : Z;         (* bool *)
  is_frac_prop : Z;
  is_frac_prop_val : Z;        (* bool *)
  bridge : Z;
  height_out : Z;
  height_out_prop_val : Z;     (* u32 *)
  width_out : Z;
  width_out_prop_val : Z;      (* u32 *)
  in_fmt : Z;
  in_fmt_prop_val : Z;         (* u32 *)
  out_fmt : Z;
  out_fmt_prop_val : Z;        (* u32 *)
  video_mode : drm_display_mode
}.

(** ** The device monad *)

(** What the driver does to the outside world, in program order. *)
Inductive event : Type :=
| Readl (offset value : Z)
| Writel (offset value : Z)
| DevErrRatelimited (msg : string)
| DevDbg (msg : string)
| StcReset
| StcSig (vm : videomode)
| StcEnable
| StcDisable
| StcFsyncEnable
| StcFsyncDisable
| BridgeSetInput (br width height fmt : Z)
| BridgeSetOutput (br width height fmt : Z)
| BridgeEnable (br : Z)
| BridgeDisable (br : Z).

(** A computation reads registers from the hardware [hw] (offset to value),
    appends to the event log, and yields [None] only when a loop ran out of
    fuel. *)
Definition hardware : Type := Z -> Z.
Definition Dev (A : Type) : Type :=
  hardware -> list event -> option (A * list event).

Definition ret {A} (a : A) : Dev A := fun _ log => Some (a, log).

Definition bind {A B} (c : Dev A) (k : A -> Dev B) : Dev B :=
  fun hw log =>
    match c hw log with
    | Some (a, log') => k a hw log'
    | None => None
    end.

Definition emit (e : event) : Dev unit := fun _ log => Some (tt, log ++ [e]).

Definition lift_option {A} (o : option A) : Dev A :=
  fun _ log => match o with Some a => Some (a, log) | None => None end.

Definition run {A} (c : Dev A) (hw : hardware) : option (A * list event) :=
  c hw [].

Declare Scope dev_scope.
Delimit Scope dev_scope with dev.
Notation "x <- c ;; k" := (bind c (fun x => k))
  (at level 61, c at next level, right associativity) : dev_scope.
Notation "c ;;; k" := (bind c (fun _ => k))
  (at level 61, right associativity) : dev_scope.
Local Open Scope dev_scope.

(** ** Register accessors *)

Definition drm_vid_ep_writel (base offset val : Z) : Dev unit :=
  emit (Writel offset (u32 val)).

Definition drm_vid_ep_readl (base offset : Z) : Dev Z :=
  fun hw log =>
    let v := u32 (hw offset) in Some (v, log ++ [Readl offset v]).

Definition drm_vid_ep_enable_sdi_bridge (drm_ep : drm_vid_ep) : Dev unit :=
  drm_vid_ep_writel (base drm_ep) WREG_SDI_BRIDGE_ENABLE 0x1.

Definition drm_vid_ep_disable_sdi_bridge (drm_ep : drm_vid_ep) : Dev unit :=
  drm_vid_ep_writel (base drm_ep) WREG_SDI_BRIDGE_ENABLE 0x0.

Definition drm_vid_ep_enable_axi4s (drm_ep : drm_vid_ep) : Dev unit :=
  drm_vid_ep_writel (base drm_ep) WREG_AXI_S_VID_ENABLE 0x1.

Definition drm_vid_ep_disable_axi4s (drm_ep : drm_vid_ep) : Dev unit :=
  drm_vid_ep_writel (base drm_ep) WREG_AXI_S_VID_ENABLE 0x0.

(** ** Interrupt handler *)

(** [if (reg & bit) { dev_err_ratelimited(msg); clr = clr | bit; }] *)
Definition irq_condition (reg bit : Z) (msg : string) (clr : Z) : Dev Z :=
  if Z.land reg bit =? 0 then ret clr
  else emit (DevErrRatelimited msg) ;;; ret (Z.lor clr bit).

Definition drm_vid_ep_irq_handler (irq : Z) (drm_ep : drm_vid_ep) : Dev Z :=
  let clr := 0 in
  reg <- drm_vid_ep_readl (base drm_ep) RREG_IRQ_STATUS ;;
  clr <- irq_condition reg AXI_S_VID_LOCKED_INTR "AXI-4 Stream Locked\n" clr ;;
  clr <- irq_condition reg AXI_S_VID_OVERFLOW_INTR
           "AXI-4 Stream Overflow error\n" clr ;;
  clr <- irq_condition reg AXI_S_VID_UNDERFLOW_INTR
           "AXI-4 Stream Underflow error\n" clr ;;
  drm_vid_ep_writel (base drm_ep) WREG_IRQ_CLEAR clr ;;;
  ret IRQ_HANDLED.

(** ** Core enable and SDI mode *)

Definition drm_vid_ep_set_display_disable (drm_ep : drm_vid_ep) : Dev unit :=
  drm_vid_ep_writel (base drm_ep) WREG_IRQ_ENABLE 0x0 ;;;
  drm_vid_ep_writel (base drm_ep) WREG_CORE_ENABLE 0x0.

Definition drm_vid_ep_set_display_enable (drm_ep : drm_vid_ep) : Dev unit :=
  drm_vid_ep_writel (base drm_ep) WREG_CORE_ENABLE 0x1.

(** The [switch (mode)] has its cases in the order of the source; there is
    none for [SDI_MODE_3GB], which therefore takes the [default] branch. *)
Definition drm_vid_ep_set_sdi_mode (drm_ep : drm_vid_ep) (mode is_frac : Z)
  : Dev unit :=
  (if mode =? SDI_MODE_SD then
     drm_vid_ep_writel (base drm_ep) WREG_SDI_MODE 0x1
   else if mode =? SDI_MODE_HD then
     drm_vid_ep_writel (base drm_ep) WREG_SDI_MODE 0x0
   else if mode =? SDI_MODE_3GA then
     drm_vid_ep_writel (base drm_ep) WREG_SDI_MODE 0x2
   else if mode =? SDI_MODE_6G then
     drm_vid_ep_writel (base drm_ep) WREG_SDI_MODE 0x4
   else if mode =? SDI_MODE_12G then
     drm_vid_ep_writel (base drm_ep) WREG_SDI_MODE 0x5
   else
     drm_vid_ep_writel (base drm_ep) WREG_SDI_MODE 0x0) ;;;
  (if negb (is_frac =? 0) then
     drm_vid_ep_writel (base drm_ep) WREG_SDI_IS_FRAC 0x1
   else
     drm_vid_ep_writel (base drm_ep) WREG_SDI_IS_FRAC 0x0).

Definition drm_vid_ep_set_config_parameters (drm_ep : drm_vid_ep) : Dev unit :=
  drm_vid_ep_set_sdi_mode drm_ep (sdi_mod_prop_val drm_ep)
    (is_frac_prop_val drm_ep).

(** ** Connector properties *)

Definition with_sdi_mod_prop_val (v : Z) (e : drm_vid_ep) : drm_vid_ep :=
  mk_ep (base e) (mode_flags e) (sdi_mode e) v (sdi_data_strm e)
    (sdi_data_strm_prop_val e) (sdi_420_in e) (sdi_420_in_val e)
    (sdi_420_out e) (sdi_420_out_val e) (is_frac_prop e) (is_frac_prop_val e)
    (bridge e) (height_out e) (height_out_prop_val e) (width_out e)
    (width_out_prop_val e) (in_fmt e) (in_fmt_prop_val e) (out_fmt e)
    (out_fmt_prop_val e) (video_mode e).

Definition with_sdi_data_strm_prop_val (v : Z) (e : drm_vid_ep) : drm_vid_ep :=
  mk_ep (base e) (mode_flags e) (sdi_mode e) (sdi_mod_prop_val e)
    (sdi_data_strm e) v (sdi_420_in e) (sdi_420_in_val e)
    (sdi_420_out e) (sdi_420_out_val e) (is_frac_prop e) (is_frac_prop_val e)
    (bridge e) (height_out e) (height_out_prop_val e) (width_out e)
    (width_out_prop_val e) (in_fmt e) (in_fmt_prop_val e) (out_fmt e)
    (out_fmt_prop_val e) (video_mode e).

Definition with_sdi_420_in_val (v : Z) (e : drm_vid_ep) : drm_vid_ep :=
  mk_ep (base e) (mode_flags e) (sdi_mode e) (sdi_mod_prop_val e)
    (sdi_data_strm e) (sdi_data_strm_prop_val e) (sdi_420_in e) v
    (sdi_420_out e) (sdi_420_out_val e) (is_frac_prop e) (is_frac_prop_val e)
    (bridge e) (height_out e) (height_out_prop_val e) (width_out e)
    (width_out_prop_val e) (in_fmt e) (in_fmt_prop_val e) (out_fmt e)
    (out_fmt_prop_val e) (video_mode e).

Definition with_sdi_420_out_val (v : Z) (e : drm_vid_ep) : drm_vid_ep :=
  mk_ep (base e) (mode_flags e) (sdi_mode e) (sdi_mod_prop_val e)
    (sdi_data_strm e) (sdi_data_strm_prop_val e) (sdi_420_in e)
    (sdi_420_in_val e) (sdi_420_out e) v (is_frac_prop e) (is_frac_prop_val e)
    (bridge e) (height_out e) (height_out_prop_val e) (width_out e)
    (width_out_prop_val e) (in_fmt e) (in_fmt_prop_val e) (out_fmt e)
    (out_fmt_prop_val e) (video_mode e).

Definition with_is_frac_prop_val (v : Z) (e : drm_vid_ep) : drm_vid_ep :=
  mk_ep (base e) (mode_flags e) (sdi_mode e) (sdi_mod_prop_val e)
    (sdi_data_strm e) (sdi_data_strm_prop_val e) (sdi_420_in e)
    (sdi_420_in_val e) (sdi_420_out e) (sdi_420_out_val e) (is_frac_prop e) v
    (bridge e) (height_out e) (height_out_prop_val e) (width_out e)
    (width_out_prop_val e) (in_fmt e) (in_fmt_prop_val e) (out_fmt e)
    (out_fmt_prop_val e) (video_mode e).

Definition with_height_out_prop_val (v : Z) (e : drm_vid_ep) : drm_vid_ep :=
  mk_ep (base e) (mode_flags e) (sdi_mode e) (sdi_mod_prop_val e)
    (sdi_data_strm e) (sdi_data_strm_prop_val e) (sdi_420_in e)
    (sdi_420_in_val e) (sdi_420_out e) (sdi_420_out_val e) (is_frac_prop e)
    (is_frac_prop_val e) (bridge e) (height_out e) v (width_out e)
    (width_out_prop_val e) (in_fmt e) (in_fmt_prop_val e) (out_fmt e)
    (out_fmt_prop_val e) (video_mode e).

Definition with_width_out_prop_val (v : Z) (e : drm_vid_ep) : drm_vid_ep :=
  mk_ep (base e) (mode_flags e) (sdi_mode e) (sdi_mod_prop_val e)
    (sdi_data_strm e) (sdi_data_strm_prop_val e) (sdi_420_in e)
    (sdi_420_in_val e) (sdi_420_out e) (sdi_420_out_val e) (is_frac_prop e)
    (is_frac_prop_val e) (bridge e) (height_out e) (height_out_prop_val e)
    (width_out e) v (in_fmt e) (in_fmt_prop_val e) (out_fmt e)
    (out_fmt_prop_val e) (video_mode e).

Definition with_in_fmt_prop_val (v : Z) (e : drm_vid_ep) : drm_vid_ep :=
  mk_ep (base e) (mode_flags e) (sdi_mode e) (sdi_mod_prop_val e)
    (sdi_data_strm e) (sdi_data_strm_prop_val e) (sdi_420_in e)
    (sdi_420_in_val e) (sdi_420_out e) (sdi_420_out_val e) (is_frac_prop e)
    (is_frac_prop_val e) (bridge e) (height_out e) (height_out_prop_val e)
    (width_out e) (width_out_prop_val e) (in_fmt e) v (out_fmt e)
    (out_fmt_prop_val e) (video_mode e).

Definition with_out_fmt_prop_val (v : Z) (e : drm_vid_ep) : drm_vid_ep :=
  mk_ep (base e) (mode_flags e) (sdi_mode e) (sdi_mod_prop_val e)
    (sdi_data_strm e) (sdi_data_strm_prop_val e) (sdi_420_in e)
    (sdi_420_in_val e) (sdi_420_out e) (sdi_420_out_val e) (is_frac_prop e)
    (is_frac_prop_val e) (bridge e) (height_out e) (height_out_prop_val e)
    (width_out e) (width_out_prop_val e) (in_fmt e) (in_fmt_prop_val e)
    (out_fmt e) v (video_mode e).

Definition with_video_mode (v : drm_display_mode) (e : drm_vid_ep)
  : drm_vid_ep :=
  mk_ep (base e) (mode_flags e) (sdi_mode e) (sdi_mod_prop_val e)
    (sdi_data_strm e) (sdi_data_strm_prop_val e) (sdi_420_in e)
    (sdi_420_in_val e) (sdi_420_out e) (sdi_420_out_val e) (is_frac_prop e)
    (is_frac_prop_val e) (bridge e) (height_out e) (height_out_prop_val e)
    (width_out e) (width_out_prop_val e) (in_fmt e) (in_fmt_prop_val e)
    (out_fmt e) (out_fmt_prop_val e) v.

(** [val] is a [uint64_t]; the result pairs the returned [int] with the
    endpoint structure after the call. *)
Definition drm_vid_ep_atomic_set_property (drm_ep : drm_vid_ep)
  (property val : Z) : Z * drm_vid_ep :=
  if property =? sdi_mode drm_ep then
    (0, with_sdi_mod_prop_val (u32 val) drm_ep)
  else if property =? sdi_data_strm drm_ep then
    (0, with_sdi_data_strm_prop_val (u32 val) drm_ep)
  else if property =? sdi_420_in drm_ep then
    (0, with_sdi_420_in_val (to_bool val) drm_ep)
  else if property =? sdi_420_out drm_ep then
    (0, with_sdi_420_out_val (to_bool val) drm_ep)
  else if property =? is_frac_prop drm_ep then
    (0, with_is_frac_prop_val (to_bool val) drm_ep)
  else if property =? height_out drm_ep then
    (0, with_height_out_prop_val (u32 val) drm_ep)
  else if property =? width_out drm_ep then
    (0, with_width_out_prop_val (u32 val) drm_ep)
  else if property =? in_fmt drm_ep then
    (0, with_in_fmt_prop_val (u32 val) drm_ep)
  else if property =? out_fmt drm_ep then
    (0, with_out_fmt_prop_val (u32 val) drm_ep)
  else
    (- EINVAL, drm_ep).

(** [val] is the content of the caller's [uint64_t] before the call; the
    result pairs the returned [int] with its content after the call. *)
Definition drm_vid_ep_atomic_get_property (drm_ep : drm_vid_ep)
  (property val : Z) : Z * Z :=
  if property =? sdi_mode drm_ep then
    (0, u64 (sdi_mod_prop_val drm_ep))
  else if property =? sdi_data_strm drm_ep then
    (0, u64 (sdi_data_strm_prop_val drm_ep))
  else if property =? sdi_420_in drm_ep then
    (0, u64 (sdi_420_in_val drm_ep))
  else if property =? sdi_420_out drm_ep then
    (0, u64 (sdi_420_out_val drm_ep))
  else if property =? is_frac_prop drm_ep then
    (0, u64 (is_frac_prop_val drm_ep))
  else if property =? height_out drm_ep then
    (0, u64 (height_out_prop_val drm_ep))
  else if property =? width_out drm_ep then
    (0, u64 (width_out_prop_val drm_ep))
  else if property =? in_fmt drm_ep then
    (0, u64 (in_fmt_prop_val drm_ep))
  else if property =? out_fmt drm_ep then
    (0, u64 (out_fmt_prop_val drm_ep))
  else
    (- EINVAL, val).

(** ** Pipeline sequencing *)

Definition drm_vid_ep_setup (drm_ep : drm_vid_ep) : Dev unit :=
  drm_vid_ep_writel (base drm_ep) WREG_IRQ_MASK IRQ_EN_MASK ;;;
  drm_vid_ep_writel (base drm_ep) WREG_IRQ_ENABLE 0x1 ;;;
  emit StcReset.

Definition drm_vid_ep_commit (drm_ep : drm_vid_ep) : Dev unit :=
  emit (DevDbg "drm_vid_ep_commit\n") ;;;
  drm_vid_ep_set_display_enable drm_ep ;;;
  drm_vid_ep_enable_sdi_bridge drm_ep ;;;
  emit StcEnable ;;;
  emit StcFsyncEnable ;;;
  drm_vid_ep_enable_axi4s drm_ep.

Definition drm_vid_ep_disable (drm_ep : drm_vid_ep) : Dev unit :=
  (if negb (bridge drm_ep =? NULL) then emit (BridgeDisable (bridge drm_ep))
   else ret tt) ;;;
  drm_vid_ep_set_display_disable drm_ep ;;;
  drm_vid_ep_disable_axi4s drm_ep ;;;
  drm_vid_ep_disable_sdi_bridge drm_ep ;;;
  emit StcFsyncDisable ;;;
  emit StcDisable.

(** ** Timing derivation *)

Definition with_pixelclock (v : Z) (vm : videomode) : videomode :=
  mk_vm v (hactive vm) (hfront_porch vm) (hback_porch vm) (hsync_len vm)
    (vactive vm) (vfront_porch vm) (vback_porch vm) (vsync_len vm)
    (vm_flags vm).
Definition with_hfront_porch (v : Z) (vm : videomode) : videomode :=
  mk_vm (pixelclock vm) (hactive vm) v (hback_porch vm) (hsync_len vm)
    (vactive vm) (vfront_porch vm) (vback_porch vm) (vsync_len vm)
    (vm_flags vm).
Definition flag_set (fl bit : Z) : bool := negb (Z.land fl bit =? 0).

(** The [memcpy] of [SDI_TIMING_PARAMS_SIZE] bytes from [&src->clock] to
    [&dst->clock]: the twelve members [clock] .. [flags] come from [src],
    what lies outside the block stays. *)
Definition memcpy_timing_params (dst src : drm_display_mode)
  : drm_display_mode :=
  mk_mode (clock src) (hdisplay src) (hsync_start src) (hsync_end src)
    (htotal src) (hskew src) (vdisplay src) (vsync_start src) (vsync_end src)
    (vtotal src) (vscan src) (flags src) (vrefresh dst).

(** The test of the table scan; the [int] members of the entry are converted
    to [unsigned int] for the comparison with the [u32] property values. *)
Definition sdi_mode_matches (drm_ep : drm_vid_ep)
  (entry adjusted_mode : drm_display_mode) : bool :=
  (u32 (hdisplay entry) =? width_out_prop_val drm_ep) &&
  (u32 (vdisplay entry) =? height_out_prop_val drm_ep) &&
  (vrefresh entry =? vrefresh adjusted_mode).

(** The [for] loop over the table: copy from the first matching entry and
    [break]. *)
Fixpoint sdi_modes_scan (modes : list drm_display_mode) (drm_ep : drm_vid_ep)
  (adjusted_mode : drm_display_mode) : drm_display_mode :=
  match modes with
  | [] => adjusted_mode
  | entry :: rest =>
      if sdi_mode_matches drm_ep entry adjusted_mode
      then memcpy_timing_params adjusted_mode entry
      else sdi_modes_scan rest drm_ep adjusted_mode
  end.

(** Lines 585-601: the scan runs only when a bridge is bound. *)
Definition sdi_timing_override (modes : list drm_display_mode)
  (drm_ep : drm_vid_ep) (adjusted_mode : drm_display_mode)
  : drm_display_mode :=
  if negb (bridge drm_ep =? NULL)
  then sdi_modes_scan modes drm_ep adjusted_mode
  else adjusted_mode.

(** Lines 607-640, member by member.  [vm] is the automatic variable
    [struct videomode vm], declared without initialiser: its incoming value
    is whatever the stack slot holds, and a member the code does not assign
    keeps it. *)
Definition derive_timings (adjusted_mode : drm_display_mode) (vm : videomode)
  : videomode :=
  let interlaced := flag_set (flags adjusted_mode) DRM_MODE_FLAG_INTERLACE in
  {| pixelclock := pixelclock vm;
     hactive := u32 (int_div (hdisplay adjusted_mode) PIXELS_PER_CLK);
     hfront_porch :=
       u32 (int_div (int_sub (hsync_start adjusted_mode)
                             (hdisplay adjusted_mode)) PIXELS_PER_CLK);
     hback_porch :=
       u32 (int_div (int_sub (htotal adjusted_mode)
                             (hsync_end adjusted_mode)) PIXELS_PER_CLK);
     hsync_len :=
       u32 (int_div (int_sub (hsync_end adjusted_mode)
                             (hsync_start adjusted_mode)) PIXELS_PER_CLK);
     vactive := u32 (vdisplay adjusted_mode);
     vfront_porch :=
       u32 (int_sub (vsync_start adjusted_mode) (vdisplay adjusted_mode));
     vback_porch :=
       if interlaced then
         (* vtotal records total size for full frame, not for field *)
         if vtotal adjusted_mode =? 1125 then
           u32 (int_sub 562 (vsync_end adjusted_mode))
         else if vtotal adjusted_mode =? 625 then
           u32 (int_sub 312 (vsync_end adjusted_mode))
         else if vtotal adjusted_mode =? 525 then
           u32 (int_sub 262 (vsync_end adjusted_mode))
         else vback_porch vm
       else
         u32 (int_sub (vtotal adjusted_mode) (vsync_end adjusted_mode));
     vsync_len :=
       u32 (int_sub (vsync_end adjusted_mode) (vsync_start adjusted_mode));
     vm_flags :=
       let fl := 0 in
       let fl := if interlaced
                 then Z.lor fl DISPLAY_FLAGS_INTERLACED else fl in
       let fl := if flag_set (flags adjusted_mode) DRM_MODE_FLAG_PHSYNC
                 then Z.lor fl DISPLAY_FLAGS_HSYNC_LOW else fl in
       let fl := if flag_set (flags adjusted_mode) DRM_MODE_FLAG_PVSYNC
                 then Z.lor fl DISPLAY_FLAGS_VSYNC_LOW else fl in
       fl |}.

(** The two locals of the blanking loop, as expressions of the mode and of
    the record under construction. *)
Definition sditx_blank_of (adjusted_mode : drm_display_mode) : Z :=
  u32 (int_add
         (int_add (int_sub (hsync_start adjusted_mode) (hdisplay adjusted_mode))
                  (int_sub (hsync_end adjusted_mode)
                           (hsync_start adjusted_mode)))
         (int_sub (htotal adjusted_mode) (hsync_end adjusted_mode))).

Definition vtc_blank_of (vm : videomode) : Z :=
  u32_mul (u32_add (u32_add (hfront_porch vm) (hback_porch vm)) (hsync_len vm))
          PIXELS_PER_CLK.

(** Ghost record of one execution of the loop body: the two locals as the
    body computed them and the front porch on entry and on exit. *)
Record blank_pass : Type := mk_pass {
  sditx_blank : Z;
  vtc_blank : Z;
  hfp_before : Z;
  hfp_after : Z
}.

(** Body of the [do ... while] at lines 642-655. *)
Definition blank_body (adjusted_mode : drm_display_mode) (vm : videomode)
  : videomode * blank_pass :=
  let sditx := sditx_blank_of adjusted_mode in
  let vtc := vtc_blank_of vm in
  let vm' := if negb (vtc =? sditx)
             then with_hfront_porch (u32 (hfront_porch vm + 1)) vm
             else vm in
  (vm', mk_pass sditx vtc (hfront_porch vm) (hfront_porch vm')).

(** The loop; [fuel] bounds the number of executions of the body, and the
    list holds one [blank_pass] per execution, first to last. *)
Fixpoint blank_loop (fuel : nat) (adjusted_mode : drm_display_mode)
  (vm : videomode) : option (videomode * list blank_pass) :=
  match fuel with
  | O => None
  | S fuel' =>
      let (vm', p) := blank_body adjusted_mode vm in
      if vtc_blank p <? sditx_blank p then
        match blank_loop fuel' adjusted_mode vm' with
        | Some (vm'', ps) => Some (vm'', p :: ps)
        | None => None
        end
      else Some (vm', [p])
  end.

(** Lines 607-657: the record handed to the timing controller, with the log
    of the loop. *)
Definition derive_videomode (fuel : nat) (adjusted_mode : drm_display_mode)
  (vm : videomode) : option (videomode * list blank_pass) :=
  match blank_loop fuel adjusted_mode (derive_timings adjusted_mode vm) with
  | Some (vm', ps) =>
      Some (with_pixelclock (u64 (int_mul (clock adjusted_mode) 1000)) vm', ps)
  | None => None
  end.

(** Lines 660-663: what the audio driver is shown. *)
Definition publish_video_mode (adjusted_mode : drm_display_mode)
  (drm_ep : drm_vid_ep) : drm_vid_ep :=
  let vmode := video_mode drm_ep in
  with_video_mode
    (mk_mode (clock vmode) (hdisplay adjusted_mode) (hsync_start vmode)
       (hsync_end vmode) (htotal vmode) (hskew vmode) (vdisplay adjusted_mode)
       (vsync_start vmode) (vsync_end vmode) (vtotal vmode) (vscan vmode)
       (flags adjusted_mode) (vrefresh adjusted_mode))
    drm_ep.

Section ModeSet.

(** The [mode] members of the static table [xlnx_sdi_modes]
    (xlnx_sdi_modes.h), in table order. *)
Variable xlnx_sdi_modes : list drm_display_mode.

(** The result is the endpoint structure, the adjusted mode (which the
    function updates in place) and the record passed to [xlnx_stc_sig]. *)
Definition drm_vid_ep_encoder_atomic_mode_set (fuel : nat)
  (drm_ep : drm_vid_ep) (adjusted_mode : drm_display_mode) (vm : videomode)
  : Dev (drm_vid_ep * drm_display_mode * videomode) :=
  emit (BridgeSetInput (bridge drm_ep) (hdisplay adjusted_mode)
          (vdisplay adjusted_mode) (in_fmt_prop_val drm_ep)) ;;;
  emit (BridgeSetOutput (bridge drm_ep) (width_out_prop_val drm_ep)
          (height_out_prop_val drm_ep) (out_fmt_prop_val drm_ep)) ;;;
  emit (BridgeEnable (bridge drm_ep)) ;;;
  let adjusted_mode :=
    sdi_timing_override xlnx_sdi_modes drm_ep adjusted_mode in
  drm_vid_ep_setup drm_ep ;;;
  drm_vid_ep_set_config_parameters drm_ep ;;;
  r <- lift_option (derive_videomode fuel adjusted_mode vm) ;;
  let vm := fst r in
  let drm_ep := publish_video_mode adjusted_mode drm_ep in
  emit (StcSig vm) ;;;
  ret (drm_ep, adjusted_mode, vm).

End ModeSet.

(** ** Observations used in the statements *)

(** Register writes and reads of a log, in order, as (offset, value). *)
Definition writes_of (log : list event) : list (Z * Z) :=
  flat_map (fun e => match e with Writel o v => [(o, v)] | _ => [] end) log.

Definition reads_of (log : list event) : list (Z * Z) :=
  flat_map (fun e => match e with Readl o v => [(o, v)] | _ => [] end) log.

(** Values written to one register. *)
Definition written_to (offset : Z) (log : list event) : list Z :=
  map snd (filter (fun w => fst w =? offset) (writes_of log)).

(** The registers that switch a block or the interrupt line on and off. *)
Definition enable_registers : list Z :=
  [WREG_CORE_ENABLE; WREG_AXI_S_VID_ENABLE; WREG_IRQ_ENABLE;
   WREG_SDI_BRIDGE_ENABLE].

(** The three condition bits of the interrupt status register. *)
Definition IRQ_CONDITIONS : Z :=
  Z.lor (Z.lor AXI_S_VID_LOCKED_INTR AXI_S_VID_OVERFLOW_INTR)
        AXI_S_VID_UNDERFLOW_INTR.

(** The blocks of the pipeline that commit switches on. *)
Inductive block : Type := Core | Bridge | TimingGen | FrameSync | Serializer.

Definition block_eqb (a b : block) : bool :=
  match a, b with
  | Core, Core | Bridge, Bridge | TimingGen, TimingGen
  | FrameSync, FrameSync | Serializer, Serializer => true
  | _, _ => false
  end.

Definition enable_op (e : event) : option block :=
  match e with
  | Writel o 1 =>
      if o =? WREG_CORE_ENABLE then Some Core
      else if o =? WREG_SDI_BRIDGE_ENABLE then Some Bridge
      else if o =? WREG_AXI_S_VID_ENABLE then Some Serializer
      else None
  | StcEnable => Some TimingGen
  | StcFsyncEnable => Some FrameSync
  | _ => None
  end.

Definition disable_op (e : event) : option block :=
  match e with
  | Writel o 0 =>
      if o =? WREG_CORE_ENABLE then Some Core
      else if o =? WREG_SDI_BRIDGE_ENABLE then Some Bridge
      else if o =? WREG_AXI_S_VID_ENABLE then Some Serializer
      else None
  | StcDisable => Some TimingGen
  | StcFsyncDisable => Some FrameSync
  | _ => None
  end.

(** The blocks a log operates on, in order, under a classification. *)
Definition block_order (op : event -> option block) (log : list event)
  : list block :=
  flat_map (fun e => match op e with Some b => [b] | None => [] end) log.

(** The connector properties, by name. *)
Inductive prop_key : Type :=
| K_sdi_mode | K_sdi_data_stream | K_sdi_420_in | K_sdi_420_out | K_is_frac
| K_height_out | K_width_out | K_in_fmt | K_out_fmt.

Definition handle_of (drm_ep : drm_vid_ep) (k : prop_key) : Z :=
  match k with
  | K_sdi_mode => sdi_mode drm_ep
  | K_sdi_data_stream => sdi_data_strm drm_ep
  | K_sdi_420_in => sdi_420_in drm_ep
  | K_sdi_420_out => sdi_420_out drm_ep
  | K_is_frac => is_frac_prop drm_ep
  | K_height_out => height_out drm_ep
  | K_width_out => width_out drm_ep
  | K_in_fmt => in_fmt drm_ep
  | K_out_fmt => out_fmt drm_ep
  end.

Definition all_keys : list prop_key :=
  [K_sdi_mode; K_sdi_data_stream; K_sdi_420_in; K_sdi_420_out; K_is_frac;
   K_height_out; K_width_out; K_in_fmt; K_out_fmt].

Definition handles (drm_ep : drm_vid_ep) : list Z :=
  map (handle_of drm_ep) all_keys.

(** What a property keeps of a 64-bit value: range properties are stored in a
    [u32], boolean properties in a [bool]. *)
Definition stored (k : prop_key) (v : Z) : Z :=
  match k with
  | K_sdi_420_in | K_sdi_420_out | K_is_frac => to_bool v
  | _ => u32 v
  end.

(** The stored property values of an endpoint. *)
Definition prop_values (drm_ep : drm_vid_ep) : list Z :=
  [sdi_mod_prop_val drm_ep; sdi_data_strm_prop_val drm_ep;
   sdi_420_in_val drm_ep; sdi_420_out_val drm_ep; is_frac_prop_val drm_ep;
   height_out_prop_val drm_ep; width_out_prop_val drm_ep;
   in_fmt_prop_val drm_ep; out_fmt_prop_val drm_ep].

(** Valid horizontal timings: the sync pulse lies between the active area
    and the end of the line, the members are [int]s, and so is the length of
    the blanking (as it always is when the active width is not negative). *)
Definition valid_htimings (m : drm_display_mode) : Prop :=
  in_int (hdisplay m) /\ in_int (htotal m) /\
  hdisplay m <= hsync_start m /\ hsync_start m <= hsync_end m /\
  hsync_end m <= htotal m /\
  htotal m - hdisplay m < 2 ^ 31.

Definition ceil_div (a b : Z) : Z := (a + b - 1) / b.

(** The first table entry the scan accepts. *)
Definition first_match (modes : list drm_display_mode) (drm_ep : drm_vid_ep)
  (adjusted_mode : drm_display_mode) : option drm_display_mode :=
  find (fun entry => sdi_mode_matches drm_ep entry adjusted_mode) modes.

(** Successive executions of the loop body: every execution but the last
    found the derived blanking short, the next one sees it larger by
    [PIXELS_PER_CLK] against the same source blanking, and the last one found
    it not short. *)
Fixpoint passes_chain (ps : list blank_pass) : Prop :=
  match ps with
  | [] => False
  | p :: rest =>
      match rest with
      | [] => sditx_blank p <= vtc_blank p
      | q :: _ =>
          vtc_blank p < sditx_blank p /\
          vtc_blank q = vtc_blank p + PIXELS_PER_CLK /\
          sditx_blank q = sditx_blank p /\
          hfp_before q = hfp_after p /\
          passes_chain rest
      end
  end.

(** What one execution of the body does to the front porch. *)
Definition pass_bumps (p : blank_pass) : Prop :=
  (vtc_blank p <> sditx_blank p -> hfp_after p = hfp_before p + 1) /\
  (vtc_blank p = sditx_blank p -> hfp_after p = hfp_before p).

(** Sample data for the worked examples. *)
Definition zero_mode : drm_display_mode := mk_mode 0 0 0 0 0 0 0 0 0 0 0 0 0.
Definition zero_vm : videomode := mk_vm 0 0 0 0 0 0 0 0 0 0.

(** An endpoint with nine distinct property handles and all values zero;
    [br] is the bridge pointer. *)
Definition sample_ep (br : Z) : drm_vid_ep :=
  mk_ep 0xA0030000 0 0x1001 0 0x1002 0 0x1003 0 0x1004 0 0x1005 0 br
    0x1006 0 0x1007 0 0x1008 0 0x1009 0 zero_mode.

(** The CEA-861 1920x1080 at 60 Hz timing (148.5 MHz), as an SDI table
    entry. *)
Definition mode_1080p60 : drm_display_mode :=
  mk_mode 148500 1920 2008 2052 2200 0 1080 1084 1089 1125 0
    (Z.lor DRM_MODE_FLAG_PHSYNC DRM_MODE_FLAG_PVSYNC) 60.

(** The 3840x2160 timing of the worked scenario. *)
Definition mode_2160p (hskew' vscan' flags' vrefresh' : Z)
  : drm_display_mode :=
  mk_mode 594000 3840 3888 3920 4016 hskew' 2160 2168 2176 2222 vscan'
    flags' vrefresh'.

(** A 1920-wide timing whose blanking, 279 pixels, is odd. *)
Definition mode_odd_blanking : drm_display_mode :=
  mk_mode 148500 1920 2009 2053 2199 0 1080 1084 1089 1125 0 0 60.

(** A timing with three pixels of blanking, one per interval. *)
Definition mode_narrow_blanking : drm_display_mode :=
  mk_mode 148500 1920 1921 1922 1923 0 1080 1084 1089 1125 0 0 60.

(** A line total one short of the active width. *)
Definition mode_short_line : drm_display_mode :=
  mk_mode 148500 1920 1920 1920 1919 0 1080 1084 1089 1125 0 0 60.

(** A sync pulse that starts three pixels inside the active area. *)
Definition mode_negative_porch : drm_display_mode :=
  mk_mode 148500 1920 1917 1917 1917 0 1080 1084 1089 1125 0 0 60.

(** Ordered horizontal members that span the whole range of [int]. *)
Definition mode_full_range : drm_display_mode :=
  mk_mode 148500 (- 2 ^ 31) (2 ^ 31 - 1) (2 ^ 31 - 1) (2 ^ 31 - 1) 0
    1080 1084 1089 1125 0 0 60.

(** The CEA-861 1280x720 at 60 Hz timing (74.25 MHz). *)
Definition mode_720p60 : drm_display_mode :=
  mk_mode 74250 1280 1390 1430 1650 0 720 725 730 750 0
    (Z.lor DRM_MODE_FLAG_PHSYNC DRM_MODE_FLAG_PVSYNC) 60.

(** An interlaced timing of 1250 lines (the 1152i50 format). *)
Definition mode_1250i : drm_display_mode :=
  mk_mode 72000 1920 1952 2016 2304 0 1152 1172 1177 1250 0
    DRM_MODE_FLAG_INTERLACE 50.

(** The sample endpoint asked for a 1920x1080 output. *)
Definition sample_ep_1080 (br : Z) : drm_vid_ep :=
  with_width_out_prop_val 1920 (with_height_out_prop_val 1080 (sample_ep br)).

(** The sample endpoint asked for a 12G 3840x2160 output. *)
Definition sample_ep_2160 (br : Z) : drm_vid_ep :=
  with_sdi_mod_prop_val SDI_MODE_12G
    (with_width_out_prop_val 3840
       (with_height_out_prop_val 2160 (sample_ep br))).

(** The CEA-861 1920x1080 interlaced timing at 60 Hz (74.25 MHz), with the
    vertical members counted over the frame. *)
Definition mode_1080i_frame : drm_display_mode :=
  mk_mode 74250 1920 2008 2052 2200 0 1080 1084 1094 1125 0
    (Z.lor (Z.lor DRM_MODE_FLAG_PHSYNC DRM_MODE_FLAG_PVSYNC)
       DRM_MODE_FLAG_INTERLACE) 60.



(** Two different contents of the stack slot of [vm]. *)
Definition stack_a : videomode := mk_vm 0 0 0 0 0 0 0 0 0 0.
Definition stack_b : videomode := mk_vm 0 0 0 0 0 0 0 0xdeadbeef 0 0.

(** ** Platform glue: DRM core, clocks, device tree *)

(** More kernel constants: errno-base.h, errno.h, err.h. *)
Definition ENOMEM : Z := 12.
Definition EPROBE_DEFER : Z := 517.
Definition MAX_ERRNO : Z := 4095.

(** Value of a [long] expression (arm64). *)
Definition s64 (z : Z) : Z := (z + 2 ^ 63) mod 2 ^ 64 - 2 ^ 63.

(** [IS_ERR] and [PTR_ERR] on a pointer carried as its 64-bit address; the
    result of [PTR_ERR] is stored in an [int]. *)
Definition IS_ERR (ptr : Z) : bool := u64 (- MAX_ERRNO) <=? ptr.
Definition PTR_ERR (ptr : Z) : Z := s32 (s64 ptr).

(** Calls into the DRM core, the clock framework, the device tree and the
    component framework, in program order.  [Io] carries the register and
    pipeline traffic of the device monad; the [dev_err] and [dev_info]
    entries keep the format string only. *)
Inductive call : Type :=
| Io (e : event)
| DevErr (fmt : string)
| DevInfo (fmt : string)
| PlatformSetDrvdata
| PlatformData
| ClkPrepareEnable (clk : Z)
| ClkDisableUnprepare (clk : Z)
| OfNodePut (node : Z)
| RequestThreadedIrq (irq : Z)
| ComponentAdd
| ComponentDel
| EncoderInit (possible_crtcs : Z)
| EncoderHelperAdd
| EncoderCleanup
| ConnectorInit (interlace_allowed doublescan_allowed : bool)
| ConnectorHelperAdd
| ConnectorRegister
| ConnectorAttachEncoder
| ConnectorCleanup
| PropertyCreateBool (name : string) (prop : Z)
| PropertyCreateRange (name : string) (min max prop : Z)
| ObjectAttachProperty (prop init : Z)
| ModeProbedAdd (mode : drm_display_mode).

(** The same monad as [Dev], over the longer alphabet. *)
Definition Plat (A : Type) : Type :=
  hardware -> list call -> option (A * list call).

Definition pret {A} (a : A) : Plat A := fun _ log => Some (a, log).

Definition pbind {A B} (c : Plat A) (k : A -> Plat B) : Plat B :=
  fun hw log =>
    match c hw log with
    | Some (a, log') => k a hw log'
    | None => None
    end.

Definition pemit (c : call) : Plat unit := fun _ log => Some (tt, log ++ [c]).

(** A computation of the device monad, run in place. *)
Definition lift_dev {A} (c : Dev A) : Plat A :=
  fun hw log =>
    match c hw [] with
    | Some (a, l) => Some (a, log ++ map Io l)
    | None => None
    end.

Definition prun {A} (c : Plat A) (hw : hardware) : option (A * list call) :=
  c hw [].

Declare Scope plat_scope.
Delimit Scope plat_scope with plat.
Notation "x <- c ;; k" := (pbind c (fun x => k))
  (at level 61, c at next level, right associativity) : plat_scope.
Notation "c ;;; k" := (pbind c (fun _ => k))
  (at level 61, right associativity) : plat_scope.
Local Open Scope plat_scope.

(** *** Mode list *)

Section SdiModes.

(** The [mode] members of [xlnx_sdi_modes], the DRM core's [drm_mode_equal],
    and [drm_mode_duplicate] as it answers the call for table index [i]:
    the new mode, or nothing when the allocation fails. *)
Variable xlnx_sdi_modes : list drm_display_mode.
Variable drm_mode_equal : drm_display_mode -> drm_display_mode -> bool.
Variable drm_mode_duplicate : Z -> drm_display_mode -> option drm_display_mode.

(** The [for] loop of [drm_vid_ep_get_sdi_mode_id] from index [i] on; [i] is
    an [unsigned int] and the function returns an [int]. *)
Fixpoint sdi_mode_id_from (i : Z) (modes : list drm_display_mode)
  (mode : drm_display_mode) : Z :=
  match modes with
  | [] => - EINVAL
  | entry :: rest =>
      if drm_mode_equal entry mode then s32 i
      else sdi_mode_id_from (u32 (i + 1)) rest mode
  end.

Definition drm_vid_ep_get_sdi_mode_id (mode : drm_display_mode) : Z :=
  sdi_mode_id_from 0 xlnx_sdi_modes mode.

(** The loop of [drm_vid_ep_add_sdi_modes] from index [i] on, with the
    count so far. *)
Fixpoint add_sdi_modes_from (i : Z) (modes : list drm_display_mode)
  (num_modes : Z) : Plat Z :=
  match modes with
  | [] => pret num_modes
  | entry :: rest =>
      match drm_mode_duplicate i entry with
      | Some mode =>
          pemit (ModeProbedAdd mode) ;;;
          add_sdi_modes_from (u32 (i + 1)) rest (s32 (num_modes + 1))
      | None => add_sdi_modes_from (u32 (i + 1)) rest num_modes
      end
  end.

Definition drm_vid_ep_add_sdi_modes : Plat Z :=
  add_sdi_modes_from 0 xlnx_sdi_modes 0.

Definition drm_vid_ep_get_sdi_modes : Plat Z := drm_vid_ep_add_sdi_modes.

End SdiModes.

(** *** Connector and encoder *)

(** [new_prop n] is the pointer the DRM core returns to the [n]-th
    [drm_property_create_bool] or [drm_property_create_range] call of the
    function, [NULL] when the creation fails. *)
Definition drm_vid_ep_drm_connector_create_property (new_prop : nat -> Z)
  (e : drm_vid_ep) : Plat drm_vid_ep :=
  pemit (PropertyCreateBool "is_frac" (new_prop 0%nat)) ;;;
  pemit (PropertyCreateRange "sdi_mode" 0 5 (new_prop 1%nat)) ;;;
  pemit (PropertyCreateRange "sdi_data_stream" 2 8 (new_prop 2%nat)) ;;;
  pemit (PropertyCreateBool "sdi_420_in" (new_prop 3%nat)) ;;;
  pemit (PropertyCreateBool "sdi_420_out" (new_prop 4%nat)) ;;;
  pemit (PropertyCreateRange "height_out" 2 4096 (new_prop 5%nat)) ;;;
  pemit (PropertyCreateRange "width_out" 2 4096 (new_prop 6%nat)) ;;;
  pemit (PropertyCreateRange "in_fmt" 0 16384 (new_prop 7%nat)) ;;;
  pemit (PropertyCreateRange "out_fmt" 0 16384 (new_prop 8%nat)) ;;;
  pret (mk_ep (base e) (mode_flags e)
          (new_prop 1%nat) (sdi_mod_prop_val e)
          (new_prop 2%nat) (sdi_data_strm_prop_val e)
          (new_prop 3%nat) (sdi_420_in_val e)
          (new_prop 4%nat) (sdi_420_out_val e)
          (new_prop 0%nat) (is_frac_prop_val e)
          (bridge e)
          (new_prop 5%nat) (height_out_prop_val e)
          (new_prop 6%nat) (width_out_prop_val e)
          (new_prop 7%nat) (in_fmt_prop_val e)
          (new_prop 8%nat) (out_fmt_prop_val e)
          (video_mode e)).

(** [if (prop) drm_object_attach_property(obj, prop, 0);] *)
Definition attach_if_created (prop : Z) : Plat unit :=
  if negb (prop =? NULL) then pemit (ObjectAttachProperty prop 0)
  else pret tt.

Definition drm_vid_ep_drm_connector_attach_property (drm_ep : drm_vid_ep)
  : Plat unit :=
  attach_if_created (sdi_mode drm_ep) ;;;
  attach_if_created (sdi_data_strm drm_ep) ;;;
  attach_if_created (sdi_420_in drm_ep) ;;;
  attach_if_created (sdi_420_out drm_ep) ;;;
  attach_if_created (is_frac_prop drm_ep) ;;;
  attach_if_created (height_out drm_ep) ;;;
  attach_if_created (width_out drm_ep) ;;;
  attach_if_created (in_fmt drm_ep) ;;;
  attach_if_created (out_fmt drm_ep).

(** [connector_init] is what [drm_connector_init] returns.  The result pairs
    the returned [int] with the endpoint structure after the call. *)
Definition drm_vid_ep_create_connector (connector_init : Z)
  (new_prop : nat -> Z) (drm_ep : drm_vid_ep) : Plat (Z * drm_vid_ep) :=
  pemit (ConnectorInit true true) ;;;
  let ret := connector_init in
  if negb (ret =? 0) then
    pemit (DevErr "Failed to initialize connector with drm\n") ;;;
    pret (ret, drm_ep)
  else
    pemit ConnectorHelperAdd ;;;
    pemit ConnectorRegister ;;;
    pemit ConnectorAttachEncoder ;;;
    drm_ep <- drm_vid_ep_drm_connector_create_property new_prop drm_ep ;;
    drm_vid_ep_drm_connector_attach_property drm_ep ;;;
    pret (0, drm_ep).

Definition drm_vid_ep_bind (connector_init : Z) (new_prop : nat -> Z)
  (drm_ep : drm_vid_ep) : Plat (Z * drm_vid_ep) :=
  pemit (EncoderInit 1) ;;;
  pemit EncoderHelperAdd ;;;
  r <- drm_vid_ep_create_connector connector_init new_prop drm_ep ;;
  if negb (fst r =? 0) then
    pemit (DevErr "fail creating connector, ret = %d\n") ;;;
    pemit EncoderCleanup ;;;
    pret r
  else pret r.

Definition drm_vid_ep_unbind (drm_ep : drm_vid_ep) : Plat unit :=
  lift_dev (drm_vid_ep_set_display_disable drm_ep) ;;;
  lift_dev (drm_vid_ep_disable_axi4s drm_ep) ;;;
  lift_dev (drm_vid_ep_disable_sdi_bridge drm_ep) ;;;
  lift_dev (emit StcFsyncDisable) ;;;
  lift_dev (emit StcDisable) ;;;
  pemit EncoderCleanup ;;;
  pemit ConnectorCleanup ;;;
  lift_dev (emit (BridgeDisable (bridge drm_ep))).

(** *** Probe and remove *)

(** A child of the node whose ports are scanned: its name, the first child
    [of_get_next_child] finds ([NULL] for none), and what
    [of_property_read_u32] returns and stores for "reg". *)
Record device_node : Type := mk_node {
  dn_name : option string;
  dn_endpoint : Z;
  dn_reg_ret : Z;
  dn_reg_index : Z
}.

(** What the platform answers to the calls of [drm_vid_ep_probe], in the
    order of the calls. *)
Record platform : Type := mk_platform {
  pl_dev : Z;               (* &pdev->dev *)
  pl_kzalloc : bool;        (* devm_kzalloc succeeds *)
  pl_ioremap : Z;           (* devm_ioremap_resource *)
  pl_axi_clk : Z;           (* devm_clk_get "s_axi_aclk" *)
  pl_vidin_clk : Z;         (* devm_clk_get "video_in_clk" *)
  pl_axi_enable : Z;        (* clk_prepare_enable (axi_clk) *)
  pl_vidin_enable : Z;      (* clk_prepare_enable (vidin_clk) *)
  pl_ports : Z;             (* of_get_child_by_name "ports" *)
  pl_children : list device_node;
  pl_irq : Z;               (* platform_get_irq *)
  pl_request_irq : Z;       (* devm_request_threaded_irq *)
  pl_vpss_node : Z;         (* of_parse_phandle "xlnx,vpss" *)
  pl_bridge : Z;            (* of_xlnx_bridge_get *)
  pl_component_add : Z      (* component_add *)
}.

(** The members of [struct drm_vid_ep] that only probe and remove use,
    beside the ones of [drm_vid_ep]. *)
Record drm_vid_ep_device : Type := mk_device {
  core : drm_vid_ep;
  dev : Z;
  axi_clk : Z;
  vidin_clk : Z
}.

(** The structure as [devm_kzalloc] hands it out. *)
Definition zeroed_ep : drm_vid_ep :=
  mk_ep 0 0 0 0 0 0 0 0 0 0 0 0 0 0 0 0 0 0 0 0 0 zero_mode.

Definition with_base (v : Z) (e : drm_vid_ep) : drm_vid_ep :=
  mk_ep v (mode_flags e) (sdi_mode e) (sdi_mod_prop_val e)
    (sdi_data_strm e) (sdi_data_strm_prop_val e) (sdi_420_in e)
    (sdi_420_in_val e) (sdi_420_out e) (sdi_420_out_val e) (is_frac_prop e)
    (is_frac_prop_val e) (bridge e) (height_out e) (height_out_prop_val e)
    (width_out e) (width_out_prop_val e) (in_fmt e) (in_fmt_prop_val e)
    (out_fmt e) (out_fmt_prop_val e) (video_mode e).

Definition with_bridge (v : Z) (e : drm_vid_ep) : drm_vid_ep :=
  mk_ep (base e) (mode_flags e) (sdi_mode e) (sdi_mod_prop_val e)
    (sdi_data_strm e) (sdi_data_strm_prop_val e) (sdi_420_in e)
    (sdi_420_in_val e) (sdi_420_out e) (sdi_420_out_val e) (is_frac_prop e)
    (is_frac_prop_val e) v (height_out e) (height_out_prop_val e)
    (width_out e) (width_out_prop_val e) (in_fmt e) (in_fmt_prop_val e)
    (out_fmt e) (out_fmt_prop_val e) (video_mode e).

(** The two labels at the end of probe. *)
Definition err_disable_vidin_clk (d : drm_vid_ep_device) (ret : Z)
  : Plat (Z * option drm_vid_ep_device) :=
  pemit (ClkDisableUnprepare (vidin_clk d)) ;;;
  pemit (ClkDisableUnprepare (axi_clk d)) ;;;
  pret (ret, Some d).

Section Probe.

(** [of_node_cmp], the string comparison of the device tree code. *)
Variable of_node_cmp : string -> string -> Z.

(** The [for_each_child_of_node] loop; [Some ret] stands for
    [goto err_disable_vidin_clk] with that [ret].  [portmask] and [nports]
    are kept up to date as in the source, which never reads them. *)
Fixpoint probe_ports (children : list device_node) (portmask nports : Z)
  : Plat (option Z) :=
  match children with
  | [] => pret None
  | port :: rest =>
      if match dn_name port with
         | None => true
         | Some name => negb (of_node_cmp name "port" =? 0)
         end
      then
        lift_dev (emit (DevDbg
                    "port name is null or node name is not port!\n")) ;;;
        probe_ports rest portmask nports
      else if dn_endpoint port =? NULL then
        pemit (DevErr "No remote port at %s\n") ;;;
        pemit (OfNodePut (dn_endpoint port)) ;;;
        pret (Some (- EINVAL))
      else
        pemit (OfNodePut (dn_endpoint port)) ;;;
        let ret := dn_reg_ret port in
        if negb (ret =? 0) then
          pemit (DevErr "reg property not present - %d\n") ;;;
          pret (Some ret)
        else
          probe_ports rest
            (u32 (Z.lor portmask (s32 (Z.shiftl 1 (dn_reg_index port)))))
            (u32 (nports + 1))
  end.

(** Probe from "Bridge support" to the end. *)
Definition probe_bridge_and_component (pl : platform) (d : drm_vid_ep_device)
  : Plat (Z * option drm_vid_ep_device) :=
  let finish d :=
    pemit PlatformData ;;;
    pemit ComponentAdd ;;;
    let ret := pl_component_add pl in
    if ret <? 0 then err_disable_vidin_clk d ret
    else pret (ret, Some d) in
  if negb (pl_vpss_node pl =? NULL) then
    let d := mk_device (with_bridge (pl_bridge pl) (core d)) (dev d)
               (axi_clk d) (vidin_clk d) in
    if bridge (core d) =? NULL then
      pemit (DevInfo "Didn't get bridge instance\n") ;;;
      err_disable_vidin_clk d (- EPROBE_DEFER)
    else finish d
  else finish d.

(** The result pairs the returned [int] with the structure as it stands at
    the return, when one was allocated. *)
Definition drm_vid_ep_probe (pl : platform)
  : Plat (Z * option drm_vid_ep_device) :=
  if negb (pl_kzalloc pl) then pret (- ENOMEM, None)
  else
    let d := mk_device (with_base (pl_ioremap pl) zeroed_ep) (pl_dev pl) 0 0 in
    if IS_ERR (base (core d)) then
      pemit (DevErr "failed to remap io region\n") ;;;
      pret (PTR_ERR (base (core d)), Some d)
    else
      pemit PlatformSetDrvdata ;;;
      let d := mk_device (core d) (dev d) (pl_axi_clk pl) (vidin_clk d) in
      if IS_ERR (axi_clk d) then
        pemit (DevErr "failed to get s_axi_aclk %d\n") ;;;
        pret (PTR_ERR (axi_clk d), Some d)
      else
        let d := mk_device (core d) (dev d) (axi_clk d) (pl_vidin_clk pl) in
        if IS_ERR (vidin_clk d) then
          pemit (DevErr "failed to get video_in_clk %d\n") ;;;
          pret (PTR_ERR (vidin_clk d), Some d)
        else
          pemit (ClkPrepareEnable (axi_clk d)) ;;;
          let ret := pl_axi_enable pl in
          if negb (ret =? 0) then
            pemit (DevErr "failed to enable axi_clk %d\n") ;;;
            pret (ret, Some d)
          else
            pemit (ClkPrepareEnable (vidin_clk d)) ;;;
            let ret := pl_vidin_enable pl in
            (if negb (ret =? 0)
             then pemit (DevErr "failed to enable vidin_clk %d\n")
             else pret tt) ;;;
            (if pl_ports pl =? NULL
             then lift_dev (emit (DevDbg
                             "Searching for port nodes in device node.\n"))
             else pret tt) ;;;
            r <- probe_ports (pl_children pl) 0 0 ;;
            match r with
            | Some ret => err_disable_vidin_clk d ret
            | None =>
                (* disable interrupt *)
                lift_dev (drm_vid_ep_writel (base (core d)) WREG_IRQ_ENABLE
                            0x0) ;;;
                let irq := pl_irq pl in
                if irq <? 0 then err_disable_vidin_clk d irq
                else
                  pemit (RequestThreadedIrq irq) ;;;
                  let ret := pl_request_irq pl in
                  if ret <? 0 then err_disable_vidin_clk d ret
                  else probe_bridge_and_component pl d
            end.

End Probe.

Definition drm_vid_ep_remove (d : drm_vid_ep_device) : Plat Z :=
  pemit ComponentDel ;;;
  pemit (ClkDisableUnprepare (vidin_clk d)) ;;;
  pemit (ClkDisableUnprepare (axi_clk d)) ;;;
  pret 0.

(** ** Further observations *)

(** The last value a log writes to a register, if it writes to it. *)
Definition last_written (offset : Z) (log : list event) : option Z :=
  last (map Some (written_to offset log)) None.

(** The register and pipeline traffic inside a platform log. *)
Definition io_of (log : list call) : list event :=
  flat_map (fun c => match c with Io e => [e] | _ => [] end) log.

(** How often a clock is enabled and disabled in a platform log. *)
Definition enables_of (clk : Z) (log : list call) : nat :=
  List.length
    (filter (fun c => match c with
                      | ClkPrepareEnable k => k =? clk
                      | _ => false
                      end) log).

Definition disables_of (clk : Z) (log : list call) : nat :=
  List.length
    (filter (fun c => match c with
                      | ClkDisableUnprepare k => k =? clk
                      | _ => false
                      end) log).

(** The properties a platform log attaches, with their initial values. *)
Definition attached_of (log : list call) : list (Z * Z) :=
  flat_map (fun c => match c with
                     | ObjectAttachProperty p v => [(p, v)]
                     | _ => []
                     end) log.

(** The modes a platform log adds to the connector. *)
Definition probed_of (log : list call) : list drm_display_mode :=
  flat_map (fun c => match c with ModeProbedAdd m => [m] | _ => [] end) log.

(** Vertical timings in order and within an [int]. *)
Definition valid_vtimings (m : drm_display_mode) : Prop :=
  0 <= vdisplay m /\ vdisplay m <= vsync_start m /\
  vsync_start m <= vsync_end m /\ vsync_end m <= vtotal m /\
  vtotal m < 2 ^ 31.

(** A device tree with one port and a VPSS bridge, on which probe
    succeeds. *)
Definition sample_platform : platform :=
  mk_platform 0xD000 true 0xA0030000 0xC100 0xC200 0 0 0
    [mk_node (Some "port"%string) 0xE100 0 0] 42 0 0xE200 0xB000 0.

(** The same platform with a bridge that is not registered yet. *)
Definition sample_platform_no_bridge : platform :=
  mk_platform 0xD000 true 0xA0030000 0xC100 0xC200 0 0 0
    [mk_node (Some "port"%string) 0xE100 0 0] 42 0 0xE200 NULL 0.

(** Case-sensitive comparison, standing in for [of_node_cmp] in the
    examples. *)
Definition sample_node_cmp (a b : string) : Z :=
  if String.eqb a b then 0 else 1.

(** Nine distinct property pointers. *)
Definition sample_new_prop (n : nat) : Z := 0x1001 + Z.of_nat n.

(** A platform that differs in what enabling the video clock returns. *)
Definition with_vidin_enable (v : Z) (pl : platform) : platform :=
  mk_platform (pl_dev pl) (pl_kzalloc pl) (pl_ioremap pl) (pl_axi_clk pl)
    (pl_vidin_clk pl) (pl_axi_enable pl) v (pl_ports pl) (pl_children pl)
    (pl_irq pl) (pl_request_irq pl) (pl_vpss_node pl) (pl_bridge pl)
    (pl_component_add pl).

(** Probe got its structure, its register window and both clocks, and
    enabled the AXI clock. *)
Definition clocks_on (pl : platform) : Prop :=
  pl_kzalloc pl = true /\ IS_ERR (pl_ioremap pl) = false /\
  IS_ERR (pl_axi_clk pl) = false /\ IS_ERR (pl_vidin_clk pl) = false /\
  pl_axi_enable pl = 0.

(** A child node that the port scan passes: not a port, or a port with an
    endpoint and a readable "reg". *)
Definition port_ok (of_node_cmp : string -> string -> Z) (n : device_node)
  : bool :=
  match dn_name n with
  | None => true
  | Some name =>
      negb (of_node_cmp name "port"%string =? 0)
      || (negb (dn_endpoint n =? NULL) && (dn_reg_ret n =? 0))
  end.

(** The calls the port scan makes. *)
Definition port_call (c : call) : bool :=
  match c with
  | Io (DevDbg _) | DevErr _ | OfNodePut _ => true
  | _ => false
  end.

Definition is_clk_disable (c : call) : bool :=
  match c with ClkDisableUnprepare _ => true | _ => false end.

Definition is_request_irq (c : call) : bool :=
  match c with RequestThreadedIrq _ => true | _ => false end.

Definition is_dev_err (c : call) : bool :=
  match c with DevErr _ => true | _ => false end.

Definition is_node_put (c : call) : bool :=
  match c with OfNodePut _ => true | _ => false end.

(** The calls of probe from [platform_set_drvdata] to the end of the port
    scan, given the calls [lports] of the scan. *)
Definition probe_prefix (pl : platform) (lports : list call) : list call :=
  [PlatformSetDrvdata; ClkPrepareEnable (pl_axi_clk pl);
   ClkPrepareEnable (pl_vidin_clk pl)]
  ++ (if pl_vidin_enable pl =? 0 then []
      else [DevErr "failed to enable vidin_clk %d\n"])
  ++ (if pl_ports pl =? NULL
      then [Io (DevDbg "Searching for port nodes in device node.\n")]
      else [])
  ++ lports.

(** A platform log without its [dev_err] lines. *)
Definition without_dev_err (log : list call) : list call :=
  filter (fun c => negb (is_dev_err c)) log.

(** A node that is a port. *)
Definition is_port (of_node_cmp : string -> string -> Z) (n : device_node)
  : bool :=
  match dn_name n with
  | None => false
  | Some name => of_node_cmp name "port"%string =? 0
  end.

(** A platform on which enabling the AXI clock fails. *)
Definition sample_platform_axi_fails : platform :=
  mk_platform 0xD000 true 0xA0030000 0xC100 0xC200 (- EINVAL) 0 0
    [mk_node (Some "port"%string) 0xE100 0 0] 42 0 0xE200 0xB000 0.

(** A device tree whose second port has no "reg". *)
Definition sample_children_no_reg : list device_node :=
  [mk_node (Some "port"%string) 0xE100 0 0;
   mk_node (Some "port"%string) 0xE101 (- EINVAL) 0;
   mk_node (Some "port"%string) NULL 0 0].

(** * Properties *)

(** ** Machine arithmetic *)

Lemma u32_small (z : Z) : 0 <= z < 2 ^ 32 -> u32 z = z.
Proof. intros H. unfold u32. now apply Z.mod_small. Qed.

Lemma s32_small (z : Z) : - 2 ^ 31 <= z < 2 ^ 31 -> s32 z = z.
Proof. intros H. unfold s32. rewrite Z.mod_small; lia. Qed.

Lemma u64_small (z : Z) : 0 <= z < 2 ^ 64 -> u64 z = z.
Proof. intros H. unfold u64. now apply Z.mod_small. Qed.

Lemma u32_range (z : Z) : 0 <= u32 z < 2 ^ 32.
Proof. unfold u32. apply Z.mod_pos_bound. lia. Qed.

Lemma u64_u32 (z : Z) : u64 (u32 z) = u32 z.
Proof. apply u64_small. pose proof (u32_range z). lia. Qed.

Lemma u64_to_bool (z : Z) : u64 (to_bool z) = to_bool z.
Proof. unfold to_bool. destruct (z =? 0); reflexivity. Qed.

(** Masking with a single bit yields that bit or nothing. *)
Lemma land_BIT (x k : Z) :
  0 <= k -> Z.land x (BIT k) = if Z.testbit x k then BIT k else 0.
Proof.
  intros Hk. unfold BIT. rewrite Z.shiftl_1_l.
  apply Z.bits_inj'. intros n Hn.
  rewrite Z.land_spec, Z.pow2_bits_eqb by assumption.
  destruct (Z.eqb_spec k n) as [->|Hne].
  - rewrite andb_true_r. destruct (Z.testbit x n) eqn:E.
    + now rewrite Z.pow2_bits_true.
    + now rewrite Z.bits_0.
  - rewrite andb_false_r. destruct (Z.testbit x k).
    + rewrite Z.pow2_bits_false; auto.
    + now rewrite Z.bits_0.
Qed.

(** ** Fault monitor *)

(** The accumulation of the handler computes the status masked with the
    three condition bits. *)
Lemma irq_mask_accumulates (reg : Z) :
  let step bit clr := if Z.land reg bit =? 0 then clr else Z.lor clr bit in
  step AXI_S_VID_UNDERFLOW_INTR
    (step AXI_S_VID_OVERFLOW_INTR (step AXI_S_VID_LOCKED_INTR 0))
  = Z.land reg IRQ_CONDITIONS.
Proof.
  cbv zeta. unfold IRQ_CONDITIONS.
  rewrite !Z.land_lor_distr_r.
  unfold AXI_S_VID_LOCKED_INTR, AXI_S_VID_OVERFLOW_INTR,
    AXI_S_VID_UNDERFLOW_INTR.
  rewrite !land_BIT by lia.
  destruct (Z.testbit reg 0), (Z.testbit reg 1), (Z.testbit reg 2);
    reflexivity.
Qed.

Lemma irq_mask_range (reg : Z) : 0 <= Z.land reg IRQ_CONDITIONS < 2 ^ 32.
Proof.
  unfold IRQ_CONDITIONS. rewrite !Z.land_lor_distr_r.
  unfold AXI_S_VID_LOCKED_INTR, AXI_S_VID_OVERFLOW_INTR,
    AXI_S_VID_UNDERFLOW_INTR.
  rewrite !land_BIT by lia.
  destruct (Z.testbit reg 0), (Z.testbit reg 1), (Z.testbit reg 2);
    cbn; lia.
Qed.

(** The complete behaviour of one invocation of the handler. *)
Lemma irq_handler_run (irq : Z) (drm_ep : drm_vid_ep) (hw : hardware) :
  let reg := u32 (hw RREG_IRQ_STATUS) in
  let say bit msg :=
    if Z.land reg bit =? 0 then [] else [DevErrRatelimited msg] in
  run (drm_vid_ep_irq_handler irq drm_ep) hw =
  Some (IRQ_HANDLED,
        [Readl RREG_IRQ_STATUS reg]
        ++ say AXI_S_VID_LOCKED_INTR "AXI-4 Stream Locked\n"%string
        ++ say AXI_S_VID_OVERFLOW_INTR "AXI-4 Stream Overflow error\n"%string
        ++ say AXI_S_VID_UNDERFLOW_INTR "AXI-4 Stream Underflow error\n"%string
        ++ [Writel WREG_IRQ_CLEAR (Z.land reg IRQ_CONDITIONS)]).
Proof.
  cbv zeta.
  rewrite <- (u32_small _ (irq_mask_range (u32 (hw RREG_IRQ_STATUS)))).
  rewrite <- irq_mask_accumulates. cbv zeta.
  unfold run, drm_vid_ep_irq_handler, irq_condition, drm_vid_ep_readl,
    drm_vid_ep_writel, bind, ret, emit.
  cbn [app].
  destruct (Z.land (u32 (hw RREG_IRQ_STATUS)) AXI_S_VID_LOCKED_INTR =? 0),
    (Z.land (u32 (hw RREG_IRQ_STATUS)) AXI_S_VID_OVERFLOW_INTR =? 0),
    (Z.land (u32 (hw RREG_IRQ_STATUS)) AXI_S_VID_UNDERFLOW_INTR =? 0);
    reflexivity.
Qed.

(** C7.  Whatever the interrupt status register holds, one invocation of the
    fault-monitor handler reads that register once and nothing else, performs
    a single register write, to the interrupt-clear register, whose value is
    the status masked with the three condition bits (locked, overflow,
    underflow), writes to none of the enable registers, and returns
    [IRQ_HANDLED].  With overflow and underflow pending (status 6, binary 110) the
    one write carries 6. *)
Theorem irq_handler_batched_ack (irq : Z) (drm_ep : drm_vid_ep)
  (hw : hardware) :
  exists log,
    run (drm_vid_ep_irq_handler irq drm_ep) hw = Some (IRQ_HANDLED, log) /\
    reads_of log = [(RREG_IRQ_STATUS, u32 (hw RREG_IRQ_STATUS))] /\
    writes_of log =
      [(WREG_IRQ_CLEAR, Z.land (u32 (hw RREG_IRQ_STATUS)) IRQ_CONDITIONS)] /\
    Forall (fun r => written_to r log = []) enable_registers /\
    run (drm_vid_ep_irq_handler irq drm_ep) (fun _ => 6) =
      Some (IRQ_HANDLED,
            [Readl RREG_IRQ_STATUS 6;
             DevErrRatelimited "AXI-4 Stream Overflow error\n";
             DevErrRatelimited "AXI-4 Stream Underflow error\n";
             Writel WREG_IRQ_CLEAR 6]).
Proof.
  pose proof (irq_handler_run irq drm_ep hw) as Hrun. cbv zeta in Hrun.
  eexists. split; [exact Hrun|].
  set (reg := u32 (hw RREG_IRQ_STATUS)).
  assert (Hw : writes_of
                 ([Readl RREG_IRQ_STATUS reg]
                  ++ (if Z.land reg AXI_S_VID_LOCKED_INTR =? 0 then []
                      else [DevErrRatelimited "AXI-4 Stream Locked\n"])
                  ++ (if Z.land reg AXI_S_VID_OVERFLOW_INTR =? 0 then []
                      else [DevErrRatelimited "AXI-4 Stream Overflow error\n"])
                  ++ (if Z.land reg AXI_S_VID_UNDERFLOW_INTR =? 0 then []
                      else [DevErrRatelimited "AXI-4 Stream Underflow error\n"])
                  ++ [Writel WREG_IRQ_CLEAR (Z.land reg IRQ_CONDITIONS)])
               = [(WREG_IRQ_CLEAR, Z.land reg IRQ_CONDITIONS)]).
  { destruct (Z.land reg AXI_S_VID_LOCKED_INTR =? 0),
      (Z.land reg AXI_S_VID_OVERFLOW_INTR =? 0),
      (Z.land reg AXI_S_VID_UNDERFLOW_INTR =? 0); reflexivity. }
  repeat split.
  - destruct (Z.land reg AXI_S_VID_LOCKED_INTR =? 0),
      (Z.land reg AXI_S_VID_OVERFLOW_INTR =? 0),
      (Z.land reg AXI_S_VID_UNDERFLOW_INTR =? 0); reflexivity.
  - exact Hw.
  - unfold written_to. rewrite Hw. unfold enable_registers.
    repeat constructor.
Qed.

(** ** SDI mode selection *)

(** What [drm_vid_ep_set_sdi_mode] writes, for every mode and flag: the mode
    itself for SD, HD, 3G-A, 6G and 12G, and the HD code for anything else. *)
Lemma set_sdi_mode_run (drm_ep : drm_vid_ep) (mode is_frac : Z)
  (hw : hardware) :
  run (drm_vid_ep_set_sdi_mode drm_ep mode is_frac) hw =
  Some (tt,
        [Writel WREG_SDI_MODE
           (if existsb (Z.eqb mode)
                 [SDI_MODE_HD; SDI_MODE_SD; SDI_MODE_3GA; SDI_MODE_6G;
                  SDI_MODE_12G]
            then mode else 0);
         Writel WREG_SDI_IS_FRAC (if is_frac =? 0 then 0 else 1)]).
Proof.
  unfold run, drm_vid_ep_set_sdi_mode, bind, existsb.
  unfold SDI_MODE_SD, SDI_MODE_HD, SDI_MODE_3GA, SDI_MODE_6G, SDI_MODE_12G.
  destruct (Z.eqb_spec mode 1) as [->|_]; [destruct (is_frac =? 0); reflexivity|].
  destruct (Z.eqb_spec mode 0) as [->|_]; [destruct (is_frac =? 0); reflexivity|].
  destruct (Z.eqb_spec mode 2) as [->|_]; [destruct (is_frac =? 0); reflexivity|].
  destruct (Z.eqb_spec mode 4) as [->|_]; [destruct (is_frac =? 0); reflexivity|].
  destruct (Z.eqb_spec mode 5) as [->|_]; destruct (is_frac =? 0); reflexivity.
Qed.

(** C3.  Asked for 3G-B ([SDI_MODE_3GB] = 3), the mode selection writes the
    HD code 0 to the mode register, not 3: the [switch] has no case for
    3G-B and falls to [default].  The fractional flag is written as 1 when
    set and 0 when clear. *)
Theorem set_sdi_mode_3gb_writes_hd (drm_ep : drm_vid_ep) (hw : hardware) :
  run (drm_vid_ep_set_sdi_mode drm_ep SDI_MODE_3GB 1) hw =
    Some (tt, [Writel WREG_SDI_MODE 0; Writel WREG_SDI_IS_FRAC 1]) /\
  run (drm_vid_ep_set_sdi_mode drm_ep SDI_MODE_3GB 0) hw =
    Some (tt, [Writel WREG_SDI_MODE 0; Writel WREG_SDI_IS_FRAC 0]).
Proof. split; reflexivity. Qed.

(** The other five modes do reach the register as their own code. *)
Lemma set_sdi_mode_enumerated (drm_ep : drm_vid_ep) (is_frac : Z)
  (hw : hardware) :
  Forall (fun mode =>
            option_map (fun r => written_to WREG_SDI_MODE (snd r))
              (run (drm_vid_ep_set_sdi_mode drm_ep mode is_frac) hw)
            = Some [mode])
    [SDI_MODE_HD; SDI_MODE_SD; SDI_MODE_3GA; SDI_MODE_6G; SDI_MODE_12G].
Proof.
  repeat constructor; rewrite set_sdi_mode_run; reflexivity.
Qed.

(** ** Pipeline sequencing *)

Lemma commit_run (drm_ep : drm_vid_ep) (hw : hardware) :
  run (drm_vid_ep_commit drm_ep) hw =
  Some (tt,
        [DevDbg "drm_vid_ep_commit\n";
         Writel WREG_CORE_ENABLE 1;
         Writel WREG_SDI_BRIDGE_ENABLE 1;
         StcEnable;
         StcFsyncEnable;
         Writel WREG_AXI_S_VID_ENABLE 1]).
Proof. reflexivity. Qed.

Lemma disable_run (drm_ep : drm_vid_ep) (hw : hardware) :
  run (drm_vid_ep_disable drm_ep) hw =
  Some (tt,
        (if bridge drm_ep =? NULL then []
         else [BridgeDisable (bridge drm_ep)])
        ++ [Writel WREG_IRQ_ENABLE 0;
            Writel WREG_CORE_ENABLE 0;
            Writel WREG_AXI_S_VID_ENABLE 0;
            Writel WREG_SDI_BRIDGE_ENABLE 0;
            StcFsyncDisable;
            StcDisable]).
Proof.
  unfold run, drm_vid_ep_disable, bind.
  destruct (bridge drm_ep =? NULL); reflexivity.
Qed.

(** C4, as stated, fails: among the four blocks it names, [disable] switches
    the SDI bridge off second, before the frame sync and the timing
    generator, and not last; and when a VPSS bridge is bound the call that
    disables it comes first of all. *)
Lemma disable_order_counterexample :
  exists log,
    run (drm_vid_ep_disable (sample_ep NULL)) (fun _ => 0) = Some (tt, log) /\
    filter (fun b => negb (block_eqb b Core)) (block_order disable_op log)
      = [Serializer; Bridge; FrameSync; TimingGen] /\
    filter (fun b => negb (block_eqb b Core)) (block_order disable_op log)
      <> [Serializer; FrameSync; TimingGen; Bridge] /\
    run (drm_vid_ep_disable (sample_ep 0xB000)) (fun _ => 0)
      = Some (tt, BridgeDisable 0xB000 :: log).
Proof.
  eexists. split; [reflexivity|]. split; [reflexivity|].
  split; [discriminate|reflexivity].
Qed.

(** C4, amended.  [commit] switches on, in this order, the core, the SDI
    bridge, the timing generator, the frame sync and the serializer input.
    [disable] first disables the VPSS bridge when one is bound, then clears
    the interrupt enable and switches off, in this order, the core, the
    serializer input, the SDI bridge, the frame sync and the timing
    generator. *)
Theorem commit_disable_order (drm_ep : drm_vid_ep) (hw : hardware) :
  exists log_c log_d,
    run (drm_vid_ep_commit drm_ep) hw = Some (tt, log_c) /\
    block_order enable_op log_c =
      [Core; Bridge; TimingGen; FrameSync; Serializer] /\
    run (drm_vid_ep_disable drm_ep) hw = Some (tt, log_d) /\
    block_order disable_op log_d =
      [Core; Serializer; Bridge; FrameSync; TimingGen] /\
    log_d =
      (if bridge drm_ep =? NULL then [] else [BridgeDisable (bridge drm_ep)])
      ++ [Writel WREG_IRQ_ENABLE 0; Writel WREG_CORE_ENABLE 0;
          Writel WREG_AXI_S_VID_ENABLE 0; Writel WREG_SDI_BRIDGE_ENABLE 0;
          StcFsyncDisable; StcDisable].
Proof.
  do 2 eexists.
  split; [apply commit_run|]. split; [reflexivity|].
  split; [apply disable_run|]. split; [|reflexivity].
  destruct (bridge drm_ep =? NULL); reflexivity.
Qed.

(** ** Connector properties *)

(** Decide the handle comparisons of a dispatch chain from the facts that
    [NoDup] left in the context. *)
Ltac decide_handles :=
  repeat match goal with
         | |- context [?a =? ?a] => rewrite (Z.eqb_refl a)
         | |- context [?a =? ?b] =>
             let E := fresh "E" in
             destruct (Z.eqb_spec a b) as [E|E];
             [exfalso; congruence|]
         end.

(** C10.  With the nine property handles distinct, as the DRM core creates
    them: setting any of the properties to a 64-bit value [v] returns 0, a
    get of the same property afterwards returns 0 and yields [v] reduced to
    what the property stores (modulo 2^32 for the range properties, 0 or 1
    for the boolean ones); for a handle [p] that is none of the nine, set and
    get return -EINVAL, set leaves the endpoint structure as it was and get
    leaves the caller's value as it was. *)
Theorem set_get_property (drm_ep : drm_vid_ep) (k : prop_key)
  (v p old : Z) :
  NoDup (handles drm_ep) ->
  ~ In p (handles drm_ep) ->
  (fst (drm_vid_ep_atomic_set_property drm_ep (handle_of drm_ep k) v) = 0 /\
   drm_vid_ep_atomic_get_property
     (snd (drm_vid_ep_atomic_set_property drm_ep (handle_of drm_ep k) v))
     (handle_of drm_ep k) old = (0, stored k v)) /\
  (drm_vid_ep_atomic_set_property drm_ep p v = (- EINVAL, drm_ep) /\
   prop_values (snd (drm_vid_ep_atomic_set_property drm_ep p v))
     = prop_values drm_ep /\
   drm_vid_ep_atomic_get_property drm_ep p old = (- EINVAL, old)).
Proof.
  intros Hnd Hp. split.
  - clear Hp. destruct drm_ep. unfold handles, all_keys in Hnd.
    cbn [map handle_of sdi_mode sdi_data_strm sdi_420_in sdi_420_out
           is_frac_prop height_out width_out in_fmt out_fmt] in Hnd.
    repeat match goal with
           | H : NoDup (_ :: _) |- _ => inversion H; clear H; subst
           end.
    cbn [In] in *.
    repeat match goal with
           | H : ~ (_ \/ _) |- _ =>
               apply Decidable.not_or in H; destruct H
           end.
    unfold drm_vid_ep_atomic_set_property, drm_vid_ep_atomic_get_property.
    destruct k; cbn; decide_handles; cbn;
      (split; [reflexivity|]); decide_handles;
      rewrite ?u64_u32, ?u64_to_bool; reflexivity.
  - unfold drm_vid_ep_atomic_set_property, drm_vid_ep_atomic_get_property.
    repeat match goal with
           | |- context [p =? ?h] =>
               replace (p =? h) with false
                 by (symmetry; apply Z.eqb_neq; intros ->; apply Hp;
                     unfold handles; cbn; tauto)
           end.
    repeat split.
Qed.

Lemma set_get_property_witness :
  NoDup (handles (sample_ep NULL)) /\
  ~ In 0x2000 (handles (sample_ep NULL)) /\
  drm_vid_ep_atomic_get_property
    (snd (drm_vid_ep_atomic_set_property (sample_ep NULL)
            (handle_of (sample_ep NULL) K_is_frac) (2 ^ 32 + 6)))
    (handle_of (sample_ep NULL) K_is_frac) 0 = (0, 1) /\
  drm_vid_ep_atomic_get_property
    (snd (drm_vid_ep_atomic_set_property (sample_ep NULL)
            (handle_of (sample_ep NULL) K_width_out) (2 ^ 32 + 6)))
    (handle_of (sample_ep NULL) K_width_out) 0 = (0, 6).
Proof.
  assert (Hnd : NoDup (handles (sample_ep NULL))).
  { unfold handles, all_keys, sample_ep. cbn [map handle_of].
    repeat constructor; cbn; intuition discriminate. }
  assert (Hp : ~ In 0x2000 (handles (sample_ep NULL))).
  { cbn. intuition discriminate. }
  split; [exact Hnd|]. split; [exact Hp|]. split.
  - exact (proj2 (proj1 (set_get_property (sample_ep NULL) K_is_frac
                           (2 ^ 32 + 6) 0x2000 0 Hnd Hp))).
  - exact (proj2 (proj1 (set_get_property (sample_ep NULL) K_width_out
                           (2 ^ 32 + 6) 0x2000 0 Hnd Hp))).
Defined.

(** ** The blanking loop *)

Lemma with_hfront_porch_twice (a b : Z) (vm : videomode) :
  with_hfront_porch a (with_hfront_porch b vm) = with_hfront_porch a vm.
Proof. reflexivity. Qed.

Lemma with_hfront_porch_same (vm : videomode) :
  with_hfront_porch (hfront_porch vm) vm = vm.
Proof. destruct vm; reflexivity. Qed.

Lemma blank_loop_S (fuel : nat) (m : drm_display_mode) (vm : videomode) :
  blank_loop (S fuel) m vm =
  let (vm', p) := blank_body m vm in
  if vtc_blank p <? sditx_blank p then
    match blank_loop fuel m vm' with
    | Some (vm'', ps) => Some (vm'', p :: ps)
    | None => None
    end
  else Some (vm', [p]).
Proof. reflexivity. Qed.

(** The two outcomes of the body. *)
Lemma blank_body_equal (m : drm_display_mode) (vm : videomode) :
  vtc_blank_of vm = sditx_blank_of m ->
  blank_body m vm =
  (vm, mk_pass (sditx_blank_of m) (vtc_blank_of vm)
         (hfront_porch vm) (hfront_porch vm)).
Proof.
  intros E. unfold blank_body. rewrite (proj2 (Z.eqb_eq _ _) E). reflexivity.
Qed.

Lemma blank_body_differ (m : drm_display_mode) (vm : videomode) :
  vtc_blank_of vm <> sditx_blank_of m ->
  blank_body m vm =
  (with_hfront_porch (u32 (hfront_porch vm + 1)) vm,
   mk_pass (sditx_blank_of m) (vtc_blank_of vm)
     (hfront_porch vm) (u32 (hfront_porch vm + 1))).
Proof.
  intros E. unfold blank_body. rewrite (proj2 (Z.eqb_neq _ _) E). reflexivity.
Qed.

Lemma blank_body_frame (m : drm_display_mode) (vm vm1 : videomode)
  (p : blank_pass) :
  blank_body m vm = (vm1, p) ->
  vm1 = with_hfront_porch (hfront_porch vm1) vm /\
  vtc_blank p = vtc_blank_of vm /\ sditx_blank p = sditx_blank_of m /\
  hfp_before p = hfront_porch vm /\ hfp_after p = hfront_porch vm1.
Proof.
  destruct (Z.eq_dec (vtc_blank_of vm) (sditx_blank_of m)) as [E|E].
  - rewrite (blank_body_equal m vm E). intros [= <- <-].
    rewrite with_hfront_porch_same. repeat split.
  - rewrite (blank_body_differ m vm E). intros [= <- <-]. repeat split.
Qed.

(** The loop touches the front porch only. *)
Lemma blank_loop_frame (fuel : nat) (m : drm_display_mode) :
  forall vm vm' ps,
    blank_loop fuel m vm = Some (vm', ps) ->
    vm' = with_hfront_porch (hfront_porch vm') vm.
Proof.
  induction fuel as [|fuel IH]; intros vm vm' ps H; [discriminate|].
  rewrite blank_loop_S in H.
  destruct (blank_body m vm) as [vm1 p] eqn:Eb.
  apply blank_body_frame in Eb. destruct Eb as [H1 _].
  destruct (vtc_blank p <? sditx_blank p).
  - destruct (blank_loop fuel m vm1) as [[vm2 ps2]|] eqn:E; [|discriminate].
    injection H as <- <-. apply IH in E.
    transitivity (with_hfront_porch (hfront_porch vm2) vm1); [exact E|].
    rewrite H1. apply with_hfront_porch_twice.
  - injection H as <- <-. exact H1.
Qed.

(** The number of recorded passes is the exact fuel the loop needs. *)
Lemma blank_loop_exact (fuel : nat) (m : drm_display_mode) :
  forall vm vm' ps,
    blank_loop fuel m vm = Some (vm', ps) ->
    forall fuel',
      blank_loop fuel' m vm =
      if (List.length ps <=? fuel')%nat then Some (vm', ps) else None.
Proof.
  induction fuel as [|fuel IH]; intros vm vm' ps H fuel'; [discriminate|].
  rewrite blank_loop_S in H.
  destruct (blank_body m vm) as [vm1 p] eqn:Eb.
  destruct (vtc_blank p <? sditx_blank p) eqn:Ec.
  - destruct (blank_loop fuel m vm1) as [[vm2 ps2]|] eqn:E; [|discriminate].
    injection H as <- <-.
    destruct fuel' as [|fuel']; [reflexivity|].
    rewrite blank_loop_S, Eb, Ec, (IH _ _ _ E fuel').
    cbn [List.length Nat.leb].
    destruct (List.length ps2 <=? fuel')%nat; reflexivity.
  - injection H as <- <-.
    destruct fuel' as [|fuel']; [reflexivity|].
    rewrite blank_loop_S, Eb, Ec. reflexivity.
Qed.

Lemma vtc_blank_of_small (vm : videomode) :
  0 <= hfront_porch vm -> 0 <= hback_porch vm -> 0 <= hsync_len vm ->
  2 * (hfront_porch vm + hback_porch vm + hsync_len vm) < 2 ^ 32 ->
  vtc_blank_of vm = 2 * (hfront_porch vm + hback_porch vm + hsync_len vm).
Proof.
  intros Hf Hb Hs Hlt.
  unfold vtc_blank_of, u32_mul, u32_add, PIXELS_PER_CLK.
  rewrite (u32_small (hfront_porch vm + hback_porch vm)) by lia.
  rewrite (u32_small (hfront_porch vm + hback_porch vm + hsync_len vm)) by lia.
  rewrite u32_small by lia. lia.
Qed.

(** One more unit of front porch is two more units of derived blanking. *)
Lemma vtc_blank_of_bump (vm : videomode) :
  0 <= hfront_porch vm -> 0 <= hback_porch vm -> 0 <= hsync_len vm ->
  2 * (hfront_porch vm + hback_porch vm + hsync_len vm) + 2 < 2 ^ 32 ->
  hfront_porch (with_hfront_porch (u32 (hfront_porch vm + 1)) vm)
    = hfront_porch vm + 1 /\
  vtc_blank_of (with_hfront_porch (u32 (hfront_porch vm + 1)) vm)
    = vtc_blank_of vm + PIXELS_PER_CLK.
Proof.
  intros Hf Hb Hs Hlt.
  assert (E : u32 (hfront_porch vm + 1) = hfront_porch vm + 1)
    by (apply u32_small; lia).
  rewrite E. split; [reflexivity|].
  rewrite (vtc_blank_of_small vm) by lia.
  rewrite vtc_blank_of_small;
    cbn [hfront_porch hback_porch hsync_len with_hfront_porch];
    unfold PIXELS_PER_CLK; lia.
Qed.

(** The log of a loop that stops after one execution of the body. *)
Lemma single_pass (m : drm_display_mode) (vm vm1 : videomode)
  (p : blank_pass) :
  0 <= hfront_porch vm -> 0 <= hback_porch vm -> 0 <= hsync_len vm ->
  2 * (hfront_porch vm + hback_porch vm + hsync_len vm) + 2 < 2 ^ 32 ->
  blank_body m vm = (vm1, p) ->
  sditx_blank_of m <= vtc_blank_of vm ->
  sditx_blank_of m <= vtc_blank_of vm1 /\ pass_bumps p /\
  passes_chain [p].
Proof.
  intros Hf Hb Hs Hlt Hbody Hc.
  destruct (vtc_blank_of_bump vm Hf Hb Hs Hlt) as [Ef Ev].
  destruct (Z.eq_dec (vtc_blank_of vm) (sditx_blank_of m)) as [E|E].
  - rewrite (blank_body_equal m vm E) in Hbody. injection Hbody as <- <-.
    unfold pass_bumps. cbn. repeat split; intros; try lia; congruence.
  - rewrite (blank_body_differ m vm E) in Hbody. injection Hbody as <- <-.
    unfold pass_bumps.
    cbn [passes_chain vtc_blank sditx_blank hfp_before hfp_after].
    cbn [hfront_porch with_hfront_porch] in Ef.
    rewrite Ev, Ef. unfold PIXELS_PER_CLK.
    repeat split; intros; try lia; congruence.
Qed.

(** Convergence: when the derived blanking is at most [2 * n] short of the
    source blanking and nothing wraps, the loop ends within [n + 1]
    executions of its body. *)
Lemma blank_loop_converges (m : drm_display_mode) (n : nat) :
  forall vm,
    0 <= hfront_porch vm -> 0 <= hback_porch vm -> 0 <= hsync_len vm ->
    sditx_blank_of m
      <= 2 * (hfront_porch vm + hback_porch vm + hsync_len vm)
         + 2 * Z.of_nat n ->
    2 * (hfront_porch vm + hback_porch vm + hsync_len vm)
      + 2 * Z.of_nat n + 2 < 2 ^ 32 ->
    exists vm' ps,
      blank_loop (S n) m vm = Some (vm', ps) /\
      (List.length ps <= S n)%nat /\
      sditx_blank_of m <= vtc_blank_of vm' /\
      Forall pass_bumps ps /\
      passes_chain ps /\
      (exists p rest, ps = p :: rest /\
                      vtc_blank p = vtc_blank_of vm /\
                      sditx_blank p = sditx_blank_of m /\
                      hfp_before p = hfront_porch vm).
Proof.
  induction n as [|n IH]; intros vm Hf Hb Hs Hle Hlt;
    pose proof (vtc_blank_of_small vm Hf Hb Hs ltac:(lia)) as Hv;
    rewrite blank_loop_S;
    destruct (blank_body m vm) as [vm1 p] eqn:Eb;
    destruct (blank_body_frame m vm vm1 p Eb) as (_ & Epv & Eps & Epb & Epa);
    rewrite Epv, Eps;
    destruct (Z.ltb_spec (vtc_blank_of vm) (sditx_blank_of m)) as [Hc|Hc];
    try lia.
  - (* the derived blanking already covers the source blanking *)
    destruct (single_pass m vm vm1 p Hf Hb Hs ltac:(lia) Eb Hc)
      as (Hfin & Hbump & Hchain).
    exists vm1, [p]. cbn [List.length].
    repeat split; auto. exists p, []. auto.
  - (* short: bump the front porch and go round again *)
    assert (E : vtc_blank_of vm <> sditx_blank_of m) by lia.
    destruct (vtc_blank_of_bump vm Hf Hb Hs ltac:(lia)) as [Ef Ev].
    rewrite (blank_body_differ m vm E) in Eb. injection Eb as Evm1 Ep.
    rewrite Evm1 in Ef, Ev.
    assert (Hb1 : hback_porch vm1 = hback_porch vm) by (now subst vm1).
    assert (Hs1 : hsync_len vm1 = hsync_len vm) by (now subst vm1).
    destruct (IH vm1) as (vm' & ps & Hrun & Hlen & Hfin & Hbump & Hchain
                          & p1 & rest & Eps1 & Hp1v & Hp1s & Hp1f);
      try (rewrite ?Ef, ?Hb1, ?Hs1; lia).
    rewrite Hrun. exists vm', (p :: ps). cbn [List.length].
    split; [reflexivity|]. split; [lia|]. split; [exact Hfin|].
    split; [|split].
    + constructor; [|exact Hbump]. unfold pass_bumps.
      rewrite Epv, Eps, Epb, Epa, Ef. split; intros; [reflexivity|lia].
    + rewrite Eps1 in Hchain |- *.
      change (vtc_blank p < sditx_blank p /\
              vtc_blank p1 = vtc_blank p + PIXELS_PER_CLK /\
              sditx_blank p1 = sditx_blank p /\
              hfp_before p1 = hfp_after p /\
              passes_chain (p1 :: rest)).
      rewrite Epv, Eps, Epa, Hp1v, Hp1s, Hp1f, Ev. auto.
    + exists p, ps. auto.
  - (* not short: one execution *)
    destruct (single_pass m vm vm1 p Hf Hb Hs ltac:(lia) Eb Hc)
      as (Hfin & Hbump & Hchain).
    exists vm1, [p]. cbn [List.length].
    repeat split; auto; try lia. exists p, []. auto.
Qed.

(** ** Derivation on valid horizontal timings *)

Lemma half_field (x : Z) :
  0 <= x < 2 ^ 31 -> u32 (int_div x PIXELS_PER_CLK) = x / 2.
Proof.
  intros Hx. unfold int_div, PIXELS_PER_CLK.
  rewrite Z.quot_div_nonneg by lia.
  assert (0 <= x / 2 < 2 ^ 31).
  { split; [apply Z.div_pos; lia | apply Z.div_lt_upper_bound; lia]. }
  rewrite s32_small, u32_small; lia.
Qed.

Lemma valid_htimings_derived (m : drm_display_mode) (vm0 : videomode) :
  valid_htimings m ->
  hfront_porch (derive_timings m vm0) = (hsync_start m - hdisplay m) / 2 /\
  hback_porch (derive_timings m vm0) = (htotal m - hsync_end m) / 2 /\
  hsync_len (derive_timings m vm0) = (hsync_end m - hsync_start m) / 2 /\
  sditx_blank_of m = htotal m - hdisplay m.
Proof.
  intros (H0 & H1 & H2 & H3 & H4 & H5). unfold in_int in H0, H1.
  unfold derive_timings, sditx_blank_of, int_add, int_sub.
  cbn [hfront_porch hback_porch hsync_len].
  rewrite !(s32_small (_ - _)) by lia.
  rewrite !half_field by lia.
  rewrite (s32_small (hsync_start m - hdisplay m
                       + (hsync_end m - hsync_start m))) by lia.
  rewrite s32_small by lia.
  rewrite u32_small by lia.
  repeat split; lia.
Qed.

(** On valid horizontal timings the derivation completes within three
    executions of the loop body, and the log has the shape of a run of the
    loop. *)
Lemma derive_videomode_valid (m : drm_display_mode) (vm0 : videomode) :
  valid_htimings m ->
  exists vm ps,
    (forall fuel,
        derive_videomode fuel m vm0 =
        if (List.length ps <=? fuel)%nat then Some (vm, ps) else None) /\
    (List.length ps <= 3)%nat /\
    Z.of_nat (List.length ps)
      <= ceil_div (sditx_blank_of m) PIXELS_PER_CLK + 1 /\
    sditx_blank_of m <= vtc_blank_of vm /\
    Forall pass_bumps ps /\
    passes_chain ps.
Proof.
  intros Hv.
  destruct (valid_htimings_derived m vm0 Hv) as (Ef & Eb & Es & EB).
  destruct Hv as (H0 & H1 & H2 & H3 & H4 & H5). unfold in_int in H0, H1.
  set (a := hsync_start m - hdisplay m) in *.
  set (b := htotal m - hsync_end m) in *.
  set (c := hsync_end m - hsync_start m) in *.
  assert (Ha : 0 <= a) by (subst a; lia).
  assert (Hb : 0 <= b) by (subst b; lia).
  assert (Hc : 0 <= c) by (subst c; lia).
  assert (HB : sditx_blank_of m = a + b + c) by (subst a b c; lia).
  assert (Hsum : a + b + c < 2 ^ 31) by (subst a b c; lia).
  set (d := a + b + c - 2 * (a / 2 + b / 2 + c / 2)).
  assert (Hd : 0 <= d <= 3) by (subst d; Z.div_mod_to_equations; lia).
  set (n := Z.to_nat ((d + 1) / 2)).
  assert (Hn : Z.of_nat n = (d + 1) / 2).
  { subst n. apply Z2Nat.id. apply Z.div_pos; lia. }
  assert (Hn2 : d <= 2 * Z.of_nat n <= 4)
    by (rewrite Hn; Z.div_mod_to_equations; lia).
  destruct (blank_loop_converges m n (derive_timings m vm0))
    as (vm' & ps & Hrun & Hlen & Hfin & Hbump & Hchain & _).
  1-3: rewrite ?Ef, ?Eb, ?Es; apply Z.div_pos; lia.
  { rewrite Ef, Eb, Es, HB. subst d. lia. }
  { rewrite Ef, Eb, Es. subst d. lia. }
  exists (with_pixelclock (u64 (int_mul (clock m) 1000)) vm'), ps.
  split; [|split; [|split; [|split; [|split]]]].
  - intros fuel. unfold derive_videomode.
    rewrite (blank_loop_exact _ _ _ _ _ Hrun fuel).
    destruct (List.length ps <=? fuel)%nat; reflexivity.
  - lia.
  - rewrite HB. unfold ceil_div, PIXELS_PER_CLK.
    assert (Z.of_nat n <= (a + b + c + 2 - 1) / 2).
    { rewrite Hn. apply Z.div_le_mono; [lia|].
      subst d. assert (0 <= a / 2 + b / 2 + c / 2); [|lia].
      assert (0 <= a / 2) by (apply Z.div_pos; lia).
      assert (0 <= b / 2) by (apply Z.div_pos; lia).
      assert (0 <= c / 2) by (apply Z.div_pos; lia). lia. }
    lia.
  - exact Hfin.
  - exact Hbump.
  - exact Hchain.
Qed.

(** On valid horizontal timings three executions of the body always
    suffice. *)
Lemma derive_videomode_completes (m : drm_display_mode) (vm0 : videomode) :
  valid_htimings m ->
  exists vm ps,
    forall fuel, (3 <= fuel)%nat ->
                 derive_videomode fuel m vm0 = Some (vm, ps).
Proof.
  intros Hv.
  destruct (derive_videomode_valid m vm0 Hv) as (vm & ps & Hrun & Hlen & _).
  exists vm, ps. intros fuel Hf. rewrite Hrun.
  destruct (Nat.leb_spec (List.length ps) fuel); [reflexivity|lia].
Qed.

(** C1, as stated, fails.  On a valid timing with an odd blanking of 279
    pixels the second execution of the loop body finds the derived blanking
    at 280, above the source blanking, and still increments the front
    porch.  And not every display timing ends above its source blanking: with
    the sync pulse starting three pixels inside the active area the
    derivation completes with a derived blanking of 0 against a source
    blanking of 2^32 - 3. *)
Lemma front_porch_bumped_past_source :
  (exists vm ps,
      derive_videomode 3 mode_odd_blanking zero_vm = Some (vm, ps) /\
      ~ Forall (fun p => hfp_after p = hfp_before p + 1 ->
                         vtc_blank p < sditx_blank p) ps) /\
  (exists vm ps,
      derive_videomode 1 mode_negative_porch zero_vm = Some (vm, ps) /\
      vtc_blank_of vm = 0 /\
      sditx_blank_of mode_negative_porch = 2 ^ 32 - 3 /\
      ~ sditx_blank_of mode_negative_porch <= vtc_blank_of vm).
Proof.
  split.
  - do 2 eexists. split; [vm_compute; reflexivity|].
    intros HF.
    inversion HF as [|p1 ps1 _ HF1]; subst.
    inversion HF1 as [|p2 ps2 Hp2 _]; subst.
    cbn in Hp2. specialize (Hp2 eq_refl). lia.
  - do 2 eexists. split; [vm_compute; reflexivity|].
    split; [reflexivity|]. split; [reflexivity|].
    vm_compute. intros H. apply H. reflexivity.
Qed.

(** C1, amended.  For every display timing with valid horizontal timings
    the derivation completes (three executions of the loop body suffice) and
    the blanking recomputed from the derived record, (hfront_porch +
    hback_porch + hsync_len) * 2, is at least the source blanking.  The
    front porch is incremented by 1 in every execution of the loop body that
    finds the derived blanking different from the source blanking and in no
    other; every execution but the last finds it strictly less, the last one
    finds it equal or greater. *)
Theorem blanking_never_undershoots (m : drm_display_mode) (vm0 : videomode)
  (fuel : nat) :
  valid_htimings m -> (3 <= fuel)%nat ->
  exists vm ps,
    derive_videomode fuel m vm0 = Some (vm, ps) /\
    sditx_blank_of m <= vtc_blank_of vm /\
    Forall pass_bumps ps /\
    passes_chain ps.
Proof.
  intros Hv Hfuel.
  destruct (derive_videomode_valid m vm0 Hv)
    as (vm & ps & Hrun & Hlen & _ & Hfin & Hbump & Hchain).
  exists vm, ps. split; [|auto].
  rewrite Hrun. destruct (Nat.leb_spec (List.length ps) fuel); [reflexivity|lia].
Qed.

Lemma blanking_never_undershoots_witness :
  valid_htimings mode_odd_blanking /\ (3 <= 3)%nat /\
  exists vm ps,
    derive_videomode 3 mode_odd_blanking zero_vm = Some (vm, ps) /\
    sditx_blank_of mode_odd_blanking <= vtc_blank_of vm /\
    Forall pass_bumps ps /\
    passes_chain ps.
Proof.
  assert (Hv : valid_htimings mode_odd_blanking).
  { unfold valid_htimings, in_int, mode_odd_blanking. cbn. lia. }
  split; [exact Hv|]. split; [lia|].
  apply (blanking_never_undershoots mode_odd_blanking zero_vm 3 Hv). lia.
Defined.

(** Outside valid timings the loop need not end at all: the derived
    blanking is even, and never reaches a source blanking of 2^32 - 1. *)
Lemma vtc_blank_of_even_bound (vm : videomode) :
  vtc_blank_of vm <= 2 ^ 32 - 2.
Proof.
  unfold vtc_blank_of, u32_mul, u32, PIXELS_PER_CLK.
  change (2 ^ 32) with (2 ^ 31 * 2).
  rewrite Z.mul_mod_distr_r by lia.
  pose proof (Z.mod_pos_bound
                (u32_add (u32_add (hfront_porch vm) (hback_porch vm))
                   (hsync_len vm)) (2 ^ 31) ltac:(lia)).
  lia.
Qed.

Lemma blank_loop_diverges (m : drm_display_mode) (fuel : nat) :
  sditx_blank_of m = 2 ^ 32 - 1 ->
  forall vm, blank_loop fuel m vm = None.
Proof.
  intros Hs.
  induction fuel as [|fuel IH]; intros vm; [reflexivity|].
  rewrite blank_loop_S.
  destruct (blank_body m vm) as [vm1 p] eqn:Eb.
  destruct (blank_body_frame _ _ _ _ Eb) as (_ & Epv & Eps & _).
  rewrite Epv, Eps, IH, Hs.
  pose proof (vtc_blank_of_even_bound vm).
  destruct (Z.ltb_spec (vtc_blank_of vm) (2 ^ 32 - 1)); [reflexivity|lia].
Qed.

Lemma derive_videomode_diverges (m : drm_display_mode) (fuel : nat)
  (vm0 : videomode) :
  sditx_blank_of m = 2 ^ 32 - 1 -> derive_videomode fuel m vm0 = None.
Proof.
  intros Hs. unfold derive_videomode.
  now rewrite (blank_loop_diverges m fuel Hs).
Qed.

(** The timing with a line total one short of the active width never
    completes the derivation. *)
Lemma short_line_never_completes (fuel : nat) (vm0 : videomode) :
  derive_videomode fuel mode_short_line vm0 = None.
Proof. apply derive_videomode_diverges. reflexivity. Qed.

(** C2, as stated, fails.  On a valid timing with three pixels of blanking
    the bound is ceil(3 / 2) = 2, two executions of the loop body do not
    complete the loop, and the loop runs its body three times.  And ordered
    horizontal members alone do not make the loop terminate: when they span
    the whole range of [int] the source blanking wraps to 2^32 - 1 and no
    amount of fuel completes the derivation. *)
Lemma blank_loop_exceeds_bound :
  (valid_htimings mode_narrow_blanking /\
   ceil_div (sditx_blank_of mode_narrow_blanking) PIXELS_PER_CLK = 2 /\
   derive_videomode 2 mode_narrow_blanking zero_vm = None /\
   exists vm ps,
     derive_videomode 3 mode_narrow_blanking zero_vm = Some (vm, ps) /\
     List.length ps = 3%nat /\
     hfront_porch vm = 3) /\
  (hdisplay mode_full_range <= hsync_start mode_full_range /\
   hsync_start mode_full_range <= hsync_end mode_full_range /\
   hsync_end mode_full_range <= htotal mode_full_range /\
   forall fuel, derive_videomode fuel mode_full_range zero_vm = None).
Proof.
  split.
  - split; [unfold valid_htimings, in_int, mode_narrow_blanking; cbn; lia|].
    split; [reflexivity|]. split; [vm_compute; reflexivity|].
    do 2 eexists. split; [vm_compute; reflexivity|]. split; reflexivity.
  - unfold mode_full_range. cbn [hdisplay hsync_start hsync_end htotal].
    split; [lia|]. split; [lia|]. split; [lia|].
    intros fuel. apply derive_videomode_diverges. reflexivity.
Qed.

(** C2, amended.  For every display timing with valid horizontal timings
    the blanking loop terminates, after at most ceil(sditxBlank / 2) + 1
    executions of its body (and never more than three): the log [ps] has
    one entry per execution, its length is exactly the fuel the loop needs,
    every execution that loops back found the derived blanking short and
    leaves it larger by 2, and the source blanking is the same throughout. *)
Theorem blank_loop_terminates (m : drm_display_mode) (vm0 : videomode) :
  valid_htimings m ->
  exists vm ps,
    (forall fuel,
        derive_videomode fuel m vm0 =
        if (List.length ps <=? fuel)%nat then Some (vm, ps) else None) /\
    Z.of_nat (List.length ps)
      <= ceil_div (sditx_blank_of m) PIXELS_PER_CLK + 1 /\
    (List.length ps <= 3)%nat /\
    passes_chain ps.
Proof.
  intros Hv.
  destruct (derive_videomode_valid m vm0 Hv)
    as (vm & ps & Hrun & Hlen & Hbound & _ & _ & Hchain).
  exists vm, ps. auto.
Qed.

Lemma blank_loop_terminates_witness :
  valid_htimings mode_narrow_blanking /\
  exists vm ps,
    (forall fuel,
        derive_videomode fuel mode_narrow_blanking zero_vm =
        if (List.length ps <=? fuel)%nat then Some (vm, ps) else None) /\
    Z.of_nat (List.length ps)
      <= ceil_div (sditx_blank_of mode_narrow_blanking) PIXELS_PER_CLK + 1 /\
    (List.length ps <= 3)%nat /\
    passes_chain ps.
Proof.
  assert (Hv : valid_htimings mode_narrow_blanking).
  { unfold valid_htimings, in_int, mode_narrow_blanking. cbn. lia. }
  split; [exact Hv|].
  exact (blank_loop_terminates mode_narrow_blanking zero_vm Hv).
Defined.

(** ** Vertical back porch *)

(** Whatever the loop does, the completed derivation carries the back porch
    of [derive_timings]. *)
Lemma derive_videomode_vback_porch (fuel : nat) (m : drm_display_mode)
  (vm0 vm : videomode) (ps : list blank_pass) :
  derive_videomode fuel m vm0 = Some (vm, ps) ->
  vback_porch vm = vback_porch (derive_timings m vm0).
Proof.
  unfold derive_videomode.
  destruct (blank_loop fuel m (derive_timings m vm0)) as [[vm' ps']|] eqn:E;
    [|discriminate].
  intros [= <- <-]. apply blank_loop_frame in E. rewrite E. reflexivity.
Qed.

(** An [int] difference stored in a [u32] member: the plain difference when
    it is not negative, and 2^32 more when it is. *)
Lemma u32_int_sub_cases (a b : Z) :
  in_int a -> in_int b ->
  u32 (int_sub a b) = if b <=? a then a - b else a - b + 2 ^ 32.
Proof.
  unfold in_int, int_sub, u32, s32.
  change (2 ^ 32) with 4294967296. change (2 ^ 31) with 2147483648.
  intros Ha Hb. destruct (Z.leb_spec b a); Z.div_mod_to_equations; lia.
Qed.

(** C5, as stated, fails.  On the CEA-861 1080i timing, interlaced with
    vtotal 1125 and vsync_end 1094 counted over the frame, the derivation
    completes with a vertical back porch of 4294966764, not 562 - 1094: the
    [int] difference is stored in a [u32] member.  And not every
    non-interlaced timing has a derived back porch: on a line total one short
    of the active width the derivation never completes. *)
Lemma vback_porch_wraps :
  (valid_htimings mode_1080i_frame /\
   flag_set (flags mode_1080i_frame) DRM_MODE_FLAG_INTERLACE = true /\
   vtotal mode_1080i_frame = 1125 /\
   exists vm ps,
     derive_videomode 1 mode_1080i_frame zero_vm = Some (vm, ps) /\
     vback_porch vm = 4294966764 /\
     vback_porch vm <> 562 - vsync_end mode_1080i_frame) /\
  (flag_set (flags mode_short_line) DRM_MODE_FLAG_INTERLACE = false /\
   forall fuel vm0, derive_videomode fuel mode_short_line vm0 = None).
Proof.
  split.
  - split; [unfold valid_htimings, in_int, mode_1080i_frame; cbn; lia|].
    split; [reflexivity|]. split; [reflexivity|].
    do 2 eexists. split; [vm_compute; reflexivity|].
    split; [reflexivity|]. discriminate.
  - split; [reflexivity|]. intros fuel vm0.
    apply short_line_never_completes.
Qed.

(** C5.  For every display timing with valid horizontal timings and with
    vtotal and vsync_end within an [int], the derivation completes (three
    executions of the loop body always suffice) and the derived vertical back
    porch is: for a non-interlaced timing vtotal - vsync_end when vsync_end
    does not exceed vtotal, and 2^32 more than that difference when it does;
    for an interlaced timing with vtotal 1125, 625 or 525 the difference
    562 - vsync_end, 312 - vsync_end or 262 - vsync_end when vsync_end does
    not exceed the minuend, and 2^32 more than that difference when it
    does. *)
Theorem vback_porch_derived (m : drm_display_mode) (vm0 : videomode) :
  valid_htimings m ->
  in_int (vtotal m) -> in_int (vsync_end m) ->
  exists vm ps,
    (forall fuel, (3 <= fuel)%nat ->
                  derive_videomode fuel m vm0 = Some (vm, ps)) /\
    (flag_set (flags m) DRM_MODE_FLAG_INTERLACE = false ->
     vback_porch vm
     = if vsync_end m <=? vtotal m then vtotal m - vsync_end m
       else vtotal m - vsync_end m + 2 ^ 32) /\
    (flag_set (flags m) DRM_MODE_FLAG_INTERLACE = true ->
     (vtotal m = 1125 ->
      vback_porch vm
      = if vsync_end m <=? 562 then 562 - vsync_end m
        else 562 - vsync_end m + 2 ^ 32) /\
     (vtotal m = 625 ->
      vback_porch vm
      = if vsync_end m <=? 312 then 312 - vsync_end m
        else 312 - vsync_end m + 2 ^ 32) /\
     (vtotal m = 525 ->
      vback_porch vm
      = if vsync_end m <=? 262 then 262 - vsync_end m
        else 262 - vsync_end m + 2 ^ 32)).
Proof.
  intros Hv Ht Hs.
  destruct (derive_videomode_completes m vm0 Hv) as (vm & ps & Hrun).
  exists vm, ps. split; [exact Hrun|].
  rewrite (derive_videomode_vback_porch _ _ _ _ _ (Hrun 3%nat (le_n 3))).
  unfold derive_timings. cbn [vback_porch].
  split; intros Hi; rewrite Hi.
  - now apply u32_int_sub_cases.
  - split; [|split]; intros Hvt; rewrite Hvt; cbn [Z.eqb Pos.eqb];
      apply u32_int_sub_cases; try assumption; unfold in_int; lia.
Qed.

Lemma vback_porch_derived_witness :
  valid_htimings mode_1080i_frame /\
  in_int (vtotal mode_1080i_frame) /\ in_int (vsync_end mode_1080i_frame) /\
  exists vm ps,
    (forall fuel, (3 <= fuel)%nat ->
                  derive_videomode fuel mode_1080i_frame zero_vm
                  = Some (vm, ps)) /\
    vback_porch vm = 562 - 1094 + 2 ^ 32.
Proof.
  assert (Hv : valid_htimings mode_1080i_frame)
    by (unfold valid_htimings, in_int, mode_1080i_frame; cbn; lia).
  assert (Ht : in_int (vtotal mode_1080i_frame))
    by (unfold in_int, mode_1080i_frame; cbn; lia).
  assert (Hs : in_int (vsync_end mode_1080i_frame))
    by (unfold in_int, mode_1080i_frame; cbn; lia).
  split; [exact Hv|]. split; [exact Ht|]. split; [exact Hs|].
  destruct (vback_porch_derived mode_1080i_frame zero_vm Hv Ht Hs)
    as (vm & ps & Hrun & _ & Hi).
  exists vm, ps. split; [exact Hrun|].
  exact (proj1 (Hi eq_refl) eq_refl).
Defined.

(** For an interlaced timing with any other vtotal the code assigns nothing:
    the back porch handed on is the incoming content of the stack slot. *)
Lemma vback_porch_unassigned (fuel : nat) (m : drm_display_mode)
  (vm0 vm : videomode) (ps : list blank_pass) :
  derive_videomode fuel m vm0 = Some (vm, ps) ->
  flag_set (flags m) DRM_MODE_FLAG_INTERLACE = true ->
  vtotal m <> 1125 -> vtotal m <> 625 -> vtotal m <> 525 ->
  vback_porch vm = vback_porch vm0.
Proof.
  intros Hrun Hi H1 H2 H3.
  rewrite (derive_videomode_vback_porch _ _ _ _ _ Hrun).
  unfold derive_timings. cbn [vback_porch]. rewrite Hi.
  rewrite (proj2 (Z.eqb_neq _ _) H1), (proj2 (Z.eqb_neq _ _) H2),
    (proj2 (Z.eqb_neq _ _) H3).
  reflexivity.
Qed.

(** C9.  On the interlaced 1250-line timing two runs of the derivation on
    the same display timing complete, and hand on different vertical back
    porches, each the value its stack slot happened to hold: the declaration
    [struct videomode vm] has no initialiser and no branch assigns the
    member. *)
Theorem vback_porch_uninitialised :
  exists vm_a vm_b ps,
    derive_videomode 3 mode_1250i stack_a = Some (vm_a, ps) /\
    derive_videomode 3 mode_1250i stack_b = Some (vm_b, ps) /\
    vback_porch vm_a = 0 /\
    vback_porch vm_b = 0xdeadbeef /\
    vback_porch vm_a <> vback_porch vm_b.
Proof.
  do 3 eexists. split; [vm_compute; reflexivity|].
  split; [vm_compute; reflexivity|].
  split; [reflexivity|]. split; [reflexivity|]. discriminate.
Qed.

(** ** The mode-set path *)

Section ModeSetFacts.

Variable xlnx_sdi_modes : list drm_display_mode.

(** The whole of [drm_vid_ep_encoder_atomic_mode_set]: the bridge is given
    the incoming geometry, the table may replace the timing, the core is set
    up, and the derivation runs on the timing as replaced. *)
Lemma mode_set_run (fuel : nat) (drm_ep : drm_vid_ep)
  (m : drm_display_mode) (vm0 : videomode) (hw : hardware) :
  run (drm_vid_ep_encoder_atomic_mode_set xlnx_sdi_modes fuel drm_ep m vm0) hw
  = match derive_videomode fuel
            (sdi_timing_override xlnx_sdi_modes drm_ep m) vm0 with
    | Some (vm, _) =>
        Some ((publish_video_mode
                 (sdi_timing_override xlnx_sdi_modes drm_ep m) drm_ep,
               sdi_timing_override xlnx_sdi_modes drm_ep m, vm),
              [BridgeSetInput (bridge drm_ep) (hdisplay m) (vdisplay m)
                 (in_fmt_prop_val drm_ep);
               BridgeSetOutput (bridge drm_ep) (width_out_prop_val drm_ep)
                 (height_out_prop_val drm_ep) (out_fmt_prop_val drm_ep);
               BridgeEnable (bridge drm_ep);
               Writel WREG_IRQ_MASK 6;
               Writel WREG_IRQ_ENABLE 1;
               StcReset;
               Writel WREG_SDI_MODE
                 (if existsb (Z.eqb (sdi_mod_prop_val drm_ep))
                       [SDI_MODE_HD; SDI_MODE_SD; SDI_MODE_3GA; SDI_MODE_6G;
                        SDI_MODE_12G]
                  then sdi_mod_prop_val drm_ep else 0);
               Writel WREG_SDI_IS_FRAC
                 (if is_frac_prop_val drm_ep =? 0 then 0 else 1);
               StcSig vm])
    | None => None
    end.
Proof.
  unfold run, drm_vid_ep_encoder_atomic_mode_set, drm_vid_ep_setup,
    drm_vid_ep_set_config_parameters, drm_vid_ep_set_sdi_mode, bind, existsb.
  unfold SDI_MODE_SD, SDI_MODE_HD, SDI_MODE_3GA, SDI_MODE_6G, SDI_MODE_12G.
  set (mode := sdi_mod_prop_val drm_ep).
  set (m' := sdi_timing_override xlnx_sdi_modes drm_ep m).
  destruct (derive_videomode fuel m' vm0) as [[vm ps]|];
    destruct (is_frac_prop_val drm_ep =? 0);
    (destruct (Z.eqb_spec mode 1) as [->|_]; [reflexivity|]);
    (destruct (Z.eqb_spec mode 0) as [->|_]; [reflexivity|]);
    (destruct (Z.eqb_spec mode 2) as [->|_]; [reflexivity|]);
    (destruct (Z.eqb_spec mode 4) as [->|_]; [reflexivity|]);
    (destruct (Z.eqb_spec mode 5) as [->|_]; reflexivity).
Qed.

Lemma sdi_modes_scan_first_match (modes : list drm_display_mode)
  (drm_ep : drm_vid_ep) (m : drm_display_mode) :
  sdi_modes_scan modes drm_ep m =
  match first_match modes drm_ep m with
  | Some e => memcpy_timing_params m e
  | None => m
  end.
Proof.
  unfold first_match.
  induction modes as [|e rest IH]; [reflexivity|].
  cbn [sdi_modes_scan find]. rewrite IH.
  destruct (sdi_mode_matches drm_ep e m); reflexivity.
Qed.

Lemma first_match_matches (modes : list drm_display_mode)
  (drm_ep : drm_vid_ep) (m e : drm_display_mode) :
  first_match modes drm_ep m = Some e ->
  In e modes /\
  u32 (hdisplay e) = width_out_prop_val drm_ep /\
  u32 (vdisplay e) = height_out_prop_val drm_ep /\
  vrefresh e = vrefresh m.
Proof.
  unfold first_match. intros H. apply find_some in H. destruct H as [Hin H].
  unfold sdi_mode_matches in H.
  apply andb_prop in H. destruct H as [H H3].
  apply andb_prop in H. destruct H as [H1 H2].
  split; [exact Hin|]. repeat split; now apply Z.eqb_eq.
Qed.

(** C6, amended.  When the table has an entry matching the output width,
    the output height and the refresh rate of the display timing, and [e] is
    the first such entry: with a bridge bound, the mode-set path copies the
    twelve members clock, hdisplay, hsync_start, hsync_end, htotal, hskew,
    vdisplay, vsync_start, vsync_end, vtotal, vscan and flags of [e] over the
    display timing, so that its active width and height become those of the
    entry (the requested output width and height), it leaves vrefresh, and
    the derivation steps run on the timing so replaced; with no bridge bound
    the display timing is left as it is and the derivation runs on it
    unchanged. *)
Theorem sdi_table_override (fuel : nat) (drm_ep : drm_vid_ep)
  (m e : drm_display_mode) (vm0 : videomode) (hw : hardware) :
  first_match xlnx_sdi_modes drm_ep m = Some e ->
  (bridge drm_ep <> NULL ->
   sdi_timing_override xlnx_sdi_modes drm_ep m =
     mk_mode (clock e) (hdisplay e) (hsync_start e) (hsync_end e) (htotal e)
       (hskew e) (vdisplay e) (vsync_start e) (vsync_end e) (vtotal e)
       (vscan e) (flags e) (vrefresh m) /\
   u32 (hdisplay (sdi_timing_override xlnx_sdi_modes drm_ep m))
     = width_out_prop_val drm_ep /\
   u32 (vdisplay (sdi_timing_override xlnx_sdi_modes drm_ep m))
     = height_out_prop_val drm_ep) /\
  (bridge drm_ep = NULL ->
   sdi_timing_override xlnx_sdi_modes drm_ep m = m) /\
  option_map (fun r => (snd (fst (fst r)), snd (fst r)))
    (run (drm_vid_ep_encoder_atomic_mode_set xlnx_sdi_modes fuel drm_ep m vm0)
         hw)
  = option_map
      (fun r => (sdi_timing_override xlnx_sdi_modes drm_ep m, fst r))
      (derive_videomode fuel (sdi_timing_override xlnx_sdi_modes drm_ep m)
         vm0).
Proof.
  intros Hfm. split; [|split].
  - intros Hbr. unfold sdi_timing_override.
    rewrite (proj2 (Z.eqb_neq _ _) Hbr). cbn [negb].
    rewrite sdi_modes_scan_first_match, Hfm.
    apply first_match_matches in Hfm. destruct Hfm as (_ & Hw & Hh & _).
    split; [reflexivity|]. split; assumption.
  - intros Hbr. unfold sdi_timing_override. rewrite Hbr. reflexivity.
  - rewrite mode_set_run.
    destruct (derive_videomode fuel
                (sdi_timing_override xlnx_sdi_modes drm_ep m) vm0)
      as [[vm ps]|]; reflexivity.
Qed.

(** C8.  For the 3840x2160 timing of the scenario (hdisplay 3840,
    hsync_start 3888, hsync_end 3920, htotal 4016, vdisplay 2160, vsync_start
    2168, vsync_end 2176, vtotal 2222, 594000 kHz, not interlaced) with a 12G
    3840x2160 output, whenever the table lookup leaves the timing as it is,
    the mode-set completes; the record handed to the timing controller has
    horizontal active 1920, pixel clock 594,000,000 Hz and vertical back
    porch 46; the mode register is written once, with code 5; and the derived
    blanking is at least the source blanking, reached with no front-porch
    increment (front porch 24, both blankings 176). *)
Theorem scenario_2160p (fuel : nat) (drm_ep : drm_vid_ep)
  (hskew' vscan' flags' vrefresh' : Z) (vm0 : videomode) (hw : hardware) :
  (1 <= fuel)%nat ->
  flag_set flags' DRM_MODE_FLAG_INTERLACE = false ->
  sdi_mod_prop_val drm_ep = SDI_MODE_12G ->
  width_out_prop_val drm_ep = 3840 ->
  height_out_prop_val drm_ep = 2160 ->
  sdi_timing_override xlnx_sdi_modes drm_ep
    (mode_2160p hskew' vscan' flags' vrefresh')
    = mode_2160p hskew' vscan' flags' vrefresh' ->
  exists drm_ep' vm log,
    run (drm_vid_ep_encoder_atomic_mode_set xlnx_sdi_modes fuel drm_ep
           (mode_2160p hskew' vscan' flags' vrefresh') vm0) hw
      = Some ((drm_ep', mode_2160p hskew' vscan' flags' vrefresh', vm), log) /\
    hactive vm = 1920 /\
    pixelclock vm = 594000000 /\
    written_to WREG_SDI_MODE log = [5] /\
    vback_porch vm = 46 /\
    hfront_porch vm = 24 /\
    vtc_blank_of vm = 176 /\
    sditx_blank_of (mode_2160p hskew' vscan' flags' vrefresh') = 176 /\
    sditx_blank_of (mode_2160p hskew' vscan' flags' vrefresh')
      <= vtc_blank_of vm.
Proof.
  intros Hfuel Hi Hmode Hw Hh Hov.
  destruct fuel as [|fuel]; [lia|].
  rewrite mode_set_run, Hov, Hmode.
  set (m := mode_2160p hskew' vscan' flags' vrefresh').
  assert (Hs : sditx_blank_of m = 176) by reflexivity.
  assert (Hv : vtc_blank_of (derive_timings m vm0) = 176) by reflexivity.
  unfold derive_videomode. rewrite blank_loop_S.
  rewrite blank_body_equal by congruence.
  cbn [vtc_blank sditx_blank]. rewrite Hv, Hs. cbn [Z.ltb Z.compare Pos.compare
    Pos.compare_cont].
  do 3 eexists. split; [reflexivity|].
  unfold derive_timings, m, mode_2160p.
  cbn [flags vtotal vsync_end hdisplay clock]. rewrite Hi.
  repeat split; try reflexivity; discriminate.
Qed.

End ModeSetFacts.

(** C6, as stated, fails twice on a table holding the 1080p60 entry, an
    endpoint asked for a 1920x1080 output and a 1280x720 display timing at
    60 Hz, which the entry matches.  With no bridge bound the table is not
    consulted and the timing keeps its own clock, 74250 kHz against the
    entry's 148500.  With a bridge bound the copy includes the geometry: the
    active size of the timing goes from 1280x720 to 1920x1080. *)
Lemma sdi_table_override_counterexample :
  first_match [mode_1080p60] (sample_ep_1080 NULL) mode_720p60
    = Some mode_1080p60 /\
  option_map (fun r => clock (snd (fst (fst r))))
    (run (drm_vid_ep_encoder_atomic_mode_set [mode_1080p60] 3
            (sample_ep_1080 NULL) mode_720p60 zero_vm) (fun _ => 0))
    = Some 74250 /\
  clock mode_1080p60 = 148500 /\
  first_match [mode_1080p60] (sample_ep_1080 0xB000) mode_720p60
    = Some mode_1080p60 /\
  option_map (fun r => (hdisplay (snd (fst (fst r))),
                        vdisplay (snd (fst (fst r)))))
    (run (drm_vid_ep_encoder_atomic_mode_set [mode_1080p60] 3
            (sample_ep_1080 0xB000) mode_720p60 zero_vm) (fun _ => 0))
    = Some (1920, 1080) /\
  (hdisplay mode_720p60, vdisplay mode_720p60) = (1280, 720).
Proof.
  split; [reflexivity|]. split; [vm_compute; reflexivity|].
  split; [reflexivity|]. split; [reflexivity|].
  split; [vm_compute; reflexivity|]. reflexivity.
Qed.

Lemma sdi_table_override_witness :
  first_match [mode_1080p60] (sample_ep_1080 0xB000) mode_720p60
    = Some mode_1080p60 /\
  bridge (sample_ep_1080 0xB000) <> NULL /\
  sdi_timing_override [mode_1080p60] (sample_ep_1080 0xB000) mode_720p60
    = mk_mode 148500 1920 2008 2052 2200 0 1080 1084 1089 1125 0 5 60.
Proof.
  assert (Hfm : first_match [mode_1080p60] (sample_ep_1080 0xB000) mode_720p60
                = Some mode_1080p60) by reflexivity.
  assert (Hbr : bridge (sample_ep_1080 0xB000) <> NULL) by discriminate.
  split; [exact Hfm|]. split; [exact Hbr|].
  exact (proj1 (proj1 (sdi_table_override [mode_1080p60] 3
                         (sample_ep_1080 0xB000) mode_720p60 mode_1080p60
                         zero_vm (fun _ => 0) Hfm) Hbr)).
Defined.

Lemma scenario_2160p_witness :
  sdi_timing_override [mode_1080p60] (sample_ep_2160 0xB000)
    (mode_2160p 0 0 0 60) = mode_2160p 0 0 0 60 /\
  exists drm_ep' vm log,
    run (drm_vid_ep_encoder_atomic_mode_set [mode_1080p60] 1
           (sample_ep_2160 0xB000) (mode_2160p 0 0 0 60) zero_vm)
        (fun _ => 0)
      = Some ((drm_ep', mode_2160p 0 0 0 60, vm), log) /\
    hactive vm = 1920 /\
    pixelclock vm = 594000000 /\
    written_to WREG_SDI_MODE log = [5] /\
    vback_porch vm = 46 /\
    hfront_porch vm = 24 /\
    vtc_blank_of vm = 176 /\
    sditx_blank_of (mode_2160p 0 0 0 60) = 176 /\
    sditx_blank_of (mode_2160p 0 0 0 60) <= vtc_blank_of vm.
Proof.
  assert (Hov : sdi_timing_override [mode_1080p60] (sample_ep_2160 0xB000)
                  (mode_2160p 0 0 0 60) = mode_2160p 0 0 0 60)
    by reflexivity.
  split; [exact Hov|].
  apply (scenario_2160p [mode_1080p60] 1 (sample_ep_2160 0xB000) 0 0 0 60
           zero_vm (fun _ => 0));
    first [exact Hov | lia | reflexivity].
Defined.

(** * Further properties *)

(** ** Connector properties, continued *)

(** Turn [NoDup] of the nine handles of a decomposed endpoint into plain
    disequalities. *)
Ltac split_handles Hnd :=
  unfold handles, all_keys in Hnd;
  cbn [map handle_of sdi_mode sdi_data_strm sdi_420_in sdi_420_out
         is_frac_prop height_out width_out in_fmt out_fmt] in Hnd;
  repeat match goal with
         | H : NoDup (_ :: _) |- _ => inversion H; clear H; subst
         end;
  cbn [In] in *;
  repeat match goal with
         | H : ~ (_ \/ _) |- _ => apply Decidable.not_or in H; destruct H
         end.

(** Set followed by get on one property. *)
Lemma property_round_trip (drm_ep : drm_vid_ep) (k : prop_key) (v old : Z) :
  NoDup (handles drm_ep) ->
  drm_vid_ep_atomic_set_property drm_ep (handle_of drm_ep k) v
    = (0, snd (drm_vid_ep_atomic_set_property drm_ep (handle_of drm_ep k) v))
  /\
  drm_vid_ep_atomic_get_property
    (snd (drm_vid_ep_atomic_set_property drm_ep (handle_of drm_ep k) v))
    (handle_of drm_ep k) old = (0, stored k v).
Proof.
  intros Hnd. destruct drm_ep. split_handles Hnd.
  unfold drm_vid_ep_atomic_set_property, drm_vid_ep_atomic_get_property.
  destruct k; cbn; decide_handles; cbn;
    (split; [reflexivity|]); decide_handles;
    rewrite ?u64_u32, ?u64_to_bool; reflexivity.
Qed.

(** X1.  With distinct handles, setting one property changes what a get of
    that property returns and nothing else: a get of any other property
    returns what it returned before, and the register base, the bridge and
    the published video mode stay. *)
Theorem set_property_leaves_others (drm_ep : drm_vid_ep) (j k : prop_key)
  (v old : Z) :
  NoDup (handles drm_ep) -> j <> k ->
  drm_vid_ep_atomic_get_property
    (snd (drm_vid_ep_atomic_set_property drm_ep (handle_of drm_ep k) v))
    (handle_of drm_ep j) old
  = drm_vid_ep_atomic_get_property drm_ep (handle_of drm_ep j) old /\
  base (snd (drm_vid_ep_atomic_set_property drm_ep (handle_of drm_ep k) v))
  = base drm_ep /\
  bridge (snd (drm_vid_ep_atomic_set_property drm_ep (handle_of drm_ep k) v))
  = bridge drm_ep /\
  video_mode
    (snd (drm_vid_ep_atomic_set_property drm_ep (handle_of drm_ep k) v))
  = video_mode drm_ep.
Proof.
  intros Hnd Hjk. destruct drm_ep. split_handles Hnd.
  unfold drm_vid_ep_atomic_set_property, drm_vid_ep_atomic_get_property.
  destruct k; cbn; decide_handles; cbn;
    (split; [|repeat split]);
    destruct j; try congruence; cbn; decide_handles; reflexivity.
Qed.

Lemma set_property_leaves_others_witness :
  NoDup (handles (sample_ep_1080 NULL)) /\ K_width_out <> K_height_out /\
  drm_vid_ep_atomic_get_property
    (snd (drm_vid_ep_atomic_set_property (sample_ep_1080 NULL)
            (handle_of (sample_ep_1080 NULL) K_height_out) 720))
    (handle_of (sample_ep_1080 NULL) K_width_out) 0
  = (0, 1920).
Proof.
  assert (Hnd : NoDup (handles (sample_ep_1080 NULL))).
  { unfold handles, all_keys, sample_ep_1080, sample_ep.
    cbn [map handle_of]. repeat constructor; cbn; intuition discriminate. }
  assert (Hjk : K_width_out <> K_height_out) by discriminate.
  split; [exact Hnd|]. split; [exact Hjk|].
  exact (proj1 (set_property_leaves_others (sample_ep_1080 NULL) K_width_out
                  K_height_out 720 0 Hnd Hjk)).
Defined.

(** What [drm_vid_ep_drm_connector_create_property] does, from any log. *)
Lemma create_property_run (new_prop : nat -> Z) (e : drm_vid_ep)
  (hw : hardware) (log : list call) :
  drm_vid_ep_drm_connector_create_property new_prop e hw log =
  Some (mk_ep (base e) (mode_flags e)
          (new_prop 1%nat) (sdi_mod_prop_val e)
          (new_prop 2%nat) (sdi_data_strm_prop_val e)
          (new_prop 3%nat) (sdi_420_in_val e)
          (new_prop 4%nat) (sdi_420_out_val e)
          (new_prop 0%nat) (is_frac_prop_val e)
          (bridge e)
          (new_prop 5%nat) (height_out_prop_val e)
          (new_prop 6%nat) (width_out_prop_val e)
          (new_prop 7%nat) (in_fmt_prop_val e)
          (new_prop 8%nat) (out_fmt_prop_val e)
          (video_mode e),
        log ++
        [PropertyCreateBool "is_frac" (new_prop 0%nat);
         PropertyCreateRange "sdi_mode" 0 5 (new_prop 1%nat);
         PropertyCreateRange "sdi_data_stream" 2 8 (new_prop 2%nat);
         PropertyCreateBool "sdi_420_in" (new_prop 3%nat);
         PropertyCreateBool "sdi_420_out" (new_prop 4%nat);
         PropertyCreateRange "height_out" 2 4096 (new_prop 5%nat);
         PropertyCreateRange "width_out" 2 4096 (new_prop 6%nat);
         PropertyCreateRange "in_fmt" 0 16384 (new_prop 7%nat);
         PropertyCreateRange "out_fmt" 0 16384 (new_prop 8%nat)]).
Proof.
  unfold drm_vid_ep_drm_connector_create_property, pbind, pemit, pret.
  rewrite <- !app_assoc. reflexivity.
Qed.

(** Close a round-trip goal for the property [K] whose handle the goal
    mentions. *)
Ltac round_trip_with K e' v old Hnd :=
  let Hs := fresh "Hs" in
  let Hg := fresh "Hg" in
  destruct (property_round_trip e' K v old Hnd) as [Hs Hg];
  split;
  [ exact (f_equal fst Hs)
  | transitivity (0, stored K v);
    [ exact Hg
    | unfold stored, to_bool; rewrite ?u32_small by lia;
      try reflexivity;
      destruct (Z.eqb_spec v 0); f_equal; lia ] ].

(** X2.  Within the range a property is created with, nothing is lost: when
    the nine created handles are distinct, a value between the minimum and
    the maximum of a range property, or 0 or 1 for a boolean property, is
    accepted by set and returned unchanged by the following get. *)
Theorem created_range_round_trip (new_prop : nat -> Z) (e e' : drm_vid_ep)
  (hw : hardware) (log : list call) (v old : Z) :
  prun (drm_vid_ep_drm_connector_create_property new_prop e) hw
    = Some (e', log) ->
  NoDup (handles e') ->
  (forall name lo hi h,
      In (PropertyCreateRange name lo hi h) log -> lo <= v <= hi ->
      fst (drm_vid_ep_atomic_set_property e' h v) = 0 /\
      drm_vid_ep_atomic_get_property
        (snd (drm_vid_ep_atomic_set_property e' h v)) h old = (0, v)) /\
  (forall name h,
      In (PropertyCreateBool name h) log -> 0 <= v <= 1 ->
      fst (drm_vid_ep_atomic_set_property e' h v) = 0 /\
      drm_vid_ep_atomic_get_property
        (snd (drm_vid_ep_atomic_set_property e' h v)) h old = (0, v)).
Proof.
  unfold prun. rewrite create_property_run. intros [= <- <-].
  match goal with
  | |- NoDup (handles ?t) -> _ => set (e' := t)
  end.
  intros Hnd. cbn [app].
  split.
  - intros name lo hi h Hin Hv.
    repeat (destruct Hin as [Hin|Hin]; [try discriminate Hin|]);
      try contradiction;
      injection Hin as <- <- <- <-;
      first [ round_trip_with K_sdi_mode e' v old Hnd
            | round_trip_with K_sdi_data_stream e' v old Hnd
            | round_trip_with K_height_out e' v old Hnd
            | round_trip_with K_width_out e' v old Hnd
            | round_trip_with K_in_fmt e' v old Hnd
            | round_trip_with K_out_fmt e' v old Hnd ].
  - intros name h Hin Hv.
    repeat (destruct Hin as [Hin|Hin]; [try discriminate Hin|]);
      try contradiction;
      injection Hin as <- <-;
      first [ round_trip_with K_is_frac e' v old Hnd
            | round_trip_with K_sdi_420_in e' v old Hnd
            | round_trip_with K_sdi_420_out e' v old Hnd ].
Qed.

Lemma created_range_round_trip_witness :
  exists e' log,
    prun (drm_vid_ep_drm_connector_create_property sample_new_prop zeroed_ep)
         (fun _ => 0) = Some (e', log) /\
    NoDup (handles e') /\
    In (PropertyCreateRange "width_out" 2 4096 0x1007) log /\
    2 <= 4096 <= 4096 /\
    drm_vid_ep_atomic_get_property
      (snd (drm_vid_ep_atomic_set_property e' 0x1007 4096)) 0x1007 0
    = (0, 4096).
Proof.
  do 2 eexists.
  assert (Hrun : prun (drm_vid_ep_drm_connector_create_property
                         sample_new_prop zeroed_ep) (fun _ => 0)
                 = Some (mk_ep 0 0 0x1002 0 0x1003 0 0x1004 0 0x1005 0 0x1001
                           0 0 0x1006 0 0x1007 0 0x1008 0 0x1009 0 zero_mode,
                         [PropertyCreateBool "is_frac" 0x1001;
                          PropertyCreateRange "sdi_mode" 0 5 0x1002;
                          PropertyCreateRange "sdi_data_stream" 2 8 0x1003;
                          PropertyCreateBool "sdi_420_in" 0x1004;
                          PropertyCreateBool "sdi_420_out" 0x1005;
                          PropertyCreateRange "height_out" 2 4096 0x1006;
                          PropertyCreateRange "width_out" 2 4096 0x1007;
                          PropertyCreateRange "in_fmt" 0 16384 0x1008;
                          PropertyCreateRange "out_fmt" 0 16384 0x1009]))
    by reflexivity.
  assert (Hnd : NoDup (handles
                  (mk_ep 0 0 0x1002 0 0x1003 0 0x1004 0 0x1005 0 0x1001
                     0 0 0x1006 0 0x1007 0 0x1008 0 0x1009 0 zero_mode))).
  { unfold handles, all_keys. cbn [map handle_of].
    repeat constructor; cbn; intuition discriminate. }
  assert (Hin : In (PropertyCreateRange "width_out" 2 4096 0x1007)
                  [PropertyCreateBool "is_frac" 0x1001;
                   PropertyCreateRange "sdi_mode" 0 5 0x1002;
                   PropertyCreateRange "sdi_data_stream" 2 8 0x1003;
                   PropertyCreateBool "sdi_420_in" 0x1004;
                   PropertyCreateBool "sdi_420_out" 0x1005;
                   PropertyCreateRange "height_out" 2 4096 0x1006;
                   PropertyCreateRange "width_out" 2 4096 0x1007;
                   PropertyCreateRange "in_fmt" 0 16384 0x1008;
                   PropertyCreateRange "out_fmt" 0 16384 0x1009])
    by (cbn; tauto).
  assert (Hv : 2 <= 4096 <= 4096) by lia.
  split; [exact Hrun|]. split; [exact Hnd|]. split; [exact Hin|].
  split; [exact Hv|].
  exact (proj2 (proj1 (created_range_round_trip sample_new_prop zeroed_ep _
                         (fun _ => 0) _ 4096 0 Hrun Hnd)
                  "width_out"%string 2 4096 0x1007 Hin Hv)).
Defined.

(** ** Bind and unbind *)

Lemma attach_if_created_run (prop : Z) (hw : hardware) (log : list call) :
  attach_if_created prop hw log =
  Some (tt, log ++ (if prop =? NULL then []
                    else [ObjectAttachProperty prop 0])).
Proof.
  unfold attach_if_created. destruct (prop =? NULL); cbn.
  - unfold pret. now rewrite app_nil_r.
  - reflexivity.
Qed.

Lemma attach_property_run (drm_ep : drm_vid_ep) (hw : hardware)
  (log : list call) :
  drm_vid_ep_drm_connector_attach_property drm_ep hw log =
  Some (tt,
        log ++
        flat_map (fun p => if p =? NULL then []
                           else [ObjectAttachProperty p 0])
          (handles drm_ep)).
Proof.
  unfold drm_vid_ep_drm_connector_attach_property, pbind.
  rewrite !attach_if_created_run.
  unfold handles, all_keys. cbn [map handle_of flat_map].
  rewrite <- !app_assoc, app_nil_r. reflexivity.
Qed.

(** The two outcomes of [drm_vid_ep_bind]. *)
Lemma bind_run (connector_init : Z) (new_prop : nat -> Z)
  (drm_ep : drm_vid_ep) (hw : hardware) :
  prun (drm_vid_ep_bind connector_init new_prop drm_ep) hw =
  if connector_init =? 0 then
    match prun (drm_vid_ep_drm_connector_create_property new_prop drm_ep) hw
    with
    | Some (e', created) =>
        Some ((0, e'),
              [EncoderInit 1; EncoderHelperAdd; ConnectorInit true true;
               ConnectorHelperAdd; ConnectorRegister; ConnectorAttachEncoder]
              ++ created
              ++ flat_map (fun p => if p =? NULL then []
                                    else [ObjectAttachProperty p 0])
                   (handles e'))
    | None => None
    end
  else
    Some ((connector_init, drm_ep),
          [EncoderInit 1; EncoderHelperAdd; ConnectorInit true true;
           DevErr "Failed to initialize connector with drm\n";
           DevErr "fail creating connector, ret = %d\n";
           EncoderCleanup]).
Proof.
  unfold prun, drm_vid_ep_bind, drm_vid_ep_create_connector, pbind, pemit.
  cbn [app]. destruct (Z.eqb_spec connector_init 0) as [->|Hne].
  - cbn [negb]. rewrite !create_property_run.
    rewrite attach_property_run. cbn [pret fst Z.eqb negb app].
    reflexivity.
  - cbn [negb pret fst]. rewrite (proj2 (Z.eqb_neq _ _) Hne). reflexivity.
Qed.

(** X3.  When [drm_connector_init] fails, bind returns its error code,
    cleans the encoder up as its last call, creates and attaches no
    property, does not register the connector, and leaves the endpoint
    structure as it was. *)
Theorem bind_failure_cleans_up (connector_init : Z) (new_prop : nat -> Z)
  (drm_ep : drm_vid_ep) (hw : hardware) :
  connector_init <> 0 ->
  exists log,
    prun (drm_vid_ep_bind connector_init new_prop drm_ep) hw
      = Some ((connector_init, drm_ep), log) /\
    last log ComponentAdd = EncoderCleanup /\
    attached_of log = [] /\
    Forall (fun c => match c with
                     | PropertyCreateBool _ _ | PropertyCreateRange _ _ _ _
                     | ConnectorRegister => False
                     | _ => True
                     end) log.
Proof.
  intros Hne. rewrite bind_run, (proj2 (Z.eqb_neq _ _) Hne).
  eexists. split; [reflexivity|]. split; [reflexivity|].
  split; [reflexivity|]. repeat constructor.
Qed.

Lemma bind_failure_cleans_up_witness :
  - ENOMEM <> 0 /\
  exists log,
    prun (drm_vid_ep_bind (- ENOMEM) sample_new_prop zeroed_ep) (fun _ => 0)
      = Some ((- ENOMEM, zeroed_ep), log) /\
    last log ComponentAdd = EncoderCleanup /\
    attached_of log = [] /\
    Forall (fun c => match c with
                     | PropertyCreateBool _ _ | PropertyCreateRange _ _ _ _
                     | ConnectorRegister => False
                     | _ => True
                     end) log.
Proof.
  assert (Hne : - ENOMEM <> 0) by discriminate.
  split; [exact Hne|].
  exact (bind_failure_cleans_up (- ENOMEM) sample_new_prop zeroed_ep
           (fun _ => 0) Hne).
Defined.

(** X4.  When [drm_connector_init] succeeds, bind returns 0 and does not
    clean the encoder up, whatever the property creations return.  It leaves
    the stored property values as they were and attaches exactly the handles
    whose creation succeeded, each with initial value 0 (none when every
    creation fails).  A property whose creation succeeded is attached and set
    accepts its handle; on a structure whose stored values are still zero a
    get of it returns the attached initial value. *)
Theorem bind_attaches_created (new_prop : nat -> Z) (drm_ep : drm_vid_ep)
  (hw : hardware) :
  exists e' log,
    prun (drm_vid_ep_bind 0 new_prop drm_ep) hw = Some ((0, e'), log) /\
    ~ In EncoderCleanup log /\
    prop_values e' = prop_values drm_ep /\
    attached_of log
      = map (fun p => (p, 0)) (filter (fun p => negb (p =? NULL)) (handles e'))
    /\
    ((forall n, (n < 9)%nat -> new_prop n = NULL) -> attached_of log = []) /\
    (forall n v,
        (n < 9)%nat -> new_prop n <> NULL ->
        In (new_prop n, 0) (attached_of log) /\
        fst (drm_vid_ep_atomic_set_property e' (new_prop n) v) = 0) /\
    (prop_values drm_ep = [0; 0; 0; 0; 0; 0; 0; 0; 0] ->
     forall n old,
       (n < 9)%nat -> new_prop n <> NULL ->
       drm_vid_ep_atomic_get_property e' (new_prop n) old = (0, 0)).
Proof.
  rewrite bind_run. cbn [Z.eqb]. unfold prun.
  rewrite create_property_run.
  match goal with
  | |- context [handles ?t] => set (e' := t)
  end.
  exists e'. eexists. split; [reflexivity|].
  assert (Hatt :
    attached_of
      ([EncoderInit 1; EncoderHelperAdd; ConnectorInit true true;
        ConnectorHelperAdd; ConnectorRegister; ConnectorAttachEncoder]
       ++ ([] ++
           [PropertyCreateBool "is_frac" (new_prop 0%nat);
            PropertyCreateRange "sdi_mode" 0 5 (new_prop 1%nat);
            PropertyCreateRange "sdi_data_stream" 2 8 (new_prop 2%nat);
            PropertyCreateBool "sdi_420_in" (new_prop 3%nat);
            PropertyCreateBool "sdi_420_out" (new_prop 4%nat);
            PropertyCreateRange "height_out" 2 4096 (new_prop 5%nat);
            PropertyCreateRange "width_out" 2 4096 (new_prop 6%nat);
            PropertyCreateRange "in_fmt" 0 16384 (new_prop 7%nat);
            PropertyCreateRange "out_fmt" 0 16384 (new_prop 8%nat)])
       ++ flat_map (fun p => if p =? NULL then []
                             else [ObjectAttachProperty p 0]) (handles e'))
    = map (fun p => (p, 0))
        (filter (fun p => negb (p =? NULL)) (handles e'))).
  { cbn [app attached_of flat_map].
    induction (handles e') as [|p ps IH]; [reflexivity|].
    cbn [flat_map filter]. destruct (p =? NULL); cbn [negb app map].
    - exact IH.
    - cbn [flat_map app]. f_equal. exact IH. }
  assert (Hin : forall n, (n < 9)%nat -> In (new_prop n) (handles e')).
  { intros n Hn. unfold handles, all_keys.
    cbn [map handle_of e' sdi_mode sdi_data_strm sdi_420_in sdi_420_out
         is_frac_prop height_out width_out in_fmt out_fmt In].
    do 9 (destruct n as [|n]; [tauto|]). lia. }
  split; [|split; [reflexivity|split; [exact Hatt|split; [|split]]]].
  - clear Hatt Hin. cbn [app]. intros Hin.
    repeat (destruct Hin as [Hin|Hin]; [discriminate Hin|]).
    induction (handles e') as [|p ps IH]; [exact Hin|].
    cbn [flat_map] in Hin. apply in_app_or in Hin. destruct Hin as [Hin|Hin].
    + destruct (p =? NULL); [exact Hin|].
      destruct Hin as [Hin|[]]. discriminate Hin.
    + exact (IH Hin).
  - intros Hall. rewrite Hatt. clear Hatt Hin.
    unfold handles, all_keys.
    cbn [map handle_of e' sdi_mode sdi_data_strm sdi_420_in sdi_420_out
         is_frac_prop height_out width_out in_fmt out_fmt].
    rewrite (Hall 0%nat), (Hall 1%nat), (Hall 2%nat), (Hall 3%nat),
      (Hall 4%nat), (Hall 5%nat), (Hall 6%nat), (Hall 7%nat), (Hall 8%nat)
      by lia.
    reflexivity.
  - intros n v Hn Hnz. specialize (Hin n Hn). split.
    + rewrite Hatt. apply (in_map (fun p => (p, 0))). apply filter_In.
      split; [exact Hin|]. now rewrite (proj2 (Z.eqb_neq _ _) Hnz).
    + clear Hatt. unfold handles, all_keys in Hin.
      cbn [map handle_of] in Hin.
      unfold drm_vid_ep_atomic_set_property.
      repeat match goal with
             | |- context [new_prop n =? ?p] =>
                 destruct (Z.eqb_spec (new_prop n) p)
             end; try reflexivity.
      exfalso. cbn [In] in Hin. intuition congruence.
  - intros Hz n old Hn Hnz. specialize (Hin n Hn).
    clear Hatt. unfold handles, all_keys in Hin. cbn [map handle_of] in Hin.
    unfold drm_vid_ep_atomic_get_property.
    injection Hz as Hz1 Hz2 Hz3 Hz4 Hz5 Hz6 Hz7 Hz8 Hz9.
    change (sdi_mod_prop_val e') with (sdi_mod_prop_val drm_ep).
    change (sdi_data_strm_prop_val e') with (sdi_data_strm_prop_val drm_ep).
    change (sdi_420_in_val e') with (sdi_420_in_val drm_ep).
    change (sdi_420_out_val e') with (sdi_420_out_val drm_ep).
    change (is_frac_prop_val e') with (is_frac_prop_val drm_ep).
    change (height_out_prop_val e') with (height_out_prop_val drm_ep).
    change (width_out_prop_val e') with (width_out_prop_val drm_ep).
    change (in_fmt_prop_val e') with (in_fmt_prop_val drm_ep).
    change (out_fmt_prop_val e') with (out_fmt_prop_val drm_ep).
    rewrite Hz1, Hz2, Hz3, Hz4, Hz5, Hz6, Hz7, Hz8, Hz9.
    repeat match goal with
           | |- context [new_prop n =? ?p] =>
               destruct (Z.eqb_spec (new_prop n) p)
           end; try reflexivity.
    exfalso. cbn [In] in Hin. intuition congruence.
Qed.

Lemma bind_attaches_created_witness :
  (6 < 9)%nat /\ sample_new_prop 6 <> NULL /\
  prop_values zeroed_ep = [0; 0; 0; 0; 0; 0; 0; 0; 0] /\
  exists e' log,
    prun (drm_vid_ep_bind 0 sample_new_prop zeroed_ep) (fun _ => 0)
      = Some ((0, e'), log) /\
    In (sample_new_prop 6, 0) (attached_of log) /\
    fst (drm_vid_ep_atomic_set_property e' (sample_new_prop 6) 1920) = 0 /\
    drm_vid_ep_atomic_get_property e' (sample_new_prop 6) 7 = (0, 0).
Proof.
  assert (Hn : (6 < 9)%nat) by lia.
  assert (Hnz : sample_new_prop 6 <> NULL) by discriminate.
  assert (Hz : prop_values zeroed_ep = [0; 0; 0; 0; 0; 0; 0; 0; 0])
    by reflexivity.
  split; [exact Hn|]. split; [exact Hnz|]. split; [exact Hz|].
  destruct (bind_attaches_created sample_new_prop zeroed_ep (fun _ => 0))
    as (e' & log & Hrun & _ & _ & _ & _ & Hset & Hget).
  exists e', log. split; [exact Hrun|].
  split; [exact (proj1 (Hset 6%nat 1920 Hn Hnz))|].
  split; [exact (proj2 (Hset 6%nat 1920 Hn Hnz))|].
  exact (Hget Hz 6%nat 7 Hn Hnz).
Defined.

(** X5.  Unbind repeats the register writes and timing-controller calls of
    disable in the same order, then cleans up the encoder and the connector
    and disables the VPSS bridge as its very last call and whether or not one
    is bound; disable does so first and only when one is bound. *)
Theorem unbind_follows_disable (drm_ep : drm_vid_ep) (hw : hardware) :
  exists log_u log_d,
    prun (drm_vid_ep_unbind drm_ep) hw = Some (tt, log_u) /\
    run (drm_vid_ep_disable drm_ep) hw = Some (tt, log_d) /\
    log_d = (if bridge drm_ep =? NULL then []
             else [BridgeDisable (bridge drm_ep)])
            ++ removelast (io_of log_u) /\
    log_u = map Io (removelast (io_of log_u))
            ++ [EncoderCleanup; ConnectorCleanup;
                Io (BridgeDisable (bridge drm_ep))] /\
    writes_of (io_of log_u) = writes_of log_d /\
    Forall (fun r => last_written r (io_of log_u) = Some 0) enable_registers.
Proof.
  rewrite disable_run.
  do 2 eexists. split; [reflexivity|]. split; [reflexivity|].
  cbn [io_of flat_map app removelast map].
  split; [reflexivity|]. split; [reflexivity|]. split.
  - destruct (bridge drm_ep =? NULL); reflexivity.
  - unfold enable_registers. repeat constructor.
Qed.

(** ** Derivation, continued *)

(** The completed derivation is [derive_timings] with the front porch the
    loop settled on and the pixel clock. *)
Lemma derive_videomode_frame (fuel : nat) (m : drm_display_mode)
  (vm0 vm : videomode) (ps : list blank_pass) :
  derive_videomode fuel m vm0 = Some (vm, ps) ->
  vm = with_pixelclock (u64 (int_mul (clock m) 1000))
         (with_hfront_porch (hfront_porch vm) (derive_timings m vm0)).
Proof.
  unfold derive_videomode.
  destruct (blank_loop fuel m (derive_timings m vm0)) as [[vm' ps']|] eqn:E;
    [|discriminate].
  intros [= <- <-]. apply blank_loop_frame in E.
  cbn [hfront_porch with_pixelclock]. now rewrite <- E.
Qed.

Lemma flag_set_testbit (fl k : Z) :
  0 <= k -> flag_set fl (BIT k) = Z.testbit fl k.
Proof.
  intros Hk. unfold flag_set. rewrite land_BIT by assumption.
  destruct (Z.testbit fl k); [|reflexivity].
  unfold BIT. rewrite Z.shiftl_1_l.
  assert (0 < 2 ^ k) by (apply Z.pow_pos_nonneg; lia).
  destruct (Z.eqb_spec (2 ^ k) 0); [lia|reflexivity].
Qed.

Lemma testbit_above (c n : Z) :
  0 <= c < 2 ^ 9 -> 9 <= n -> Z.testbit c n = false.
Proof.
  intros Hc Hn. destruct (Z.eq_dec c 0) as [->|Hne]; [apply Z.bits_0|].
  apply Z.bits_above_log2; [lia|].
  assert (Z.log2 c < 9) by (apply Z.log2_lt_pow2; lia). lia.
Qed.

(** X6.  The display flags handed to the timing controller depend on three
    bits of the mode flags and on nothing else: bit 8 (interlaced) is bit 4
    of the mode flags (DRM_MODE_FLAG_INTERLACE), bit 0 (hsync low) is their
    bit 0 (DRM_MODE_FLAG_PHSYNC), bit 2 (vsync low) is their bit 2
    (DRM_MODE_FLAG_PVSYNC), and every other bit is clear. *)
Theorem display_flags_bits (fuel : nat) (m : drm_display_mode)
  (vm0 vm : videomode) (ps : list blank_pass) (n : Z) :
  derive_videomode fuel m vm0 = Some (vm, ps) ->
  n <> 0 -> n <> 2 -> n <> 8 ->
  Z.testbit (vm_flags vm) 8 = Z.testbit (flags m) 4 /\
  Z.testbit (vm_flags vm) 0 = Z.testbit (flags m) 0 /\
  Z.testbit (vm_flags vm) 2 = Z.testbit (flags m) 2 /\
  Z.testbit (vm_flags vm) n = false.
Proof.
  intros Hrun H0 H2 H8. rewrite (derive_videomode_frame _ _ _ _ _ Hrun).
  cbn [vm_flags with_pixelclock with_hfront_porch].
  unfold derive_timings. cbn [vm_flags].
  unfold DRM_MODE_FLAG_INTERLACE, DRM_MODE_FLAG_PHSYNC, DRM_MODE_FLAG_PVSYNC.
  rewrite !flag_set_testbit by lia.
  destruct (Z.testbit (flags m) 4), (Z.testbit (flags m) 0),
    (Z.testbit (flags m) 2); cbv zeta;
    (split; [reflexivity|]); (split; [reflexivity|]);
    (split; [reflexivity|]);
    (destruct (Z_lt_le_dec n 0); [now apply Z.testbit_neg_r|]);
    (destruct (Z_lt_le_dec n 9);
     [ assert (Hn : n = 1 \/ n = 3 \/ n = 4 \/ n = 5 \/ n = 6 \/ n = 7)
         by lia;
       repeat (destruct Hn as [->|Hn]; [reflexivity|]); subst n; reflexivity
     | apply testbit_above; [cbn; lia|assumption] ]).
Qed.

Lemma display_flags_bits_witness :
  derive_videomode 1 mode_1080p60 zero_vm
    = Some (mk_vm 148500000 960 44 74 22 1080 4 36 5 5,
            [mk_pass 280 280 44 44]) /\
  Z.testbit 5 0 = Z.testbit (flags mode_1080p60) 0 /\
  Z.testbit 5 1 = false.
Proof.
  assert (Hrun : derive_videomode 1 mode_1080p60 zero_vm
                 = Some (mk_vm 148500000 960 44 74 22 1080 4 36 5 5,
                         [mk_pass 280 280 44 44]))
    by (vm_compute; reflexivity).
  split; [exact Hrun|].
  destruct (display_flags_bits 1 mode_1080p60 zero_vm _ _ 1 Hrun
              ltac:(discriminate) ltac:(discriminate) ltac:(discriminate))
    as (_ & Hb0 & _ & Hn).
  split; [exact Hb0|exact Hn].
Defined.

(** *** The blanking loop in closed form *)

(** One trip round the loop when the derived blanking is short. *)
Lemma blank_loop_short (fuel : nat) (m : drm_display_mode) (vm : videomode) :
  0 <= hfront_porch vm -> 0 <= hback_porch vm -> 0 <= hsync_len vm ->
  2 * (hfront_porch vm + hback_porch vm + hsync_len vm) + 2 < 2 ^ 32 ->
  vtc_blank_of vm < sditx_blank_of m ->
  exists p,
    blank_loop (S fuel) m vm =
    match blank_loop fuel m (with_hfront_porch (hfront_porch vm + 1) vm) with
    | Some (vm', ps) => Some (vm', p :: ps)
    | None => None
    end.
Proof.
  intros Hf Hb Hs Hlt Hc. rewrite blank_loop_S.
  rewrite blank_body_differ by lia. cbn [vtc_blank sditx_blank].
  rewrite (proj2 (Z.ltb_lt _ _) Hc).
  rewrite (u32_small (hfront_porch vm + 1)) by lia.
  eexists. reflexivity.
Qed.

(** The last trip: the derived blanking equals the source blanking. *)
Lemma blank_loop_stop_equal (fuel : nat) (m : drm_display_mode)
  (vm : videomode) :
  vtc_blank_of vm = sditx_blank_of m ->
  exists p, blank_loop (S fuel) m vm = Some (vm, [p]).
Proof.
  intros E. rewrite blank_loop_S, (blank_body_equal m vm E).
  cbn [vtc_blank sditx_blank]. rewrite E, Z.ltb_irrefl.
  eexists. reflexivity.
Qed.

(** The last trip: the derived blanking exceeds the source blanking. *)
Lemma blank_loop_stop_over (fuel : nat) (m : drm_display_mode)
  (vm : videomode) :
  0 <= hfront_porch vm < 2 ^ 32 - 1 ->
  sditx_blank_of m < vtc_blank_of vm ->
  exists p,
    blank_loop (S fuel) m vm
    = Some (with_hfront_porch (hfront_porch vm + 1) vm, [p]).
Proof.
  intros Hf Hc. rewrite blank_loop_S.
  rewrite blank_body_differ by lia. cbn [vtc_blank sditx_blank].
  rewrite (proj2 (Z.ltb_ge _ _)) by lia.
  rewrite (u32_small (hfront_porch vm + 1)) by lia.
  eexists. reflexivity.
Qed.

(** The loop on a record at most three short of the source blanking: an
    even gap is closed exactly, an odd gap is overshot by three. *)
Lemma blank_loop_small_gap (m : drm_display_mode) (vm : videomode) (d : Z) :
  0 <= hfront_porch vm -> 0 <= hback_porch vm -> 0 <= hsync_len vm ->
  2 * (hfront_porch vm + hback_porch vm + hsync_len vm) + 8 < 2 ^ 32 ->
  sditx_blank_of m
    = 2 * (hfront_porch vm + hback_porch vm + hsync_len vm) + d ->
  0 <= d <= 3 ->
  exists ps,
    blank_loop 3 m vm
    = Some (with_hfront_porch
              (hfront_porch vm + (d + 3 * (d mod 2)) / 2) vm, ps).
Proof.
  intros Hf Hb Hs Hlt HB Hd.
  pose proof (vtc_blank_of_small vm Hf Hb Hs ltac:(lia)) as Hv.
  set (vm1 := with_hfront_porch (hfront_porch vm + 1) vm).
  set (vm2 := with_hfront_porch (hfront_porch vm1 + 1) vm1).
  assert (Hv1 : vtc_blank_of vm1 = vtc_blank_of vm + 2).
  { rewrite Hv. subst vm1. rewrite vtc_blank_of_small;
      cbn [hfront_porch hback_porch hsync_len with_hfront_porch]; lia. }
  assert (Hv2 : vtc_blank_of vm2 = vtc_blank_of vm + 4).
  { rewrite Hv. subst vm2 vm1. rewrite vtc_blank_of_small;
      cbn [hfront_porch hback_porch hsync_len with_hfront_porch]; lia. }
  assert (Hd4 : d = 0 \/ d = 1 \/ d = 2 \/ d = 3) by lia.
  destruct Hd4 as [-> | [-> | [-> | ->]]].
  - destruct (blank_loop_stop_equal 2 m vm ltac:(lia)) as [p ->].
    exists [p]. change ((0 + 3 * (0 mod 2)) / 2) with 0.
    now rewrite Z.add_0_r, with_hfront_porch_same.
  - destruct (blank_loop_short 2 m vm Hf Hb Hs ltac:(lia) ltac:(lia))
      as [p ->]. fold vm1.
    destruct (blank_loop_stop_over 1 m vm1) as [q ->];
      [subst vm1; cbn [hfront_porch hback_porch hsync_len with_hfront_porch]; lia | lia |].
    exists [p; q]. change ((1 + 3 * (1 mod 2)) / 2) with 2.
    subst vm1. cbn [hfront_porch with_hfront_porch].
    rewrite with_hfront_porch_twice. do 3 f_equal. lia.
  - destruct (blank_loop_short 2 m vm Hf Hb Hs ltac:(lia) ltac:(lia))
      as [p ->]. fold vm1.
    destruct (blank_loop_stop_equal 1 m vm1 ltac:(lia)) as [q ->].
    exists [p; q]. reflexivity.
  - destruct (blank_loop_short 2 m vm Hf Hb Hs ltac:(lia) ltac:(lia))
      as [p ->]. fold vm1.
    destruct (blank_loop_short 1 m vm1) as [q ->];
      try (subst vm1; cbn [hfront_porch hback_porch hsync_len with_hfront_porch]; lia); try lia. fold vm2.
    destruct (blank_loop_stop_over 0 m vm2) as [r ->];
      [subst vm2 vm1; cbn [hfront_porch hback_porch hsync_len with_hfront_porch]; lia | lia |].
    exists [p; q; r]. change ((3 + 3 * (3 mod 2)) / 2) with 3.
    subst vm2 vm1. cbn [hfront_porch with_hfront_porch].
    rewrite !with_hfront_porch_twice. do 3 f_equal. lia.
Qed.

(** X7.  On valid horizontal timings the derivation ends with a derived
    blanking that equals the source blanking htotal - hdisplay when that is
    even and exceeds it by exactly 3 when it is odd; back porch and sync
    length are the halves (rounded down) of the source intervals, and the
    front porch makes up the rest. *)
Theorem blanking_closed_form (m : drm_display_mode) (vm0 : videomode) :
  valid_htimings m ->
  exists vm ps,
    derive_videomode 3 m vm0 = Some (vm, ps) /\
    sditx_blank_of m = htotal m - hdisplay m /\
    vtc_blank_of vm
      = htotal m - hdisplay m + 3 * ((htotal m - hdisplay m) mod 2) /\
    hback_porch vm = (htotal m - hsync_end m) / 2 /\
    hsync_len vm = (hsync_end m - hsync_start m) / 2 /\
    hfront_porch vm
      = (htotal m - hdisplay m + 3 * ((htotal m - hdisplay m) mod 2)) / 2
        - (htotal m - hsync_end m) / 2 - (hsync_end m - hsync_start m) / 2.
Proof.
  intros Hv.
  destruct (valid_htimings_derived m vm0 Hv) as (Ef & Eb & Es & EB).
  destruct Hv as (H0 & H1 & H2 & H3 & H4 & H5). unfold in_int in H0, H1.
  set (a := hsync_start m - hdisplay m) in *.
  set (b := htotal m - hsync_end m) in *.
  set (c := hsync_end m - hsync_start m) in *.
  assert (Ha : 0 <= a) by (subst a; lia).
  assert (Hb : 0 <= b) by (subst b; lia).
  assert (Hc : 0 <= c) by (subst c; lia).
  assert (HB : htotal m - hdisplay m = a + b + c) by (subst a b c; lia).
  assert (Hsum : a + b + c < 2 ^ 31) by lia.
  assert (Ha2 : 0 <= a / 2) by (apply Z.div_pos; lia).
  assert (Hb2 : 0 <= b / 2) by (apply Z.div_pos; lia).
  assert (Hc2 : 0 <= c / 2) by (apply Z.div_pos; lia).
  set (d := a + b + c - 2 * (a / 2 + b / 2 + c / 2)).
  assert (Hd : 0 <= d <= 3) by (subst d; Z.div_mod_to_equations; lia).
  assert (Hgap : exists ps,
            blank_loop 3 m (derive_timings m vm0)
            = Some (with_hfront_porch
                      (a / 2 + (d + 3 * (d mod 2)) / 2)
                      (derive_timings m vm0), ps)).
  { rewrite <- Ef. apply blank_loop_small_gap;
      rewrite ?Ef, ?Eb, ?Es, ?EB; subst d; lia. }
  destruct Hgap as [ps Hrun].
  unfold derive_videomode. rewrite Hrun.
  do 2 eexists. split; [reflexivity|]. split; [exact EB|].
  assert (Hmod : (htotal m - hdisplay m) mod 2 = d mod 2).
  { rewrite HB. subst d. Z.div_mod_to_equations. lia. }
  rewrite Hmod.
  assert (Hhalf : 0 <= (d + 3 * (d mod 2)) / 2 <= 3
                  /\ 2 * ((d + 3 * (d mod 2)) / 2) = d + 3 * (d mod 2)).
  { clearbody d. Z.div_mod_to_equations. lia. }
  destruct Hhalf as [Hh1 Hh2].
  rewrite vtc_blank_of_small;
    cbn [hfront_porch hback_porch hsync_len with_pixelclock
           with_hfront_porch];
    rewrite ?Eb, ?Es; try lia.
  repeat split; try reflexivity.
  - subst d. lia.
  - rewrite HB. subst d. Z.div_mod_to_equations. lia.
Qed.

Lemma blanking_closed_form_witness :
  valid_htimings mode_odd_blanking /\
  exists vm ps,
    derive_videomode 3 mode_odd_blanking zero_vm = Some (vm, ps) /\
    sditx_blank_of mode_odd_blanking = 279 /\
    vtc_blank_of vm = 279 + 3 * (279 mod 2) /\
    hback_porch vm = 146 / 2 /\
    hsync_len vm = 44 / 2 /\
    hfront_porch vm = (279 + 3 * (279 mod 2)) / 2 - 146 / 2 - 44 / 2.
Proof.
  assert (Hv : valid_htimings mode_odd_blanking).
  { unfold valid_htimings, in_int, mode_odd_blanking. cbn. lia. }
  split; [exact Hv|].
  exact (blanking_closed_form mode_odd_blanking zero_vm Hv).
Defined.

(** X8.  For a progressive timing with valid horizontal timings and
    ordered vertical members the derivation completes; the vertical fields
    of the derived record are the source intervals and add up to vtotal
    again, and the pixel clock is the mode clock times 1000 as long as the
    mode clock does not exceed 2147483 kHz, the largest value whose product
    fits an [int]. *)
Theorem vertical_and_clock_exact (m : drm_display_mode) (vm0 : videomode) :
  valid_htimings m ->
  valid_vtimings m ->
  flag_set (flags m) DRM_MODE_FLAG_INTERLACE = false ->
  0 <= clock m <= 2147483 ->
  exists vm ps,
    (forall fuel, (3 <= fuel)%nat ->
                  derive_videomode fuel m vm0 = Some (vm, ps)) /\
    vactive vm = vdisplay m /\
    vfront_porch vm = vsync_start m - vdisplay m /\
    vsync_len vm = vsync_end m - vsync_start m /\
    vback_porch vm = vtotal m - vsync_end m /\
    vactive vm + vfront_porch vm + vsync_len vm + vback_porch vm = vtotal m /\
    pixelclock vm = clock m * 1000.
Proof.
  intros Hh (H0 & H1 & H2 & H3 & H4) Hi Hclk.
  destruct (derive_videomode_completes m vm0 Hh) as (vm & ps & Hrun).
  exists vm, ps. split; [exact Hrun|].
  rewrite (derive_videomode_frame _ _ _ _ _ (Hrun 3%nat (le_n 3))).
  cbn [vactive vfront_porch vsync_len vback_porch pixelclock with_pixelclock
         with_hfront_porch].
  unfold derive_timings.
  cbn [vactive vfront_porch vsync_len vback_porch]. rewrite Hi.
  unfold int_sub, int_mul.
  rewrite !(s32_small (_ - _)) by lia.
  rewrite !u32_small by lia.
  rewrite s32_small by lia. rewrite u64_small by lia.
  repeat split; lia.
Qed.

Lemma vertical_and_clock_exact_witness :
  valid_htimings mode_1080p60 /\
  valid_vtimings mode_1080p60 /\
  exists vm ps,
    derive_videomode 3 mode_1080p60 zero_vm = Some (vm, ps) /\
    vactive vm + vfront_porch vm + vsync_len vm + vback_porch vm
    = vtotal mode_1080p60 /\
    pixelclock vm = clock mode_1080p60 * 1000.
Proof.
  assert (Hh : valid_htimings mode_1080p60)
    by (unfold valid_htimings, in_int, mode_1080p60; cbn; lia).
  assert (Hv : valid_vtimings mode_1080p60)
    by (unfold valid_vtimings, mode_1080p60; cbn; lia).
  split; [exact Hh|]. split; [exact Hv|].
  destruct (vertical_and_clock_exact mode_1080p60 zero_vm Hh Hv
              ltac:(reflexivity) ltac:(cbn; lia))
    as (vm & ps & Hrun & _ & _ & _ & _ & Hsum & Hclk).
  exists vm, ps. split; [exact (Hrun 3%nat (le_n 3))|].
  split; [exact Hsum|exact Hclk].
Defined.

(** ** The mode-set path, continued *)











(** X11.  Whenever the mode-set completes, it has written no block enable
    register (core, stream input, SDI bridge): it only sets the interrupt
    mask to overflow and underflow, enables the interrupt, and writes the
    mode register once, with one of the codes 0, 1, 2, 4, 5, and the
    fractional register once, with 0 or 1. *)
Theorem mode_set_enables_nothing (modes : list drm_display_mode)
  (fuel : nat) (drm_ep drm_ep1 : drm_vid_ep) (m m1 : drm_display_mode)
  (vm0 vm1 : videomode) (hw : hardware) (log : list event) :
  run (drm_vid_ep_encoder_atomic_mode_set modes fuel drm_ep m vm0) hw
    = Some ((drm_ep1, m1, vm1), log) ->
  written_to WREG_CORE_ENABLE log = [] /\
  written_to WREG_AXI_S_VID_ENABLE log = [] /\
  written_to WREG_SDI_BRIDGE_ENABLE log = [] /\
  written_to WREG_IRQ_MASK log
    = [Z.lor AXI_S_VID_OVERFLOW_INTR AXI_S_VID_UNDERFLOW_INTR] /\
  written_to WREG_IRQ_ENABLE log = [1] /\
  (exists code frac,
      written_to WREG_SDI_MODE log = [code] /\
      written_to WREG_SDI_IS_FRAC log = [frac] /\
      In code [0; 1; 2; 4; 5] /\ In frac [0; 1]) /\
  block_order enable_op log = [].
Proof.
  rewrite mode_set_run.
  destruct (derive_videomode fuel (sdi_timing_override modes drm_ep m) vm0)
    as [[vm ps]|]; [|discriminate].
  intros [= <- <- <- <-].
  do 5 (split; [reflexivity|]).
  split.
  - do 2 eexists. split; [reflexivity|]. split; [reflexivity|].
    unfold existsb, SDI_MODE_HD, SDI_MODE_SD, SDI_MODE_3GA, SDI_MODE_6G,
      SDI_MODE_12G.
    split.
    + destruct (Z.eqb_spec (sdi_mod_prop_val drm_ep) 0) as [->|_];
        [cbn; tauto|].
      destruct (Z.eqb_spec (sdi_mod_prop_val drm_ep) 1) as [->|_];
        [cbn; tauto|].
      destruct (Z.eqb_spec (sdi_mod_prop_val drm_ep) 2) as [->|_];
        [cbn; tauto|].
      destruct (Z.eqb_spec (sdi_mod_prop_val drm_ep) 4) as [->|_];
        [cbn; tauto|].
      destruct (Z.eqb_spec (sdi_mod_prop_val drm_ep) 5) as [->|_];
        cbn; tauto.
    + destruct (is_frac_prop_val drm_ep =? 0); cbn; tauto.
  - unfold block_order. cbn [flat_map enable_op app].
    unfold WREG_IRQ_MASK, WREG_IRQ_ENABLE, WREG_SDI_MODE, WREG_SDI_IS_FRAC.
    cbn [enable_op].
    destruct (if (sdi_mod_prop_val drm_ep =? SDI_MODE_HD)
                 || ((sdi_mod_prop_val drm_ep =? SDI_MODE_SD)
                     || ((sdi_mod_prop_val drm_ep =? SDI_MODE_3GA)
                         || ((sdi_mod_prop_val drm_ep =? SDI_MODE_6G)
                             || ((sdi_mod_prop_val drm_ep =? SDI_MODE_12G)
                                 || false))))
              then sdi_mod_prop_val drm_ep else 0) as [|[?|?|]|];
      destruct (is_frac_prop_val drm_ep =? 0); reflexivity.
Qed.

Lemma mode_set_enables_nothing_witness :
  exists drm_ep1 m1 vm1 log,
    run (drm_vid_ep_encoder_atomic_mode_set [mode_1080p60] 1
           (sample_ep_2160 0xB000) (mode_2160p 0 0 0 60) zero_vm)
        (fun _ => 0)
      = Some ((drm_ep1, m1, vm1), log) /\
    written_to WREG_CORE_ENABLE log = [] /\
    written_to WREG_IRQ_ENABLE log = [1].
Proof.
  do 4 eexists.
  assert (Hrun :
    run (drm_vid_ep_encoder_atomic_mode_set [mode_1080p60] 1
           (sample_ep_2160 0xB000) (mode_2160p 0 0 0 60) zero_vm)
        (fun _ => 0)
    = Some ((publish_video_mode (mode_2160p 0 0 0 60) (sample_ep_2160 0xB000),
             mode_2160p 0 0 0 60,
             mk_vm 594000000 1920 24 48 16 2160 8 46 8 0),
            [BridgeSetInput 0xB000 3840 2160 0;
             BridgeSetOutput 0xB000 3840 2160 0;
             BridgeEnable 0xB000;
             Writel WREG_IRQ_MASK 6; Writel WREG_IRQ_ENABLE 1; StcReset;
             Writel WREG_SDI_MODE 5; Writel WREG_SDI_IS_FRAC 0;
             StcSig (mk_vm 594000000 1920 24 48 16 2160 8 46 8 0)]))
    by (vm_compute; reflexivity).
  split; [exact Hrun|].
  destruct (mode_set_enables_nothing _ _ _ _ _ _ _ _ _ _ Hrun)
    as (Hc & _ & _ & _ & Hi & _).
  split; [exact Hc|exact Hi].
Defined.

(** ** Sequencing, continued *)

(** X12.  Disable undoes commit as far as this driver's registers go: after
    commit the last value written to the core, SDI bridge and stream input
    enables is 1; after commit followed by disable, as after disable alone
    or twice, the last value written to each of them and to the interrupt
    enable is 0.  Commit writes neither the interrupt enable nor the mode
    register, and disable does not write the mode register. *)
Theorem disable_undoes_commit (drm_ep : drm_vid_ep) (hw : hardware) :
  exists log_c log_d,
    run (drm_vid_ep_commit drm_ep) hw = Some (tt, log_c) /\
    run (drm_vid_ep_disable drm_ep) hw = Some (tt, log_d) /\
    Forall (fun r => last_written r log_c = Some 1)
      [WREG_CORE_ENABLE; WREG_SDI_BRIDGE_ENABLE; WREG_AXI_S_VID_ENABLE] /\
    Forall (fun r => last_written r (log_c ++ log_d) = Some 0)
      enable_registers /\
    Forall (fun r => last_written r log_d = Some 0) enable_registers /\
    Forall (fun r => last_written r (log_d ++ log_d) = Some 0)
      enable_registers /\
    written_to WREG_IRQ_ENABLE log_c = [] /\
    written_to WREG_SDI_MODE (log_c ++ log_d) = [].
Proof.
  rewrite commit_run, disable_run.
  do 2 eexists. split; [reflexivity|]. split; [reflexivity|].
  unfold enable_registers.
  destruct (bridge drm_ep =? NULL); repeat split; repeat constructor.
Qed.

(** ** Mode list *)

Section SdiModesFacts.

Variable drm_mode_equal : drm_display_mode -> drm_display_mode -> bool.
Variable drm_mode_duplicate : Z -> drm_display_mode -> option drm_display_mode.

Lemma sdi_mode_id_from_spec (mode : drm_display_mode) :
  forall (modes : list drm_display_mode) (i : Z),
    0 <= i -> i + Z.of_nat (List.length modes) < 2 ^ 31 ->
    (sdi_mode_id_from drm_mode_equal i modes mode = - EINVAL /\
     Forall (fun e => drm_mode_equal e mode = false) modes) \/
    (exists (k : nat) (e : drm_display_mode),
        sdi_mode_id_from drm_mode_equal i modes mode = i + Z.of_nat k /\
        nth_error modes k = Some e /\
        drm_mode_equal e mode = true /\
        Forall (fun e' => drm_mode_equal e' mode = false) (firstn k modes)).
Proof.
  induction modes as [|e rest IH]; intros i Hi Hlen.
  - left. split; [reflexivity|constructor].
  - cbn [sdi_mode_id_from]. cbn [List.length] in Hlen.
    destruct (drm_mode_equal e mode) eqn:Ee.
    + right. exists 0%nat, e. rewrite s32_small by lia.
      repeat split; [lia|exact Ee|constructor].
    + rewrite u32_small by lia.
      destruct (IH (i + 1)) as [[Hr Hall]|(k & e' & Hr & Hnth & He' & Hall)];
        try lia.
      * left. split; [exact Hr|]. constructor; assumption.
      * right. exists (S k), e'. rewrite Hr.
        repeat split; [lia|exact Hnth|exact He'|].
        cbn [firstn]. constructor; assumption.
Qed.

(** X13.  On a table of fewer than 2^31 entries,
    [drm_vid_ep_get_sdi_mode_id] returns the index of the first entry that
    [drm_mode_equal] accepts, which is a valid index into the table, and
    -EINVAL exactly when no entry is accepted. *)
Theorem get_sdi_mode_id_first (modes : list drm_display_mode)
  (mode : drm_display_mode) :
  Z.of_nat (List.length modes) < 2 ^ 31 ->
  (drm_vid_ep_get_sdi_mode_id modes drm_mode_equal mode = - EINVAL /\
   Forall (fun e => drm_mode_equal e mode = false) modes) \/
  (exists (k : nat) (e : drm_display_mode),
      drm_vid_ep_get_sdi_mode_id modes drm_mode_equal mode = Z.of_nat k /\
      (k < List.length modes)%nat /\
      nth_error modes k = Some e /\
      drm_mode_equal e mode = true /\
      Forall (fun e' => drm_mode_equal e' mode = false) (firstn k modes)).
Proof.
  intros Hlen. unfold drm_vid_ep_get_sdi_mode_id.
  destruct (sdi_mode_id_from_spec mode modes 0 ltac:(lia) ltac:(lia))
    as [H|(k & e & Hr & Hnth & He & Hall)]; [left; exact H|].
  right. exists k, e. rewrite Hr.
  split; [lia|]. split; [apply nth_error_Some; congruence|].
  repeat split; assumption.
Qed.

(** The loop of [drm_vid_ep_add_sdi_modes], from any index, count and
    log. *)
Lemma add_sdi_modes_from_spec :
  forall (modes : list drm_display_mode) (i num : Z) (hw : hardware)
         (log : list call),
    0 <= i -> i + Z.of_nat (List.length modes) < 2 ^ 31 ->
    0 <= num -> num + Z.of_nat (List.length modes) < 2 ^ 31 ->
    exists added,
      add_sdi_modes_from drm_mode_duplicate i modes num hw log
        = Some (num + Z.of_nat (List.length added),
                log ++ map ModeProbedAdd added) /\
      (List.length added <= List.length modes)%nat /\
      (Forall (fun e => forall j, drm_mode_duplicate j e <> None) modes ->
       List.length added = List.length modes) /\
      (Forall (fun e => forall j, drm_mode_duplicate j e = None) modes ->
       added = []).
Proof.
  induction modes as [|e rest IH]; intros i num hw log Hi Hlen Hn Hnum.
  - exists []. cbn. unfold pret. rewrite Z.add_0_r, app_nil_r. auto.
  - cbn [add_sdi_modes_from]. cbn [List.length] in Hlen, Hnum.
    rewrite u32_small by lia.
    destruct (drm_mode_duplicate i e) as [mode|] eqn:Ed.
    + unfold pbind, pemit. rewrite s32_small by lia.
      destruct (IH (i + 1) (num + 1) hw (log ++ [ModeProbedAdd mode]))
        as (added & Hrun & Hle & Hall & Hnone); try lia.
      exists (mode :: added). rewrite Hrun. cbn [List.length map].
      rewrite <- app_assoc. cbn [app].
      split; [do 2 f_equal; lia|]. split; [lia|]. split.
      * intros HF. inversion HF; subst. f_equal. auto.
      * intros HF. inversion HF as [|? ? He _]; subst.
        rewrite He in Ed. discriminate.
    + destruct (IH (i + 1) num hw log)
        as (added & Hrun & Hle & Hall & Hnone); try lia.
      exists added. rewrite Hrun. cbn [List.length].
      split; [reflexivity|]. split; [lia|]. split.
      * intros HF. inversion HF as [|? ? He _]; subst.
        exfalso. exact (He i Ed).
      * intros HF. inversion HF; subst. auto.
Qed.

(** X14.  On a table of fewer than 2^31 entries the count that
    [drm_vid_ep_add_sdi_modes] (and so the get_modes hook) returns is the
    number of modes it added to the connector; it is at most the size of the
    table, equals it when no duplication fails, and is 0, with nothing
    added, when every duplication fails. *)
Theorem add_sdi_modes_count (modes : list drm_display_mode) (hw : hardware) :
  Z.of_nat (List.length modes) < 2 ^ 31 ->
  exists num log,
    prun (drm_vid_ep_get_sdi_modes modes drm_mode_duplicate) hw
      = Some (num, log) /\
    num = Z.of_nat (List.length (probed_of log)) /\
    0 <= num <= Z.of_nat (List.length modes) /\
    (Forall (fun e => forall j, drm_mode_duplicate j e <> None) modes ->
     num = Z.of_nat (List.length modes)) /\
    (Forall (fun e => forall j, drm_mode_duplicate j e = None) modes ->
     num = 0 /\ log = []).
Proof.
  intros Hlen.
  unfold prun, drm_vid_ep_get_sdi_modes, drm_vid_ep_add_sdi_modes.
  destruct (add_sdi_modes_from_spec modes 0 0 hw [])
    as (added & Hrun & Hle & Hall & Hnone); try lia.
  rewrite Hrun. do 2 eexists. split; [reflexivity|].
  cbn [app].
  assert (Hp : probed_of (map ModeProbedAdd added) = added).
  { clear. unfold probed_of. induction added as [|a l IH]; [reflexivity|].
    cbn [map flat_map app]. now rewrite IH. }
  rewrite Hp. split; [reflexivity|]. split; [lia|]. split.
  - intros HF. rewrite (Hall HF). reflexivity.
  - intros HF. rewrite (Hnone HF). split; reflexivity.
Qed.

End SdiModesFacts.

Lemma get_sdi_mode_id_first_witness :
  Z.of_nat (List.length [mode_720p60; mode_1080p60]) < 2 ^ 31 /\
  drm_vid_ep_get_sdi_mode_id [mode_720p60; mode_1080p60]
    (fun a b => hdisplay a =? hdisplay b) mode_odd_blanking = 1.
Proof.
  assert (Hlen : Z.of_nat (List.length [mode_720p60; mode_1080p60]) < 2 ^ 31)
    by (cbn; lia).
  split; [exact Hlen|].
  destruct (get_sdi_mode_id_first (fun a b => hdisplay a =? hdisplay b)
              [mode_720p60; mode_1080p60] mode_odd_blanking Hlen)
    as [[Hr _]|(k & e & Hr & _)]; [discriminate Hr|reflexivity].
Defined.

Lemma add_sdi_modes_count_witness :
  Z.of_nat (List.length [mode_720p60; mode_1080p60]) < 2 ^ 31 /\
  exists num log,
    prun (drm_vid_ep_get_sdi_modes [mode_720p60; mode_1080p60]
            (fun i e => if i =? 0 then None else Some e)) (fun _ => 0)
      = Some (num, log) /\
    num = Z.of_nat (List.length (probed_of log)) /\
    0 <= num <= Z.of_nat (List.length [mode_720p60; mode_1080p60]).
Proof.
  assert (Hlen : Z.of_nat (List.length [mode_720p60; mode_1080p60]) < 2 ^ 31)
    by (cbn; lia).
  split; [exact Hlen|].
  destruct (add_sdi_modes_count (fun i e => if i =? 0 then None else Some e)
              [mode_720p60; mode_1080p60] (fun _ => 0) Hlen)
    as (num & log & Hrun & Hnum & Hle & _).
  exists num, log. auto.
Defined.

(** ** Probe and remove *)

Section ProbeFacts.

Variable of_node_cmp : string -> string -> Z.

Lemma lift_emit_run (e : event) (hw : hardware) (log : list call) :
  lift_dev (emit e) hw log = Some (tt, log ++ [Io e]).
Proof. reflexivity. Qed.

(** The port scan: its outcome and its calls do not depend on the log it
    starts from; it fails exactly on a port without endpoint or without a
    readable "reg". *)
Lemma probe_ports_spec :
  forall (children : list device_node) (pm np : Z) (hw : hardware),
  exists r l,
    (forall log,
        probe_ports of_node_cmp children pm np hw log = Some (r, log ++ l)) /\
    forallb port_call l = true /\
    (forallb (port_ok of_node_cmp) children = true -> r = None) /\
    (forall ret, r = Some ret ->
                 ret <> 0 /\
                 (Forall (fun n => dn_reg_ret n <= 0) children -> ret < 0)).
Proof.
  induction children as [|port rest IH]; intros pm np hw.
  - exists None, []. split; [intros log; cbn; unfold pret;
                              now rewrite app_nil_r|].
    split; [reflexivity|]. split; [reflexivity|discriminate].
  - cbn [probe_ports forallb]. unfold port_ok at 1.
    destruct (dn_name port) as [name|].
    + destruct (of_node_cmp name "port" =? 0) eqn:En; cbn [negb orb].
      * destruct (dn_endpoint port =? NULL) eqn:Ee; cbn [negb andb].
        -- exists (Some (- EINVAL)),
             [DevErr "No remote port at %s\n"; OfNodePut (dn_endpoint port)].
           split; [intros log; unfold pbind, pemit, pret;
                   now rewrite <- app_assoc|].
           split; [reflexivity|]. split; [discriminate|].
           intros ret [= <-]. split; [discriminate|reflexivity].
        -- destruct (dn_reg_ret port =? 0) eqn:Er; cbn [negb].
           ++ destruct (IH (u32 (Z.lor pm (s32 (Z.shiftl 1 (dn_reg_index port)))))
                          (u32 (np + 1)) hw)
                as (r & l & Hrun & Hl & Hok & Hret).
              exists r, (OfNodePut (dn_endpoint port) :: l).
              split; [intros log; unfold pbind, pemit; rewrite Hrun;
                      now rewrite <- app_assoc|].
              split; [exact Hl|]. split; [exact Hok|].
              intros ret Hr. destruct (Hret ret Hr) as [Hne Hneg].
              split; [exact Hne|]. intros HF. inversion HF; auto.
           ++ exists (Some (dn_reg_ret port)),
                [OfNodePut (dn_endpoint port);
                 DevErr "reg property not present - %d\n"].
              split; [intros log; unfold pbind, pemit, pret;
                      now rewrite <- !app_assoc|].
              split; [reflexivity|]. split; [discriminate|].
              intros ret [= <-]. apply Z.eqb_neq in Er.
              split; [exact Er|]. intros HF. inversion HF; subst. lia.
      * destruct (IH pm np hw) as (r & l & Hrun & Hl & Hok & Hret).
        exists r, (Io (DevDbg "port name is null or node name is not port!\n")
                   :: l).
        split; [intros log; unfold pbind; rewrite lift_emit_run, Hrun;
                now rewrite <- app_assoc|].
        split; [exact Hl|]. split; [exact Hok|].
        intros ret Hr. destruct (Hret ret Hr) as [Hne Hneg].
        split; [exact Hne|]. intros HF. inversion HF; auto.
    + destruct (IH pm np hw) as (r & l & Hrun & Hl & Hok & Hret).
      exists r, (Io (DevDbg "port name is null or node name is not port!\n")
                 :: l).
      split; [intros log; unfold pbind; rewrite lift_emit_run, Hrun;
              now rewrite <- app_assoc|].
      split; [exact Hl|]. split; [exact Hok|].
      intros ret Hr. destruct (Hret ret Hr) as [Hne Hneg].
      split; [exact Hne|]. intros HF. inversion HF; auto.
Qed.

(** Probe once the clocks are on, path by path. *)
Lemma probe_run (pl : platform) (hw : hardware) :
  clocks_on pl ->
  exists r lports,
    probe_ports of_node_cmp (pl_children pl) 0 0 hw [] = Some (r, lports) /\
    forallb port_call lports = true /\
    (forallb (port_ok of_node_cmp) (pl_children pl) = true -> r = None) /\
    (forall ret, r = Some ret ->
                 ret <> 0 /\
                 (Forall (fun n => dn_reg_ret n <= 0) (pl_children pl) ->
                  ret < 0)) /\
    let d := mk_device (with_base (pl_ioremap pl) zeroed_ep) (pl_dev pl)
               (pl_axi_clk pl) (pl_vidin_clk pl) in
    let db := mk_device (with_bridge (pl_bridge pl) (core d)) (pl_dev pl)
                (pl_axi_clk pl) (pl_vidin_clk pl) in
    let pre :=
      [PlatformSetDrvdata; ClkPrepareEnable (pl_axi_clk pl);
       ClkPrepareEnable (pl_vidin_clk pl)]
      ++ (if pl_vidin_enable pl =? 0 then []
          else [DevErr "failed to enable vidin_clk %d\n"])
      ++ (if pl_ports pl =? NULL
          then [Io (DevDbg "Searching for port nodes in device node.\n")]
          else [])
      ++ lports in
    let cleanup :=
      [ClkDisableUnprepare (pl_vidin_clk pl);
       ClkDisableUnprepare (pl_axi_clk pl)] in
    let irq_off := Io (Writel WREG_IRQ_ENABLE 0) in
    let request := RequestThreadedIrq (pl_irq pl) in
    prun (drm_vid_ep_probe of_node_cmp pl) hw =
    Some
      match r with
      | Some ret => ((ret, Some d), pre ++ cleanup)
      | None =>
          if pl_irq pl <? 0 then
            ((pl_irq pl, Some d), pre ++ [irq_off] ++ cleanup)
          else if pl_request_irq pl <? 0 then
            ((pl_request_irq pl, Some d),
             pre ++ [irq_off; request] ++ cleanup)
          else if pl_vpss_node pl =? NULL then
            if pl_component_add pl <? 0 then
              ((pl_component_add pl, Some d),
               pre ++ [irq_off; request; PlatformData; ComponentAdd]
                   ++ cleanup)
            else
              ((pl_component_add pl, Some d),
               pre ++ [irq_off; request; PlatformData; ComponentAdd])
          else if pl_bridge pl =? NULL then
            ((- EPROBE_DEFER, Some db),
             pre ++ [irq_off; request;
                     DevInfo "Didn't get bridge instance\n"] ++ cleanup)
          else if pl_component_add pl <? 0 then
            ((pl_component_add pl, Some db),
             pre ++ [irq_off; request; PlatformData; ComponentAdd]
                 ++ cleanup)
          else
            ((pl_component_add pl, Some db),
             pre ++ [irq_off; request; PlatformData; ComponentAdd])
      end.
Proof.
  intros (Hk & Hio & Hax & Hvi & Hen).
  destruct (probe_ports_spec (pl_children pl) 0 0 hw)
    as (r & lports & Hrun & Hl & Hok & Hret).
  exists r, lports. split; [exact (Hrun [])|].
  split; [exact Hl|]. split; [exact Hok|].
  split; [exact Hret|]. cbv zeta.
  unfold prun, drm_vid_ep_probe. rewrite Hk. cbn [negb].
  cbn [core base with_base axi_clk vidin_clk dev].
  rewrite Hio, Hax, Hvi, Hen. cbn [Z.eqb negb].
  unfold pbind at 1. unfold pemit at 1. cbn [app].
  unfold pbind at 1. unfold pemit at 1. cbn [app].
  unfold pbind at 1. unfold pemit at 1. cbn [app].
  unfold pbind at 1.
  assert (Hverr :
    (if negb (pl_vidin_enable pl =? 0)
     then pemit (DevErr "failed to enable vidin_clk %d\n") else pret tt) hw
      [PlatformSetDrvdata; ClkPrepareEnable (pl_axi_clk pl);
       ClkPrepareEnable (pl_vidin_clk pl)]
    = Some (tt,
            [PlatformSetDrvdata; ClkPrepareEnable (pl_axi_clk pl);
             ClkPrepareEnable (pl_vidin_clk pl)]
            ++ (if pl_vidin_enable pl =? 0 then []
                else [DevErr "failed to enable vidin_clk %d\n"])))
    by (destruct (pl_vidin_enable pl =? 0); reflexivity).
  rewrite Hverr. clear Hverr.
  set (l1 := [PlatformSetDrvdata; ClkPrepareEnable (pl_axi_clk pl);
              ClkPrepareEnable (pl_vidin_clk pl)]
             ++ (if pl_vidin_enable pl =? 0 then []
                 else [DevErr "failed to enable vidin_clk %d\n"])).
  unfold pbind at 1.
  assert (Hdbg :
    (if pl_ports pl =? NULL
     then lift_dev (emit (DevDbg
                     "Searching for port nodes in device node.\n"))
     else pret tt) hw l1
    = Some (tt,
            l1 ++ (if pl_ports pl =? NULL
                   then [Io (DevDbg
                           "Searching for port nodes in device node.\n")]
                   else [])))
    by (destruct (pl_ports pl =? NULL); cbn;
        [reflexivity | unfold pret; now rewrite app_nil_r]).
  rewrite Hdbg. clear Hdbg.
  unfold pbind at 1. rewrite Hrun. subst l1.
  destruct r as [ret|].
  - unfold err_disable_vidin_clk, pbind, pemit, pret.
    cbn [axi_clk vidin_clk]. rewrite <- !app_assoc. reflexivity.
  - unfold pbind at 1. unfold lift_dev, drm_vid_ep_writel, emit.
    cbn [map]. change (u32 0) with 0.
    unfold probe_bridge_and_component, err_disable_vidin_clk.
    cbn [core bridge with_bridge dev axi_clk vidin_clk].
    destruct (pl_irq pl <? 0).
    { unfold pbind, pemit, pret. rewrite <- !app_assoc. reflexivity. }
    unfold pbind at 1. unfold pemit at 1.
    destruct (pl_request_irq pl <? 0).
    { unfold pbind, pemit, pret. rewrite <- !app_assoc. reflexivity. }
    destruct (pl_vpss_node pl =? NULL); cbn [negb].
    { destruct (pl_component_add pl <? 0);
        unfold pbind, pemit, pret; rewrite <- !app_assoc; reflexivity. }
    destruct (pl_bridge pl =? NULL).
    { unfold pbind, pemit, pret. rewrite <- !app_assoc. reflexivity. }
    destruct (pl_component_add pl <? 0);
      unfold pbind, pemit, pret; rewrite <- !app_assoc; reflexivity.
Qed.

Lemma port_calls_quiet (l : list call) :
  forallb port_call l = true ->
  existsb is_clk_disable l = false /\
  (forall clk, enables_of clk l = 0%nat /\ disables_of clk l = 0%nat) /\
  writes_of (io_of l) = [] /\
  (forall c, In c l -> port_call c = true).
Proof.
  induction l as [|c l IH]; intros H.
  - repeat split; try reflexivity. intros c [].
  - cbn [forallb] in H. apply andb_prop in H. destruct H as [Hc Hl].
    destruct (IH Hl) as (H1 & H2 & H3 & H4).
    split; [|split; [|split]].
    + cbn [existsb]. rewrite H1. now destruct c as [[]| | | | | | | | | | | | | | | | | | | | | |].
    + intros clk. destruct (H2 clk) as [He Hd]. unfold enables_of, disables_of in *.
      destruct c as [[]| | | | | | | | | | | | | | | | | | | | | |];
        try discriminate Hc; cbn [filter]; auto.
    + destruct c as [[]| | | | | | | | | | | | | | | | | | | | | |];
        try discriminate Hc; cbn [io_of flat_map app writes_of]; exact H3.
    + intros c' [<-|Hin]; [exact Hc|exact (H4 c' Hin)].
Qed.

Lemma existsb_clk_disable_app (l1 l2 : list call) :
  existsb is_clk_disable (l1 ++ l2)
  = existsb is_clk_disable l1 || existsb is_clk_disable l2.
Proof. apply existsb_app. Qed.

(** The part of the probe log before any clean-up holds no clock disable. *)
Ltac no_disable Hl :=
  rewrite ?existsb_clk_disable_app;
  rewrite (proj1 (port_calls_quiet _ Hl));
  repeat match goal with
         | |- context [if ?c then _ else _] => destruct c
         end;
  reflexivity.

(** X15.  Once probe has its structure, register window and clocks and has
    enabled the AXI clock, and the device tree reads return 0 or a negative
    errno: either probe returns the non-negative result of [component_add]
    as its last call, having disabled no clock, with the bridge it found (or
    none) in the structure; or it returns a negative value and its last two
    calls disable the video clock and the AXI clock, the only clock disables
    of the run. *)
Theorem probe_clock_discipline (pl : platform) (hw : hardware) :
  clocks_on pl ->
  Forall (fun n => dn_reg_ret n <= 0) (pl_children pl) ->
  exists ret d log,
    prun (drm_vid_ep_probe of_node_cmp pl) hw = Some ((ret, Some d), log) /\
    base (core d) = pl_ioremap pl /\
    axi_clk d = pl_axi_clk pl /\ vidin_clk d = pl_vidin_clk pl /\
    ((0 <= ret /\ ret = pl_component_add pl /\
      existsb is_clk_disable log = false /\
      last log PlatformData = ComponentAdd /\
      bridge (core d)
        = (if pl_vpss_node pl =? NULL then NULL else pl_bridge pl)) \/
     (ret < 0 /\
      exists pre,
        log = pre ++ [ClkDisableUnprepare (pl_vidin_clk pl);
                      ClkDisableUnprepare (pl_axi_clk pl)] /\
        existsb is_clk_disable pre = false)).
Proof.
  intros Hon Hreg.
  destruct (probe_run pl hw Hon)
    as (r & lports & _ & Hl & _ & Hret & Hrun).
  cbv zeta in Hrun. rewrite Hrun. clear Hrun.
  destruct r as [ret|].
  { destruct (Hret ret eq_refl) as [_ Hneg]. specialize (Hneg Hreg).
    do 3 eexists. split; [reflexivity|]. do 3 (split; [reflexivity|]).
    right. split; [exact Hneg|]. eexists. split; [reflexivity|].
    no_disable Hl. }
  destruct (Z.ltb_spec (pl_irq pl) 0).
  { do 3 eexists. split; [reflexivity|]. do 3 (split; [reflexivity|]).
    right. split; [assumption|].
    eexists. split; [rewrite app_assoc; reflexivity|]. no_disable Hl. }
  destruct (Z.ltb_spec (pl_request_irq pl) 0).
  { do 3 eexists. split; [reflexivity|]. do 3 (split; [reflexivity|]).
    right. split; [assumption|].
    eexists. split; [rewrite app_assoc; reflexivity|]. no_disable Hl. }
  destruct (pl_vpss_node pl =? NULL).
  { destruct (Z.ltb_spec (pl_component_add pl) 0).
    - do 3 eexists. split; [reflexivity|]. do 3 (split; [reflexivity|]).
      right. split; [assumption|].
      eexists. split; [rewrite app_assoc; reflexivity|]. no_disable Hl.
    - do 3 eexists. split; [reflexivity|]. do 3 (split; [reflexivity|]).
      left. split; [assumption|]. split; [reflexivity|].
      split; [no_disable Hl|]. split; [|reflexivity].
      match goal with
      | |- last (?p ++ [?a; ?b; ?c; ?d]) _ = _ =>
          replace (p ++ [a; b; c; d]) with ((p ++ [a; b; c]) ++ [d])
            by (now rewrite <- app_assoc)
      end.
      apply last_last. }
  destruct (pl_bridge pl =? NULL) eqn:Eb.
  { do 3 eexists. split; [reflexivity|]. do 3 (split; [reflexivity|]).
    right. split; [reflexivity|].
    eexists. split; [rewrite app_assoc; reflexivity|]. no_disable Hl. }
  destruct (Z.ltb_spec (pl_component_add pl) 0).
  - do 3 eexists. split; [reflexivity|]. do 3 (split; [reflexivity|]).
    right. split; [assumption|].
    eexists. split; [rewrite app_assoc; reflexivity|]. no_disable Hl.
  - do 3 eexists. split; [reflexivity|]. do 3 (split; [reflexivity|]).
    left. split; [assumption|]. split; [reflexivity|].
    split; [no_disable Hl|]. split; [|reflexivity].
    match goal with
    | |- last (?p ++ [?a; ?b; ?c; ?d]) _ = _ =>
        replace (p ++ [a; b; c; d]) with ((p ++ [a; b; c]) ++ [d])
          by (now rewrite <- app_assoc)
    end.
    apply last_last.
Qed.

Lemma port_calls_exclude (q : call -> bool) :
  (forall c, port_call c = true -> q c = false) ->
  forall l, forallb port_call l = true -> existsb q l = false.
Proof.
  intros Hq l. induction l as [|c l IH]; intros H; [reflexivity|].
  cbn [forallb] in H. apply andb_prop in H. destruct H as [Hc Hl].
  cbn [existsb]. now rewrite (Hq c Hc), (IH Hl).
Qed.

Lemma port_call_no_request (c : call) :
  port_call c = true -> is_request_irq c = false.
Proof. destruct c as [[]| | | | | | | | | | | | | | | | | | | | | |]; auto. Qed.

Lemma clocks_on_dec (pl : platform) : clocks_on pl \/ ~ clocks_on pl.
Proof.
  unfold clocks_on.
  destruct (pl_kzalloc pl); [|right; intros (H & _); discriminate].
  destruct (IS_ERR (pl_ioremap pl));
    [right; intros (_ & H & _); discriminate|].
  destruct (IS_ERR (pl_axi_clk pl));
    [right; intros (_ & _ & H & _); discriminate|].
  destruct (IS_ERR (pl_vidin_clk pl));
    [right; intros (_ & _ & _ & H & _); discriminate|].
  destruct (Z.eq_dec (pl_axi_enable pl) 0) as [E|E];
    [left; auto | right; intros (_ & _ & _ & _ & H); contradiction].
Qed.

(** Probe when one of its first five steps fails. *)
Lemma probe_early_run (pl : platform) (hw : hardware) :
  ~ clocks_on pl ->
  exists ret d log,
    prun (drm_vid_ep_probe of_node_cmp pl) hw = Some ((ret, d), log) /\
    ((pl_kzalloc pl = false /\ ret = - ENOMEM /\ d = None /\ log = []) \/
     (IS_ERR (pl_ioremap pl) = true /\ ret = PTR_ERR (pl_ioremap pl) /\
      log = [DevErr "failed to remap io region\n"]) \/
     (IS_ERR (pl_axi_clk pl) = true /\ ret = PTR_ERR (pl_axi_clk pl) /\
      log = [PlatformSetDrvdata; DevErr "failed to get s_axi_aclk %d\n"]) \/
     (IS_ERR (pl_vidin_clk pl) = true /\ ret = PTR_ERR (pl_vidin_clk pl) /\
      log = [PlatformSetDrvdata; DevErr "failed to get video_in_clk %d\n"]) \/
     (pl_axi_enable pl <> 0 /\ ret = pl_axi_enable pl /\
      log = [PlatformSetDrvdata; ClkPrepareEnable (pl_axi_clk pl);
             DevErr "failed to enable axi_clk %d\n"])).
Proof.
  intros Hoff. unfold prun, drm_vid_ep_probe.
  destruct (pl_kzalloc pl) eqn:Hk; cbn [negb].
  2:{ do 3 eexists. split; [reflexivity|]. left. auto. }
  cbn [core base with_base axi_clk vidin_clk dev].
  destruct (IS_ERR (pl_ioremap pl)) eqn:Hio.
  { do 3 eexists. split; [reflexivity|]. right. left. auto. }
  destruct (IS_ERR (pl_axi_clk pl)) eqn:Hax.
  { do 3 eexists. split; [reflexivity|]. right. right. left. auto. }
  destruct (IS_ERR (pl_vidin_clk pl)) eqn:Hvi.
  { do 3 eexists. split; [reflexivity|]. right. right. right. left. auto. }
  destruct (pl_axi_enable pl =? 0) eqn:Hen; cbn [negb].
  { apply Z.eqb_eq in Hen. exfalso. apply Hoff. unfold clocks_on. auto. }
  apply Z.eqb_neq in Hen.
  do 3 eexists. split; [reflexivity|]. right. right. right. right. auto.
Qed.

Lemma PTR_ERR_negative (p : Z) :
  0 <= p < 2 ^ 64 -> IS_ERR p = true -> - MAX_ERRNO <= PTR_ERR p < 0.
Proof.
  intros Hp H. unfold IS_ERR in H. apply Z.leb_le in H.
  change (u64 (- MAX_ERRNO)) with (2 ^ 64 - 4095) in H.
  unfold PTR_ERR, s64, MAX_ERRNO.
  replace ((p + 2 ^ 63) mod 2 ^ 64) with (p - 2 ^ 63)
    by (apply Z.mod_unique with 1; lia).
  rewrite s32_small; lia.
Qed.

(** X16.  When probe fails before the video clock is touched (no memory, an
    error pointer for the register window or for a clock, or the AXI clock
    not enabling, with pointers of 64 bits and a negative errno from the
    clock framework), it returns a negative value and undoes nothing: no
    clock is disabled, no register is accessed, no interrupt is requested, no
    component is added, and the only clock it may have asked to enable is the
    AXI clock, whose error code it then returns. *)
Theorem probe_early_failure (pl : platform) (hw : hardware) :
  ~ clocks_on pl ->
  0 <= pl_ioremap pl < 2 ^ 64 ->
  0 <= pl_axi_clk pl < 2 ^ 64 ->
  0 <= pl_vidin_clk pl < 2 ^ 64 ->
  pl_axi_enable pl <= 0 ->
  exists ret d log,
    prun (drm_vid_ep_probe of_node_cmp pl) hw = Some ((ret, d), log) /\
    ret < 0 /\
    existsb is_clk_disable log = false /\
    io_of log = [] /\
    existsb is_request_irq log = false /\
    ~ In ComponentAdd log /\
    (forall k, In (ClkPrepareEnable k) log ->
               k = pl_axi_clk pl /\ ret = pl_axi_enable pl).
Proof.
  intros Hoff Hio Hax Hvi Hen.
  destruct (probe_early_run pl hw Hoff) as (ret & d & log & Hrun & Hcases).
  exists ret, d, log. split; [exact Hrun|].
  destruct Hcases
    as [(_ & -> & _ & ->)
       | [(E & -> & ->) | [(E & -> & ->) | [(E & -> & ->) | (E & -> & ->)]]]].
  - repeat split; try reflexivity; intros; cbn [In] in *; tauto.
  - pose proof (PTR_ERR_negative _ Hio E).
    split; [lia|]. repeat split; try reflexivity;
      cbn [In] in *; intuition discriminate.
  - pose proof (PTR_ERR_negative _ Hax E).
    split; [lia|]. repeat split; try reflexivity;
      cbn [In] in *; intuition discriminate.
  - pose proof (PTR_ERR_negative _ Hvi E).
    split; [lia|]. repeat split; try reflexivity;
      cbn [In] in *; intuition discriminate.
  - split; [lia|]. do 3 (split; [reflexivity|]).
    split; [cbn [In]; intuition discriminate|].
    intros k Hin. cbn [In] in Hin.
    destruct Hin as [Hin | [Hin | [Hin | []]]]; try discriminate.
    injection Hin as <-. auto.
Qed.

Lemma enables_of_app (clk : Z) (l1 l2 : list call) :
  enables_of clk (l1 ++ l2)
  = (enables_of clk l1 + enables_of clk l2)%nat.
Proof. unfold enables_of. now rewrite filter_app, length_app. Qed.

Lemma disables_of_app (clk : Z) (l1 l2 : list call) :
  disables_of clk (l1 ++ l2)
  = (disables_of clk l1 + disables_of clk l2)%nat.
Proof. unfold disables_of. now rewrite filter_app, length_app. Qed.

Lemma writes_of_io_app (l1 l2 : list call) :
  writes_of (io_of (l1 ++ l2))
  = writes_of (io_of l1) ++ writes_of (io_of l2).
Proof. unfold writes_of, io_of. now rewrite !flat_map_app. Qed.

(** Nothing before the end of the port scan disables a clock, requests the
    interrupt, writes a register or touches the component framework. *)
Lemma probe_prefix_quiet (pl : platform) (lports : list call) :
  forallb port_call lports = true ->
  existsb is_clk_disable (probe_prefix pl lports) = false /\
  existsb is_request_irq (probe_prefix pl lports) = false /\
  writes_of (io_of (probe_prefix pl lports)) = [] /\
  ~ In ComponentAdd (probe_prefix pl lports) /\
  ~ In PlatformData (probe_prefix pl lports) /\
  (forall clk,
      enables_of clk (probe_prefix pl lports)
      = enables_of clk [ClkPrepareEnable (pl_axi_clk pl);
                        ClkPrepareEnable (pl_vidin_clk pl)] /\
      disables_of clk (probe_prefix pl lports) = 0%nat).
Proof.
  intros Hl. destruct (port_calls_quiet _ Hl) as (H1 & H2 & H3 & H4).
  pose proof (port_calls_exclude _ port_call_no_request _ Hl) as H5.
  unfold probe_prefix.
  split; [|split; [|split; [|split; [|split]]]].
  - rewrite !existsb_app, H1.
    destruct (pl_vidin_enable pl =? 0), (pl_ports pl =? NULL); reflexivity.
  - rewrite !existsb_app, H5.
    destruct (pl_vidin_enable pl =? 0), (pl_ports pl =? NULL); reflexivity.
  - rewrite !writes_of_io_app, H3.
    destruct (pl_vidin_enable pl =? 0), (pl_ports pl =? NULL); reflexivity.
  - intros Hin. rewrite !in_app_iff in Hin.
    destruct Hin as [Hin | [Hin | [Hin | Hin]]].
    + cbn [In] in Hin. intuition discriminate.
    + destruct (pl_vidin_enable pl =? 0); cbn [In] in Hin;
        intuition discriminate.
    + destruct (pl_ports pl =? NULL); cbn [In] in Hin;
        intuition discriminate.
    + apply H4 in Hin. discriminate.
  - intros Hin. rewrite !in_app_iff in Hin.
    destruct Hin as [Hin | [Hin | [Hin | Hin]]].
    + cbn [In] in Hin. intuition discriminate.
    + destruct (pl_vidin_enable pl =? 0); cbn [In] in Hin;
        intuition discriminate.
    + destruct (pl_ports pl =? NULL); cbn [In] in Hin;
        intuition discriminate.
    + apply H4 in Hin. discriminate.
  - intros clk. destruct (H2 clk) as [He Hd].
    rewrite !enables_of_app, !disables_of_app, He, Hd.
    split.
    + destruct (pl_vidin_enable pl =? 0), (pl_ports pl =? NULL);
        unfold enables_of; cbn [filter];
        destruct (pl_axi_clk pl =? clk), (pl_vidin_clk pl =? clk);
        reflexivity.
    + destruct (pl_vidin_enable pl =? 0), (pl_ports pl =? NULL);
        reflexivity.
Qed.

(** [probe_run] with the calls up to the port scan folded. *)
Lemma probe_run_prefix (pl : platform) (hw : hardware) :
  clocks_on pl ->
  exists r lports,
    probe_ports of_node_cmp (pl_children pl) 0 0 hw [] = Some (r, lports) /\
    forallb port_call lports = true /\
    (forallb (port_ok of_node_cmp) (pl_children pl) = true -> r = None) /\
    (forall ret, r = Some ret ->
                 ret <> 0 /\
                 (Forall (fun n => dn_reg_ret n <= 0) (pl_children pl) ->
                  ret < 0)) /\
    let d := mk_device (with_base (pl_ioremap pl) zeroed_ep) (pl_dev pl)
               (pl_axi_clk pl) (pl_vidin_clk pl) in
    let db := mk_device (with_bridge (pl_bridge pl) (core d)) (pl_dev pl)
                (pl_axi_clk pl) (pl_vidin_clk pl) in
    let pre := probe_prefix pl lports in
    let cleanup :=
      [ClkDisableUnprepare (pl_vidin_clk pl);
       ClkDisableUnprepare (pl_axi_clk pl)] in
    let irq_off := Io (Writel WREG_IRQ_ENABLE 0) in
    let request := RequestThreadedIrq (pl_irq pl) in
    prun (drm_vid_ep_probe of_node_cmp pl) hw =
    Some
      match r with
      | Some ret => ((ret, Some d), pre ++ cleanup)
      | None =>
          if pl_irq pl <? 0 then
            ((pl_irq pl, Some d), pre ++ [irq_off] ++ cleanup)
          else if pl_request_irq pl <? 0 then
            ((pl_request_irq pl, Some d),
             pre ++ [irq_off; request] ++ cleanup)
          else if pl_vpss_node pl =? NULL then
            if pl_component_add pl <? 0 then
              ((pl_component_add pl, Some d),
               pre ++ [irq_off; request; PlatformData; ComponentAdd]
                   ++ cleanup)
            else
              ((pl_component_add pl, Some d),
               pre ++ [irq_off; request; PlatformData; ComponentAdd])
          else if pl_bridge pl =? NULL then
            ((- EPROBE_DEFER, Some db),
             pre ++ [irq_off; request;
                     DevInfo "Didn't get bridge instance\n"] ++ cleanup)
          else if pl_component_add pl <? 0 then
            ((pl_component_add pl, Some db),
             pre ++ [irq_off; request; PlatformData; ComponentAdd]
                 ++ cleanup)
          else
            ((pl_component_add pl, Some db),
             pre ++ [irq_off; request; PlatformData; ComponentAdd])
      end.
Proof.
  intros Hon.
  destruct (probe_run pl hw Hon) as (r & lports & H1 & H2 & H3 & H4 & H5).
  exists r, lports. repeat (split; [assumption|]). exact H5.
Qed.

Lemma with_vidin_enable_clocks_on (v : Z) (pl : platform) :
  clocks_on pl -> clocks_on (with_vidin_enable v pl).
Proof. intros H. exact H. Qed.

(** X17.  What enabling the video clock returns changes neither the value
    probe returns nor the structure it leaves, and of its calls only the
    [dev_err] lines: a failure to enable the video clock is reported and
    otherwise ignored. *)
Theorem probe_ignores_vidin_enable (pl : platform) (v1 v2 : Z)
    (hw : hardware) :
  option_map fst (prun (drm_vid_ep_probe of_node_cmp
                          (with_vidin_enable v1 pl)) hw)
  = option_map fst (prun (drm_vid_ep_probe of_node_cmp
                            (with_vidin_enable v2 pl)) hw) /\
  option_map (fun x => without_dev_err (snd x))
    (prun (drm_vid_ep_probe of_node_cmp (with_vidin_enable v1 pl)) hw)
  = option_map (fun x => without_dev_err (snd x))
      (prun (drm_vid_ep_probe of_node_cmp (with_vidin_enable v2 pl)) hw).
Proof.
  destruct (clocks_on_dec pl) as [Hon|Hoff].
  - destruct (probe_run_prefix _ hw (with_vidin_enable_clocks_on v1 pl Hon))
      as (r1 & l1 & Hp1 & _ & _ & _ & Hrun1).
    destruct (probe_run_prefix _ hw (with_vidin_enable_clocks_on v2 pl Hon))
      as (r2 & l2 & Hp2 & _ & _ & _ & Hrun2).
    cbn [with_vidin_enable pl_children] in Hp1, Hp2.
    rewrite Hp1 in Hp2. injection Hp2 as <- <-.
    cbv zeta in Hrun1, Hrun2. rewrite Hrun1, Hrun2. clear Hrun1 Hrun2.
    unfold probe_prefix, without_dev_err.
    cbn [with_vidin_enable pl_dev pl_ioremap pl_axi_clk pl_vidin_clk
         pl_vidin_enable pl_ports pl_irq pl_request_irq pl_vpss_node
         pl_bridge pl_component_add].
    destruct r1 as [ret|];
      [|destruct (pl_irq pl <? 0);
        [|destruct (pl_request_irq pl <? 0);
          [|destruct (pl_vpss_node pl =? NULL);
            [destruct (pl_component_add pl <? 0)
            |destruct (pl_bridge pl =? NULL);
             [|destruct (pl_component_add pl <? 0)]]]]];
      (split; [reflexivity|]);
      cbn [option_map snd]; f_equal;
      rewrite !filter_app;
      destruct (v1 =? 0), (v2 =? 0); reflexivity.
  - unfold prun, drm_vid_ep_probe.
    cbn [with_vidin_enable pl_dev pl_kzalloc pl_ioremap pl_axi_clk
         pl_vidin_clk pl_axi_enable core base with_base axi_clk vidin_clk
         dev].
    destruct (pl_kzalloc pl) eqn:Hk; cbn [negb]; [|split; reflexivity].
    destruct (IS_ERR (pl_ioremap pl)) eqn:Hio; [split; reflexivity|].
    destruct (IS_ERR (pl_axi_clk pl)) eqn:Hax; [split; reflexivity|].
    destruct (IS_ERR (pl_vidin_clk pl)) eqn:Hvi; [split; reflexivity|].
    destruct (pl_axi_enable pl =? 0) eqn:Hen; cbn [negb];
      [|split; reflexivity].
    exfalso. apply Hoff. apply Z.eqb_eq in Hen. unfold clocks_on. auto.
Qed.

Lemma probe_prefix_no_request (pl : platform) (lports : list call) (irq : Z) :
  forallb port_call lports = true ->
  ~ In (RequestThreadedIrq irq) (probe_prefix pl lports).
Proof.
  intros Hl Hin.
  destruct (probe_prefix_quiet pl lports Hl) as (_ & Hq & _).
  assert (existsb is_request_irq (probe_prefix pl lports) = true) as Ht
    by (apply existsb_exists; eexists; split; [exact Hin|reflexivity]).
  congruence.
Qed.

(** X18.  Whenever probe requests its interrupt, the request is for the
    number [platform_get_irq] returned, which is not negative, it is the only
    request, and the call just before it writes 0 to the interrupt enable
    register, the only register write of the whole probe. *)
Theorem probe_quiesces_interrupt (pl : platform) (hw : hardware)
    (ret : Z) (d : option drm_vid_ep_device) (log : list call) (irq : Z) :
  prun (drm_vid_ep_probe of_node_cmp pl) hw = Some ((ret, d), log) ->
  In (RequestThreadedIrq irq) log ->
  irq = pl_irq pl /\ 0 <= irq /\
  writes_of (io_of log) = [(WREG_IRQ_ENABLE, 0)] /\
  exists pre post,
    log = pre ++ Io (Writel WREG_IRQ_ENABLE 0)
              :: RequestThreadedIrq irq :: post /\
    existsb is_request_irq pre = false /\
    existsb is_request_irq post = false.
Proof.
  intros Hrun Hin.
  destruct (clocks_on_dec pl) as [Hon|Hoff].
  2:{ destruct (probe_early_run pl hw Hoff) as (r' & d' & l' & Hrun' & Hc).
      rewrite Hrun in Hrun'. injection Hrun' as <- <- <-.
      exfalso.
      destruct Hc
        as [(_ & _ & _ & ->)
           | [(_ & _ & ->) | [(_ & _ & ->) | [(_ & _ & ->) | (_ & _ & ->)]]]];
        cbn [In] in Hin; intuition discriminate. }
  destruct (probe_run_prefix pl hw Hon)
    as (r & lports & _ & Hl & _ & _ & Hrun').
  cbv zeta in Hrun'. rewrite Hrun in Hrun'. clear Hrun.
  pose proof (probe_prefix_no_request pl lports irq Hl) as Hno.
  destruct (probe_prefix_quiet pl lports Hl) as (_ & Hq & Hw & _).
  remember (probe_prefix pl lports) as pre eqn:Epre. clear Epre.
  destruct r as [ret'|].
  { injection Hrun' as -> -> ->. exfalso.
    apply in_app_iff in Hin. destruct Hin as [Hin|Hin]; [now apply Hno|].
    cbn [In] in Hin. intuition discriminate. }
  destruct (Z.ltb_spec (pl_irq pl) 0) as [Hirq|Hirq].
  { injection Hrun' as -> -> ->. exfalso.
    apply in_app_iff in Hin. destruct Hin as [Hin|Hin]; [now apply Hno|].
    cbn [In app] in Hin. intuition discriminate. }
  assert (Hshape :
    exists post,
      log = pre
            ++ Io (Writel WREG_IRQ_ENABLE 0)
               :: RequestThreadedIrq (pl_irq pl) :: post /\
      existsb is_request_irq post = false /\
      writes_of (io_of post) = []).
  { destruct (pl_request_irq pl <? 0);
      [|destruct (pl_vpss_node pl =? NULL);
        [destruct (pl_component_add pl <? 0)
        |destruct (pl_bridge pl =? NULL);
         [|destruct (pl_component_add pl <? 0)]]];
      injection Hrun' as -> -> ->;
      eexists; (split; [reflexivity|]); split; reflexivity. }
  clear Hrun'. destruct Hshape as (post & -> & Hpost & Hwpost).
  assert (irq = pl_irq pl) as ->.
  { apply in_app_iff in Hin. destruct Hin as [Hin|Hin];
      [now apply Hno in Hin|].
    cbn [In] in Hin. destruct Hin as [Hin | [Hin | Hin]].
    - discriminate.
    - now injection Hin.
    - exfalso.
      assert (existsb is_request_irq post = true) as Ht
        by (apply existsb_exists; eexists; split; [exact Hin|reflexivity]).
      congruence. }
  split; [reflexivity|]. split; [exact Hirq|]. split.
  - rewrite writes_of_io_app, Hw. cbn [app].
    change (Io (Writel WREG_IRQ_ENABLE 0)
              :: RequestThreadedIrq (pl_irq pl) :: post)
      with ([Io (Writel WREG_IRQ_ENABLE 0); RequestThreadedIrq (pl_irq pl)]
              ++ post).
    rewrite writes_of_io_app, Hwpost. reflexivity.
  - exists pre, post. auto.
Qed.

(** X19.  With the clocks on, every child node passing the port scan, an
    interrupt obtained and requested, and an "xlnx,vpss" node whose bridge
    is not there yet, probe returns [-EPROBE_DEFER] with a null bridge in
    the structure; it logs the missing bridge and then disables the video
    clock and the AXI clock as its last calls, and neither publishes the
    platform data nor adds the component. *)
Theorem probe_defers_without_bridge (pl : platform) (hw : hardware) :
  clocks_on pl ->
  forallb (port_ok of_node_cmp) (pl_children pl) = true ->
  0 <= pl_irq pl ->
  0 <= pl_request_irq pl ->
  pl_vpss_node pl <> NULL ->
  pl_bridge pl = NULL ->
  exists d pre,
    prun (drm_vid_ep_probe of_node_cmp pl) hw
      = Some ((- EPROBE_DEFER, Some d),
              pre ++ [DevInfo "Didn't get bridge instance\n";
                      ClkDisableUnprepare (pl_vidin_clk pl);
                      ClkDisableUnprepare (pl_axi_clk pl)]) /\
    bridge (core d) = NULL /\
    In (RequestThreadedIrq (pl_irq pl)) pre /\
    ~ In ComponentAdd pre /\ ~ In PlatformData pre /\
    existsb is_clk_disable pre = false.
Proof.
  intros Hon Hok Hirq Hreq Hvpss Hbr.
  destruct (probe_run_prefix pl hw Hon)
    as (r & lports & _ & Hl & Hnone & _ & Hrun).
  cbv zeta in Hrun. rewrite (Hnone Hok) in Hrun.
  destruct (Z.ltb_spec (pl_irq pl) 0); [lia|].
  destruct (Z.ltb_spec (pl_request_irq pl) 0); [lia|].
  apply Z.eqb_neq in Hvpss. rewrite Hvpss in Hrun.
  rewrite Hbr in Hrun. change (NULL =? NULL) with true in Hrun.
  destruct (probe_prefix_quiet pl lports Hl)
    as (Hd & _ & _ & Hca & Hpd & _).
  eexists.
  exists (probe_prefix pl lports
          ++ [Io (Writel WREG_IRQ_ENABLE 0); RequestThreadedIrq (pl_irq pl)]).
  split; [rewrite Hrun, <- app_assoc; reflexivity|].
  split; [reflexivity|].
  split; [apply in_app_iff; right; cbn [In]; auto|].
  split; [intros Hin; apply in_app_iff in Hin; destruct Hin as [Hin|Hin];
          [now apply Hca | cbn [In] in Hin; intuition discriminate]|].
  split; [intros Hin; apply in_app_iff in Hin; destruct Hin as [Hin|Hin];
          [now apply Hpd | cbn [In] in Hin; intuition discriminate]|].
  rewrite existsb_app, Hd. reflexivity.
Qed.

(** X20.  With the clocks on and device tree reads that return 0 or a
    negative errno: a probe that returns a negative value has called
    [clk_disable_unprepare] on each clock as often as [clk_prepare_enable];
    a probe that returns a non-negative value has disabled no clock, and
    [drm_vid_ep_remove] on the structure it left returns 0 and restores that
    balance. *)
Theorem probe_remove_balanced (pl : platform) (hw hw' : hardware)
    (ret : Z) (d : drm_vid_ep_device) (logp : list call) :
  clocks_on pl ->
  Forall (fun n => dn_reg_ret n <= 0) (pl_children pl) ->
  prun (drm_vid_ep_probe of_node_cmp pl) hw = Some ((ret, Some d), logp) ->
  (ret < 0 -> forall clk, enables_of clk logp = disables_of clk logp) /\
  (0 <= ret ->
   exists logr,
     prun (drm_vid_ep_remove d) hw' = Some (0, logr) /\
     forall clk,
       disables_of clk logp = 0%nat /\
       enables_of clk (logp ++ logr) = disables_of clk (logp ++ logr)).
Proof.
  intros Hon Hreg Hrun.
  destruct (probe_run_prefix pl hw Hon)
    as (r & lports & _ & Hl & _ & Hret & Hrun').
  cbv zeta in Hrun'. rewrite Hrun in Hrun'. clear Hrun.
  destruct (probe_prefix_quiet pl lports Hl) as (_ & _ & _ & _ & _ & Hclk).
  remember (probe_prefix pl lports) as pre eqn:Epre. clear Epre.
  assert (Hbal : forall clk tail,
    enables_of clk tail = 0%nat ->
    disables_of clk tail = 0%nat ->
    enables_of clk (pre ++ tail
                    ++ [ClkDisableUnprepare (pl_vidin_clk pl);
                        ClkDisableUnprepare (pl_axi_clk pl)])
    = disables_of clk (pre ++ tail
                       ++ [ClkDisableUnprepare (pl_vidin_clk pl);
                           ClkDisableUnprepare (pl_axi_clk pl)])).
  { intros clk tail He Hd. destruct (Hclk clk) as [Hpe Hpd].
    rewrite !enables_of_app, !disables_of_app, Hpe, Hpd, He, Hd.
    unfold enables_of, disables_of. cbn [filter].
    destruct (pl_axi_clk pl =? clk), (pl_vidin_clk pl =? clk); reflexivity. }
  assert (Hgood : forall tail dd,
    (forall clk, enables_of clk tail = 0%nat) ->
    (forall clk, disables_of clk tail = 0%nat) ->
    axi_clk dd = pl_axi_clk pl -> vidin_clk dd = pl_vidin_clk pl ->
    exists logr,
      prun (drm_vid_ep_remove dd) hw' = Some (0, logr) /\
      forall clk,
        disables_of clk (pre ++ tail) = 0%nat /\
        enables_of clk ((pre ++ tail) ++ logr)
        = disables_of clk ((pre ++ tail) ++ logr)).
  { intros tail dd He Hd Ha Hv. eexists. split; [reflexivity|].
    intros clk. destruct (Hclk clk) as [Hpe Hpd].
    rewrite !enables_of_app, !disables_of_app, Hpe, Hpd, He, Hd, Ha, Hv.
    split; [reflexivity|].
    unfold enables_of, disables_of. cbn [filter].
    destruct (pl_axi_clk pl =? clk), (pl_vidin_clk pl =? clk); reflexivity. }
  destruct r as [ret'|].
  { injection Hrun' as -> -> ->.
    destruct (Hret ret' eq_refl) as [_ Hneg]. specialize (Hneg Hreg).
    split; [|intros; lia].
    intros _ clk. apply (Hbal clk []); reflexivity. }
  destruct (Z.ltb_spec (pl_irq pl) 0).
  { injection Hrun' as -> -> ->. split; [|intros; lia].
    intros _ clk. apply (Hbal clk [_]); reflexivity. }
  destruct (Z.ltb_spec (pl_request_irq pl) 0).
  { injection Hrun' as -> -> ->. split; [|intros; lia].
    intros _ clk. apply (Hbal clk [_; _]); reflexivity. }
  destruct (pl_vpss_node pl =? NULL).
  { destruct (Z.ltb_spec (pl_component_add pl) 0);
      injection Hrun' as -> -> ->.
    - split; [|intros; lia].
      intros _ clk. apply (Hbal clk [_; _; _; _]); reflexivity.
    - split; [intros; lia|]. intros _.
      apply Hgood; reflexivity. }
  destruct (pl_bridge pl =? NULL).
  { injection Hrun' as -> -> ->.
    split; [|unfold EPROBE_DEFER; intros; lia].
    intros _ clk. apply (Hbal clk [_; _; _]); reflexivity. }
  destruct (Z.ltb_spec (pl_component_add pl) 0);
    injection Hrun' as -> -> ->.
  - split; [|intros; lia].
    intros _ clk. apply (Hbal clk [_; _; _; _]); reflexivity.
  - split; [intros; lia|]. intros _.
    apply Hgood; reflexivity.
Qed.

(** X21.  The port scan stops at the first child node that is a port
    without an endpoint or with an unreadable "reg": it yields [-EINVAL] in
    the first case and the error of the "reg" read in the second, whatever
    nodes follow and whatever the port mask and count were, and it has called
    [of_node_put] once for every port it visited, the failing one included. *)
Theorem port_scan_first_failure :
  forall (good : list device_node) (bad : device_node)
         (rest : list device_node) (pm np : Z) (hw : hardware)
         (log : list call),
  forallb (port_ok of_node_cmp) good = true ->
  port_ok of_node_cmp bad = false ->
  exists l,
    probe_ports of_node_cmp (good ++ bad :: rest) pm np hw log
      = Some (Some (if dn_endpoint bad =? NULL then - EINVAL
                    else dn_reg_ret bad),
              log ++ l) /\
    (dn_endpoint bad <> NULL -> dn_reg_ret bad <> 0) /\
    List.length (filter is_node_put l)
      = S (List.length (filter (is_port of_node_cmp) good)).
Proof.
  induction good as [|a good IH]; intros bad rest pm np hw log Hgood Hbad.
  - cbn [app probe_ports filter List.length].
    unfold port_ok in Hbad.
    destruct (dn_name bad) as [name|]; [|discriminate].
    destruct (of_node_cmp name "port" =? 0); cbn [negb orb] in Hbad;
      [|discriminate].
    cbn [negb].
    destruct (dn_endpoint bad =? NULL) eqn:Ee; cbn [negb andb] in Hbad.
    + eexists. split; [unfold pbind, pemit, pret; rewrite <- app_assoc;
                       reflexivity|].
      apply Z.eqb_eq in Ee. split; [intros; contradiction|reflexivity].
    + rewrite Hbad. cbn [negb].
      eexists. split; [unfold pbind, pemit, pret; rewrite <- app_assoc;
                       reflexivity|].
      apply Z.eqb_neq in Hbad. split; [auto|reflexivity].
  - cbn [forallb] in Hgood. apply andb_prop in Hgood.
    destruct Hgood as [Ha Hgood].
    cbn [app probe_ports filter]. unfold port_ok in Ha. unfold is_port at 1.
    destruct (dn_name a) as [name|].
    + destruct (of_node_cmp name "port" =? 0); cbn [negb orb] in Ha;
        cbn [negb].
      * apply andb_prop in Ha. destruct Ha as [Hend Hreg].
        apply negb_true_iff in Hend. rewrite Hend, Hreg. cbn [negb].
        destruct (IH bad rest
                    (u32 (Z.lor pm (s32 (Z.shiftl 1 (dn_reg_index a)))))
                    (u32 (np + 1)) hw (log ++ [OfNodePut (dn_endpoint a)])
                    Hgood Hbad) as (l & Hrun & Hne & Hlen).
        exists (OfNodePut (dn_endpoint a) :: l).
        split; [unfold pbind, pemit; rewrite Hrun, <- app_assoc;
                reflexivity|].
        split; [exact Hne|]. cbn [filter is_node_put List.length].
        now rewrite Hlen.
      * destruct (IH bad rest pm np hw
                    (log ++ [Io (DevDbg
                       "port name is null or node name is not port!\n")])
                    Hgood Hbad) as (l & Hrun & Hne & Hlen).
        eexists (_ :: l).
        split; [unfold pbind; rewrite lift_emit_run, Hrun, <- app_assoc;
                reflexivity|].
        split; [exact Hne|]. cbn [filter is_node_put]. exact Hlen.
    + destruct (IH bad rest pm np hw
                  (log ++ [Io (DevDbg
                     "port name is null or node name is not port!\n")])
                  Hgood Hbad) as (l & Hrun & Hne & Hlen).
      eexists (_ :: l).
      split; [unfold pbind; rewrite lift_emit_run, Hrun, <- app_assoc;
              reflexivity|].
      split; [exact Hne|]. cbn [filter is_node_put]. exact Hlen.
Qed.

End ProbeFacts.

Lemma probe_clock_discipline_witness :
  clocks_on sample_platform /\
  Forall (fun n => dn_reg_ret n <= 0) (pl_children sample_platform) /\
  exists ret d log,
    prun (drm_vid_ep_probe sample_node_cmp sample_platform) (fun _ => 0)
      = Some ((ret, Some d), log) /\
    base (core d) = pl_ioremap sample_platform /\
    axi_clk d = pl_axi_clk sample_platform /\
    vidin_clk d = pl_vidin_clk sample_platform /\
    ((0 <= ret /\ ret = pl_component_add sample_platform /\
      existsb is_clk_disable log = false /\
      last log PlatformData = ComponentAdd /\
      bridge (core d)
        = (if pl_vpss_node sample_platform =? NULL then NULL
           else pl_bridge sample_platform)) \/
     (ret < 0 /\
      exists pre,
        log = pre ++ [ClkDisableUnprepare (pl_vidin_clk sample_platform);
                      ClkDisableUnprepare (pl_axi_clk sample_platform)] /\
        existsb is_clk_disable pre = false)).
Proof.
  assert (H1 : clocks_on sample_platform)
    by (unfold clocks_on; repeat split; reflexivity).
  assert (H2 : Forall (fun n => dn_reg_ret n <= 0)
                 (pl_children sample_platform))
    by (unfold sample_platform; cbn [pl_children];
        constructor; [cbn; lia | constructor]).
  split; [exact H1|]. split; [exact H2|].
  exact (probe_clock_discipline sample_node_cmp sample_platform (fun _ => 0)
           H1 H2).
Defined.

Lemma probe_early_failure_witness :
  ~ clocks_on sample_platform_axi_fails /\
  exists ret d log,
    prun (drm_vid_ep_probe sample_node_cmp sample_platform_axi_fails)
      (fun _ => 0) = Some ((ret, d), log) /\
    ret < 0 /\
    existsb is_clk_disable log = false /\
    io_of log = [] /\
    existsb is_request_irq log = false /\
    ~ In ComponentAdd log /\
    (forall k, In (ClkPrepareEnable k) log ->
               k = pl_axi_clk sample_platform_axi_fails /\
               ret = pl_axi_enable sample_platform_axi_fails).
Proof.
  assert (H1 : ~ clocks_on sample_platform_axi_fails)
    by (intros (_ & _ & _ & _ & H); discriminate H).
  split; [exact H1|].
  apply (probe_early_failure sample_node_cmp sample_platform_axi_fails
           (fun _ => 0) H1);
    unfold sample_platform_axi_fails;
    cbn [pl_ioremap pl_axi_clk pl_vidin_clk pl_axi_enable];
    unfold EINVAL; lia.
Defined.

Lemma probe_quiesces_interrupt_witness :
  exists ret d log,
    prun (drm_vid_ep_probe sample_node_cmp sample_platform) (fun _ => 0)
      = Some ((ret, d), log) /\
    In (RequestThreadedIrq 42) log /\
    42 = pl_irq sample_platform /\ 0 <= 42 /\
    writes_of (io_of log) = [(WREG_IRQ_ENABLE, 0)] /\
    exists pre post,
      log = pre ++ Io (Writel WREG_IRQ_ENABLE 0)
                :: RequestThreadedIrq 42 :: post /\
      existsb is_request_irq pre = false /\
      existsb is_request_irq post = false.
Proof.
  do 3 eexists.
  assert (H1 : prun (drm_vid_ep_probe sample_node_cmp sample_platform)
                 (fun _ => 0)
               = Some ((_, _), _)) by (vm_compute; reflexivity).
  split; [exact H1|].
  match goal with
  | |- In ?c ?l /\ _ =>
      assert (H2 : In c l) by (repeat (first [left; reflexivity | right]))
  end.
  split; [exact H2|].
  exact (probe_quiesces_interrupt sample_node_cmp sample_platform (fun _ => 0)
           _ _ _ 42 H1 H2).
Defined.

Lemma probe_defers_without_bridge_witness :
  clocks_on sample_platform_no_bridge /\
  exists d pre,
    prun (drm_vid_ep_probe sample_node_cmp sample_platform_no_bridge)
      (fun _ => 0)
      = Some ((- EPROBE_DEFER, Some d),
              pre ++ [DevInfo "Didn't get bridge instance\n";
                      ClkDisableUnprepare
                        (pl_vidin_clk sample_platform_no_bridge);
                      ClkDisableUnprepare
                        (pl_axi_clk sample_platform_no_bridge)]) /\
    bridge (core d) = NULL /\
    In (RequestThreadedIrq (pl_irq sample_platform_no_bridge)) pre /\
    ~ In ComponentAdd pre /\ ~ In PlatformData pre /\
    existsb is_clk_disable pre = false.
Proof.
  assert (H1 : clocks_on sample_platform_no_bridge)
    by (unfold clocks_on; repeat split; reflexivity).
  split; [exact H1|].
  apply (probe_defers_without_bridge sample_node_cmp
           sample_platform_no_bridge (fun _ => 0) H1).
  - reflexivity.
  - cbn; lia.
  - cbn; lia.
  - discriminate.
  - reflexivity.
Defined.

Lemma probe_remove_balanced_witness :
  clocks_on sample_platform /\
  exists ret d logp,
    prun (drm_vid_ep_probe sample_node_cmp sample_platform) (fun _ => 0)
      = Some ((ret, Some d), logp) /\
    (ret < 0 -> forall clk, enables_of clk logp = disables_of clk logp) /\
    (0 <= ret ->
     exists logr,
       prun (drm_vid_ep_remove d) (fun _ => 1) = Some (0, logr) /\
       forall clk,
         disables_of clk logp = 0%nat /\
         enables_of clk (logp ++ logr) = disables_of clk (logp ++ logr)).
Proof.
  assert (H1 : clocks_on sample_platform)
    by (unfold clocks_on; repeat split; reflexivity).
  assert (H2 : Forall (fun n => dn_reg_ret n <= 0)
                 (pl_children sample_platform))
    by (unfold sample_platform; cbn [pl_children];
        constructor; [cbn; lia | constructor]).
  split; [exact H1|].
  do 3 eexists.
  assert (H3 : prun (drm_vid_ep_probe sample_node_cmp sample_platform)
                 (fun _ => 0)
               = Some ((_, Some _), _)) by (vm_compute; reflexivity).
  split; [exact H3|].
  exact (probe_remove_balanced sample_node_cmp sample_platform (fun _ => 0)
           (fun _ => 1) _ _ _ H1 H2 H3).
Defined.

Lemma port_scan_first_failure_witness :
  forallb (port_ok sample_node_cmp)
    [mk_node (Some "port"%string) 0xE100 0 0] = true /\
  port_ok sample_node_cmp
    (mk_node (Some "port"%string) 0xE101 (- EINVAL) 0) = false /\
  exists l,
    probe_ports sample_node_cmp sample_children_no_reg 0 0 (fun _ => 0) []
      = Some (Some (- EINVAL), l) /\
    (0xE101 <> NULL -> - EINVAL <> 0) /\
    List.length (filter is_node_put l) = 2%nat.
Proof.
  assert (H1 : forallb (port_ok sample_node_cmp)
                 [mk_node (Some "port"%string) 0xE100 0 0] = true)
    by reflexivity.
  assert (H2 : port_ok sample_node_cmp
                 (mk_node (Some "port"%string) 0xE101 (- EINVAL) 0) = false)
    by reflexivity.
  split; [exact H1|]. split; [exact H2|].
  exact (port_scan_first_failure sample_node_cmp
           [mk_node (Some "port"%string) 0xE100 0 0]
           (mk_node (Some "port"%string) 0xE101 (- EINVAL) 0)
           [mk_node (Some "port"%string) NULL 0 0]
           0 0 (fun _ => 0) [] H1 H2).
Defined.
